(** * Airweave file browser and selective upload endpoints

    A shallow embedding of
      backend/airweave/api/v1/endpoints/file_browser.py  (browse_files)
      backend/airweave/api/v1/endpoints/file_upload.py   (upload_selected_files)
    and the properties of the remote-tree browser and of the batch transfer
    pipeline that the specification states about them.

    Conventions of the embedding.
    - A JSON object returned by Microsoft Graph is a record of optional
      fields, one per key the endpoints read: [None] is what [dict.get(key)]
      returns for a key that is not there.
    - The source object, the file downloader and the S3 destination are
      collaborators: their observable behaviour is a parameter, a function of
      an abstract [World] that every call may change.
    - A key that is there holds a value of the type Graph documents for it;
      the one validation of the response models that can then fail is a
      required [str] id that is given [None].
    - An awaited call either returns or raises an [Exception]; handlers are
      the [try] blocks of the source, in the same nesting.  Logging has no
      effect on the results and is left out.
    - A list that the source appends to in place inside a [try] keeps what
      was appended when the block is left by an exception: such blocks
      return the list as it stands when they are left.
    - The pagination loop is defined by well-founded recursion on
      [10 - page_count], the measure its own guard provides. *)

From Stdlib Require Import Ascii String List ZArith Lia Bool Arith PeanoNat.
From Equations Require Import Equations.
Import ListNotations.
Open Scope string_scope.

(** ** Python values *)

(** The exceptions the endpoints tell apart.  [HTTPStatusError] is
    httpx.HTTPStatusError with [e.response.status_code]; [HTTPException] is
    FastAPI's; [ValidationError] is what a pydantic model raises when a
    required [str] field is given [None]; [Exception] is any other one. *)
Inductive exn : Type :=
| HTTPStatusError (status_code : Z) (message : string)
| HTTPException (status_code : Z) (detail : string)
| ValidationError (model field : string)
| Exception (message : string).

(** The [file] facet of a drive item: [item.get("file", {})]. *)
Record facet : Type := Facet { mimeType : option string }.

(** A JSON object, with the keys that the two endpoints read. *)
#[warnings="-register-all"]
Inductive dict : Type := Dict {
  d_id : option string;                  (* "id" *)
  d_displayName : option string;         (* "displayName" *)
  d_name : option string;                (* "name" *)
  d_webUrl : option string;              (* "webUrl" *)
  d_description : option string;         (* "description" *)
  d_siteCollection : option string;      (* "siteCollection", carried, never read *)
  d_value : option (list dict);          (* "value" *)
  d_nextLink : option string;            (* "@odata.nextLink" *)
  d_folder : bool;                       (* "folder" in item *)
  d_file : option facet;                 (* "file" in item, item.get("file") *)
  d_size : option Z;                     (* "size" *)
  d_lastModifiedDateTime : option string (* "lastModifiedDateTime" *)
}.

(** [d.get(key, default)] *)
Definition get_or {A : Type} (o : option A) (default : A) : A :=
  match o with Some v => v | None => default end.

(** Truth value of an [Optional[str]]: [None] and the empty string are false. *)
Definition truthy (o : option string) : bool :=
  match o with
  | Some s => negb (s =? "")
  | None => false
  end.

(** An [Optional[str]] inside an f-string. *)
Definition fmt (o : option string) : string := get_or o "None".

(** [a == b] on two [Optional[str]]. *)
Definition opt_eqb (a b : option string) : bool :=
  match a, b with
  | Some x, Some y => x =? y
  | None, None => true
  | _, _ => false
  end.

(** [any(s.get("id") == v for s in l)] *)
Definition any_id (v : option string) (l : list dict) : bool :=
  existsb (fun s => opt_eqb (d_id s) v) l.

(** A value together with the proof that it is the value of the expression
    matched on: keeps the loop condition in scope in a recursive call. *)
Definition inspect {A : Type} (x : A) : {y : A | x = y} := exist _ x eq_refl.

(** ** Response models *)

Record FileItem : Type := mkFileItem {
  fi_id : string;
  fi_name : string;
  fi_path : string;
  fi_size : option Z;
  fi_modified_at : option string;
  fi_type : string;
  fi_mime_type : option string
}.

Record FolderItem : Type := mkFolderItem {
  fo_id : string;
  fo_name : string;
  fo_path : string;
  fo_type : string
}.

Record BrowseResponse : Type := mkBrowseResponse {
  files : list FileItem;
  folders : list FolderItem;
  current_path : option string;
  parent_path : option string
}.

Record FileUploadRequest : Type := mkFileUploadRequest {
  file_ids : list string;
  collection_id : string;
  drive_id : string;
  site_id : option string
}.

Record FileUploadResult : Type := mkFileUploadResult {
  file_id : string;
  file_name : string;
  status : string;
  error : option string;
  s3_path : option string
}.

Record FileUploadResponse : Type := mkFileUploadResponse {
  total_files : nat;
  successful : nat;
  failed : nat;
  skipped : nat;
  results : list FileUploadResult
}.

(** ** Collaborators *)

Record Breadcrumb : Type := mkBreadcrumb {
  bc_entity_id : string;
  bc_name : string;
  bc_entity_type : string
}.

(** The file entity the source builds; [local_path] is set by the download. *)
Record FileEntity : Type := mkFileEntity {
  entity_id : string;
  entity_name : string;
  local_path : option string
}.

(** The arguments of [source._build_file_entity] at its two call sites. *)
Record build_args : Type := mkBuildArgs {
  ba_item : dict;
  ba_drive_name : string;
  ba_site_id : option string;
  ba_drive_id : string;
  ba_site_breadcrumb : option Breadcrumb;
  ba_drive_breadcrumb : option Breadcrumb;
  ba_download_url : string
}.

(** What the endpoints are given: the source instance, its downloader, the
    S3 destination and the collection.  Each call takes the world it runs in
    and returns the world it leaves. *)
Record Collaborators (World : Type) : Type := mkCollaborators {
  str : exn -> string;                                     (* str(e) *)
  GRAPH_BASE_URL : string;
  get_with_auth : World -> string -> (exn + dict) * World;
  (* the async generator: the items it yields, then the exception that ends
     it if there is one *)
  list_drive_items :
    World -> string -> option string -> (list dict * option exn) * World;
  get_download_url :
    World -> string -> string -> (exn + option string) * World;
  build_file_entity :
    World -> build_args -> (exn + option FileEntity) * World;
  (* returns the entity as the download leaves it *)
  download_from_url : World -> FileEntity -> (exn + FileEntity) * World;
  bulk_insert : World -> list FileEntity -> (exn + unit) * World;
  bucket_name : string;
  bucket_prefix : string;
  readable_id : string
}.

Arguments str {World}.
Arguments GRAPH_BASE_URL {World}.
Arguments get_with_auth {World}.
Arguments list_drive_items {World}.
Arguments get_download_url {World}.
Arguments build_file_entity {World}.
Arguments download_from_url {World}.
Arguments bulk_insert {World}.
Arguments bucket_name {World}.
Arguments bucket_prefix {World}.
Arguments readable_id {World}.

(** ** The monad of the endpoints: world, log of Graph requests, exceptions *)

(** One request the endpoint sent through [source._get_with_auth], with what
    came back. *)
Definition event : Type := (string * (exn + dict))%type.

Record state (World : Type) : Type := mkState {
  world : World;
  trace : list event
}.
Arguments mkState {World}.
Arguments world {World}.
Arguments trace {World}.

Definition M (World A : Type) : Type :=
  state World -> (exn + A) * state World.

Definition ret {World A : Type} (a : A) : M World A :=
  fun st => (inr a, st).

Definition raise {World A : Type} (e : exn) : M World A :=
  fun st => (inl e, st).

Definition bind {World A B : Type} (m : M World A) (k : A -> M World B)
  : M World B :=
  fun st =>
    match m st with
    | (inl e, st') => (inl e, st')
    | (inr a, st') => k a st'
    end.

(** [try: m  except Exception as e: h e] *)
Definition try_catch {World A : Type} (m : M World A) (h : exn -> M World A)
  : M World A :=
  fun st =>
    match m st with
    | (inl e, st') => h e st'
    | (inr a, st') => (inr a, st')
    end.

(** A collaborator call that is not logged. *)
Definition call {World A : Type} (f : World -> (exn + A) * World) : M World A :=
  fun st =>
    let (r, w) := f (world st) in
    (r, mkState w (trace st)).

Declare Scope py_scope.
Delimit Scope py_scope with py.
Notation "x <- m ;; k" := (bind m (fun x => k))
  (at level 61, m at next level, right associativity) : py_scope.
Notation "m ;;; k" := (bind m (fun _ => k))
  (at level 61, right associativity) : py_scope.
Open Scope py_scope.

Section Endpoints.

Context {World : Type}.
Variable source : Collaborators World.

(** [await source._get_with_auth(client, url)] *)
Definition _get_with_auth (url : string) : M World dict :=
  fun st =>
    let (r, w) := get_with_auth source (world st) url in
    (r, mkState w (trace st ++ [(url, r)])).

(** * file_upload.py *)

(** [results], [successful], [failed], [skipped] of the upload loop. *)
Record tally : Type := mkTally {
  t_results : list FileUploadResult;
  t_successful : nat;
  t_failed : nat;
  t_skipped : nat
}.

Definition tally0 : tally := mkTally [] 0 0 0.

(** [results.append(r); skipped += 1] *)
Definition add_skipped (t : tally) (r : FileUploadResult) : tally :=
  mkTally (t_results t ++ [r]) (t_successful t) (t_failed t) (t_skipped t + 1).

(** [results.append(r); failed += 1] *)
Definition add_failed (t : tally) (r : FileUploadResult) : tally :=
  mkTally (t_results t ++ [r]) (t_successful t) (t_failed t + 1) (t_skipped t).

(** [results.append(r); successful += 1] *)
Definition add_successful (t : tally) (r : FileUploadResult) : tally :=
  mkTally (t_results t ++ [r]) (t_successful t + 1) (t_failed t) (t_skipped t).

Definition file_url (short_name : string) (req : FileUploadRequest)
  (fid : string) : string :=
  if short_name =? "sharepoint"
  then GRAPH_BASE_URL source ++ "/drives/" ++ drive_id req ++ "/items/" ++ fid
  else "https://graph.microsoft.com/v1.0/drives/" ++ drive_id req
       ++ "/items/" ++ fid.

(** The arguments of [_build_file_entity]: with the site and both
    breadcrumbs for SharePoint, without them for OneDrive. *)
Definition entity_args (short_name : string) (req : FileUploadRequest)
  (file_data : dict) (download_url : string) : build_args :=
  if short_name =? "sharepoint"
  then
    let site := if truthy (site_id req) then get_or (site_id req) "root"
                else "root" in
    mkBuildArgs file_data "Selected Files" (Some site) (drive_id req)
      (Some (mkBreadcrumb site "Root Site" "SharePointSiteEntity"))
      (Some (mkBreadcrumb (drive_id req) "Selected Files"
                          "SharePointDriveEntity"))
      download_url
  else
    mkBuildArgs file_data "OneDrive" None (drive_id req) None None
      download_url.

Definition s3_path_of (file_entity : FileEntity) : string :=
  "s3://" ++ bucket_name source ++ "/" ++ bucket_prefix source
  ++ "collections/" ++ readable_id source ++ "/blobs/"
  ++ entity_id file_entity.

(** The body of the inner [try] of the loop, for one [file_id]. *)
Definition item_body (short_name : string) (req : FileUploadRequest)
  (t : tally) (fid : string) : M World tally :=
  file_data <- _get_with_auth (file_url short_name req fid) ;;
  match d_file file_data with
  | None =>
      ret (add_skipped t
             (mkFileUploadResult fid (get_or (d_name file_data) "Unknown")
                "skipped" (Some "Not a file (may be a folder)") None))
  | Some _ =>
      download_url <- call (fun w => get_download_url source w (drive_id req) fid) ;;
      if negb (truthy download_url)
      then
        ret (add_failed t
               (mkFileUploadResult fid (get_or (d_name file_data) "Unknown")
                  "failed" (Some "Could not get download URL") None))
      else
        file_entity <- call (fun w => build_file_entity source w
                               (entity_args short_name req file_data
                                  (get_or download_url ""))) ;;
        match file_entity with
        | None =>
            ret (add_skipped t
                   (mkFileUploadResult fid
                      (get_or (d_name file_data) "Unknown")
                      "skipped" (Some "Could not create file entity") None))
        | Some file_entity =>
            file_entity <- call (fun w => download_from_url source w file_entity) ;;
            if negb (truthy (local_path file_entity))
            then
              ret (add_failed t
                     (mkFileUploadResult fid (entity_name file_entity)
                        "failed" (Some "File download failed") None))
            else
              call (fun w => bulk_insert source w [file_entity]) ;;;
              ret (add_successful t
                     (mkFileUploadResult fid (entity_name file_entity)
                        "success" None (Some (s3_path_of file_entity))))
        end
  end.

(** One iteration: the inner [try] with its [except Exception as e]. *)
Definition upload_item (short_name : string) (req : FileUploadRequest)
  (t : tally) (fid : string) : M World tally :=
  try_catch (item_body short_name req t fid)
    (fun e => ret (add_failed t
                     (mkFileUploadResult fid "Unknown" "failed"
                        (Some (str source e)) None))).

(** [for file_id in request.file_ids: ...] *)
Fixpoint upload_loop (short_name : string) (req : FileUploadRequest)
  (ids : list string) (t : tally) : M World tally :=
  match ids with
  | [] => ret t
  | fid :: rest =>
      t' <- upload_item short_name req t fid ;;
      upload_loop short_name req rest t'
  end.

(** [upload_selected_files], from the provider check on; the lookups of the
    collection, of the S3 connection and of its credentials, and the
    construction of the source, come before the loop and are what hands this
    function its collaborators. *)
Definition upload_selected_files (short_name : string)
  (req : FileUploadRequest) : M World FileUploadResponse :=
  if negb ((short_name =? "sharepoint") || (short_name =? "onedrive"))
  then raise (HTTPException 400
                ("Selective upload is currently only supported for SharePoint and OneDrive. Got: "
                 ++ short_name))
  else
    try_catch
      (t <- upload_loop short_name req (file_ids req) tally0 ;;
       ret (mkFileUploadResponse (length (file_ids req)) (t_successful t)
              (t_failed t) (t_skipped t) (t_results t)))
      (fun e => raise (HTTPException 500
                         ("Upload process failed: " ++ str source e))).

(** * file_browser.py *)

(** ** Level 1: the sites *)

Definition root_site_url : string := GRAPH_BASE_URL source ++ "/sites/root".

Definition sites_search_url : string :=
  GRAPH_BASE_URL source
  ++ "/sites?search=*&$top=100&$select=id,displayName,webUrl,description,name,siteCollection".

Definition sites_plain_url : string :=
  GRAPH_BASE_URL source
  ++ "/sites?$top=100&$select=id,displayName,webUrl,description,name,siteCollection".

Definition followed_sites_url : string :=
  GRAPH_BASE_URL source
  ++ "/me/followedSites?$top=100&$select=id,displayName,webUrl,description,name,siteCollection".

Definition groups_url : string :=
  GRAPH_BASE_URL source
  ++ "/groups?$filter=groupTypes/any(g:g eq 'Unified')&$top=100&$select=id,displayName".

Definition group_site_url (group : dict) : string :=
  GRAPH_BASE_URL source ++ "/groups/" ++ fmt (d_id group) ++ "/sites/root".

(** The dict appended to [sites_list] for the root site. *)
Definition root_entry (root_site_data : dict) : dict :=
  Dict (d_id root_site_data)
       (Some (get_or (d_displayName root_site_data) "Root Site"))
       (Some (get_or (d_name root_site_data) "Root Site"))
       (d_webUrl root_site_data)
       (d_description root_site_data)
       None None None false None None None.

(** The dict appended to [all_sites] for the site of a Teams group. *)
Definition team_site (group group_site_data : dict) : dict :=
  Dict (d_id group_site_data)
       (Some (get_or (d_displayName group) "Team Site"))
       (Some (get_or (d_name group_site_data) "Team Site"))
       (d_webUrl group_site_data)
       (Some ("Microsoft Teams: " ++ get_or (d_displayName group) ""))
       (d_siteCollection group_site_data)
       None None false None None None.

(** The first [try]: the root site, a warning when it cannot be fetched.
    The result is [sites_list] after it. *)
Definition fetch_root_site (st : state World) : list dict * state World :=
  match _get_with_auth root_site_url st with
  | (inr root_site_data, st') => ([root_entry root_site_data], st')
  | (inl _, st') => ([], st')
  end.

(** [sites_data] of the search, or of the listing without search when the
    search raises. *)
Definition fetch_all_sites : M World dict :=
  try_catch (_get_with_auth sites_search_url)
    (fun _ => _get_with_auth sites_plain_url).

(** [if site_id_val and not any(...): all_sites.append(site)] *)
Definition add_if_new (all_sites : list dict) (site : dict) : list dict :=
  if truthy (d_id site) && negb (any_id (d_id site) all_sites)
  then all_sites ++ [site]
  else all_sites.

(** The followed sites, merged into [all_sites]. *)
Definition merge_followed_sites (all_sites : list dict) : M World (list dict) :=
  try_catch
    (followed_data <- _get_with_auth followed_sites_url ;;
     ret (fold_left add_if_new (get_or (d_value followed_data) []) all_sites))
    (fun _ => ret all_sites).

(** The body of [for group in teams_groups[:20]], with its own [try]. *)
Definition add_group_site (all_sites : list dict) (group : dict)
  : M World (list dict) :=
  try_catch
    (group_site_data <- _get_with_auth (group_site_url group) ;;
     ret (if truthy (d_id group_site_data)
             && negb (any_id (d_id group_site_data) all_sites)
          then (all_sites ++ [team_site group group_site_data])%list
          else all_sites))
    (fun _ => ret all_sites).

Fixpoint for_groups (groups : list dict) (all_sites : list dict)
  : M World (list dict) :=
  match groups with
  | [] => ret all_sites
  | group :: rest =>
      all_sites' <- add_group_site all_sites group ;;
      for_groups rest all_sites'
  end.

(** The sites of the Teams groups, merged into [all_sites]. *)
Definition merge_group_sites (all_sites : list dict) : M World (list dict) :=
  try_catch
    (groups_data <- _get_with_auth groups_url ;;
     for_groups (firstn 20 (get_or (d_value groups_data) [])) all_sites)
    (fun _ => ret all_sites).

(** [if site_id_val and site_id_val != root_site_id:
       if not any(...): sites_list.append(site)] *)
Definition add_site (root_site_id : option string) (sites_list : list dict)
  (site : dict) : list dict :=
  if truthy (d_id site) && negb (opt_eqb (d_id site) root_site_id)
  then if negb (any_id (d_id site) sites_list)
       then sites_list ++ [site]
       else sites_list
  else sites_list.

(** [while next_url and len(sites_list) < 200 and page_count < 10] *)
Definition more_pages_cond (next_url : option string) (sites_list : list dict)
  (page_count : nat) : bool :=
  truthy next_url && Nat.ltb (length sites_list) 200 && Nat.ltb page_count 10.

(** The pagination loop.  [sites_list] is appended to in place, so what the
    loop has added survives the exception that leaves it: the result is the
    list as it stands when the loop is left, and that exception if any. *)
Equations? more_pages (root_site_id : option string)
  (next_url : option string) (sites_list : list dict) (page_count : nat)
  (st : state World) : (list dict * option exn) * state World
  by wf (10 - page_count) lt :=
  more_pages root_site_id next_url sites_list page_count st
    with inspect (more_pages_cond next_url sites_list page_count) := {
    | exist _ false _ := ((sites_list, None), st);
    | exist _ true Hc with _get_with_auth (fmt next_url) st := {
      | (inl e, st') := ((sites_list, Some e), st');
      | (inr next_data, st') :=
          more_pages root_site_id (d_nextLink next_data)
            (fold_left (add_site root_site_id)
               (get_or (d_value next_data) []) sites_list)
            (page_count + 1) st' } }.
Proof.
  unfold more_pages_cond in Hc.
  apply andb_prop in Hc. destruct Hc as [_ Hc].
  apply Nat.ltb_lt in Hc.
  change (10 - (page_count + 1) < 10 - page_count). lia.
Qed.

(** The second [try] of level 1: the search, the followed sites, the group
    sites, the merge into [sites_list] and the pagination.  As for
    [more_pages], the result is [sites_list] as the block leaves it and the
    exception that left it, which the handler only logs. *)
Definition collect_sites (sites_list : list dict) (st : state World)
  : (list dict * option exn) * state World :=
  match fetch_all_sites st with
  | (inl e, st1) => ((sites_list, Some e), st1)
  | (inr sites_data, st1) =>
      let all_sites := get_or (d_value sites_data) [] in
      match (all_sites <- merge_followed_sites all_sites ;;
             merge_group_sites all_sites) st1 with
      | (inl e, st2) => ((sites_list, Some e), st2)
      | (inr all_sites, st2) =>
          let root_site_id :=
            match sites_list with [] => None | s :: _ => d_id s end in
          let sites_list :=
            fold_left (add_site root_site_id) all_sites sites_list in
          more_pages root_site_id (d_nextLink sites_data) sites_list 1 st2
      end
  end.

(** [FolderItem(id=..., name=..., path=...)]: [id] is a required [str]. *)
Definition new_FolderItem (id : option string) (name path : string)
  : exn + FolderItem :=
  match id with
  | Some i => inr (mkFolderItem i name path "folder")
  | None => inl (ValidationError "FolderItem" "id")
  end.

(** [FileItem(id=..., ...)]: [id] is a required [str]. *)
Definition new_FileItem (id : option string) (name path : string)
  (size : option Z) (modified_at : option string) (type : string)
  (mime_type : option string) : exn + FileItem :=
  match id with
  | Some i => inr (mkFileItem i name path size modified_at type mime_type)
  | None => inl (ValidationError "FileItem" "id")
  end.

(** [for x in l: out.append(f(x))], where [f] may raise. *)
Fixpoint traverse {A B : Type} (f : A -> exn + B) (l : list A)
  : exn + list B :=
  match l with
  | [] => inr []
  | x :: rest =>
      match f x with
      | inl e => inl e
      | inr b =>
          match traverse f rest with
          | inl e => inl e
          | inr bs => inr (b :: bs)
          end
      end
  end.

Definition lift {A : Type} (r : exn + A) : M World A :=
  fun st => (r, st).

(** [site.get("displayName") or site.get("name", "Unknown Site")] *)
Definition site_name (site : dict) : string :=
  if truthy (d_displayName site)
  then get_or (d_displayName site) ""
  else get_or (d_name site) "Unknown Site".

Definition site_folder (site : dict) : exn + FolderItem :=
  new_FolderItem (d_id site) (site_name site) ("/sites/" ++ fmt (d_id site)).

(** [sites_list] when the loop over it starts. *)
Definition list_sites (st : state World) : list dict * state World :=
  let (sites_list, st1) := fetch_root_site st in
  let '((sites_list, _), st2) := collect_sites sites_list st1 in
  (sites_list, st2).

Definition browse_sites : M World BrowseResponse :=
  fun st =>
    let (sites_list, st') := list_sites st in
    (folders <- lift (traverse site_folder sites_list) ;;
     ret (mkBrowseResponse [] folders (Some "/sites") None)) st'.

(** ** Level 2: the document libraries of a site *)

Definition drive_folder (site_id : option string) (drive : dict)
  : exn + FolderItem :=
  new_FolderItem (d_id drive)
    (get_or (d_name drive) "Unknown Document Library")
    ("/sites/" ++ fmt site_id ++ "/drives/" ++ fmt (d_id drive)).

Definition browse_drives (site_id : option string) : M World BrowseResponse :=
  drives_data <- _get_with_auth
                   (GRAPH_BASE_URL source ++ "/sites/" ++ fmt site_id ++ "/drives") ;;
  match get_or (d_value drives_data) [] with
  | [] =>
      raise (HTTPException 404
               "No document libraries found in this SharePoint site")
  | drives_list =>
      folders <- lift (traverse (drive_folder site_id) drives_list) ;;
      _get_with_auth (GRAPH_BASE_URL source ++ "/sites/" ++ fmt site_id) ;;;
      ret (mkBrowseResponse [] folders
             (Some ("/sites/" ++ fmt site_id ++ "/drives")) None)
  end.

(** ** Level 3: the children of a folder *)

(** The body of [async for item in source._list_drive_items(...)]. *)
Definition classify_item (drive_id : option string)
  (acc : list FileItem * list FolderItem) (item : dict)
  : exn + (list FileItem * list FolderItem) :=
  let item_id := d_id item in
  let item_name := get_or (d_name item) "Unknown" in
  let item_path := "/drives/" ++ fmt drive_id ++ "/items/" ++ fmt item_id in
  if d_folder item
  then
    match new_FolderItem item_id item_name item_path with
    | inl e => inl e
    | inr folder => inr (fst acc, (snd acc ++ [folder])%list)
    end
  else
    match d_file item with
    | Some file_info =>
        match new_FileItem item_id item_name item_path (d_size item)
                (d_lastModifiedDateTime item) "file" (mimeType file_info) with
        | inl e => inl e
        | inr file => inr ((fst acc ++ [file])%list, snd acc)
        end
    | None => inr acc
    end.

Fixpoint classify_items (drive_id : option string) (items : list dict)
  (acc : list FileItem * list FolderItem)
  : exn + (list FileItem * list FolderItem) :=
  match items with
  | [] => inr acc
  | item :: rest =>
      match classify_item drive_id acc item with
      | inl e => inl e
      | inr acc' => classify_items drive_id rest acc'
      end
  end.

(** The whole [async for]: the items are classified as they are yielded; the
    exception that ends the generator, if any, comes after them. *)
Definition list_items (drive_id folder_id : option string)
  : M World (list FileItem * list FolderItem) :=
  fun st =>
    let '((items, raised), w) :=
      list_drive_items source (world st) (fmt drive_id) folder_id in
    let st' := mkState w (trace st) in
    match classify_items drive_id items ([], []) with
    | inl e => (inl e, st')
    | inr acc =>
        match raised with
        | Some e => (inl e, st')
        | None => (inr acc, st')
        end
    end.

(** The [return] at the end of [browse_files]. *)
Definition items_response (drive_id folder_id : option string)
  (acc : list FileItem * list FolderItem) : BrowseResponse :=
  mkBrowseResponse (fst acc) (snd acc)
    (Some ("/drives/" ++ fmt drive_id
           ++ (if truthy folder_id then "/items/" ++ fmt folder_id else "")))
    None.

Definition browse_sharepoint (drive_id folder_id site_id : option string)
  : M World BrowseResponse :=
  if negb (truthy site_id) then browse_sites
  else if negb (truthy drive_id) then browse_drives site_id
  else
    acc <- try_catch (list_items drive_id folder_id)
             (fun e => raise (HTTPException 500
                                ("Failed to list files in folder: "
                                 ++ str source e))) ;;
    ret (items_response drive_id folder_id acc).

(** ** OneDrive *)

(** The [try] around the lookup of the default drive, with its two
    handlers. *)
Definition default_drive : M World (option string) :=
  try_catch
    (drive_data <- _get_with_auth "https://graph.microsoft.com/v1.0/me/drive" ;;
     ret (d_id drive_data))
    (fun e =>
       match e with
       | HTTPStatusError code _ =>
           if (code =? 401)%Z
           then raise (HTTPException 401
                  "OneDrive authentication failed. Your access token has expired. Please disconnect and reconnect your OneDrive account in the settings.")
           else raise e
       | _ => raise (HTTPException 500
                       ("Failed to access OneDrive: " ++ str source e))
       end).

Definition browse_onedrive (drive_id folder_id : option string)
  : M World BrowseResponse :=
  drive_id <- (if negb (truthy drive_id) then default_drive else ret drive_id) ;;
  if negb (truthy drive_id)
  then raise (HTTPException 404 "No OneDrive found")
  else
    acc <- list_items drive_id folder_id ;;
    ret (items_response drive_id folder_id acc).

(** ** The endpoint *)

(** The three handlers of the outer [try]. *)
Definition browse_handlers (short_name : string) (e : exn)
  : M World BrowseResponse :=
  match e with
  | HTTPException _ _ => raise e
  | HTTPStatusError code _ =>
      if (code =? 401)%Z
      then raise (HTTPException 401
             (short_name
              ++ " authentication failed. Your access token has expired. Please disconnect and reconnect your account in the settings."))
      else raise (HTTPException code
                    ("Failed to browse files: " ++ str source e))
  | _ => raise (HTTPException 500 ("Failed to browse files: " ++ str source e))
  end.

(** [browse_files], from the provider check on; what comes before the outer
    [try] resolves the connection and builds the source, which is what hands
    this function its collaborators. *)
Definition browse_files (short_name : string)
  (drive_id folder_id site_id : option string) : M World BrowseResponse :=
  if negb ((short_name =? "sharepoint") || (short_name =? "onedrive"))
  then raise (HTTPException 400
                ("File browsing is currently only supported for SharePoint and OneDrive. Got: "
                 ++ short_name))
  else
    try_catch
      (if short_name =? "sharepoint"
       then browse_sharepoint drive_id folder_id site_id
       else if short_name =? "onedrive"
       then browse_onedrive drive_id folder_id
       else ret (items_response drive_id folder_id ([], [])))
      (browse_handlers short_name).

End Endpoints.

(** * Vocabulary of the statements *)

Open Scope list_scope.

Section Vocabulary.

Context {World : Type}.
Variable source : Collaborators World.
Variable short_name : string.
Variable req : FileUploadRequest.

(** The counters and the list move together. *)
Definition tally_ok (t : tally) : Prop :=
  t_successful t + t_failed t + t_skipped t = length (t_results t).

(** The counter an iteration bumps when it appends its result. *)
Inductive counter : Type := Successful | Failed | Skipped.

Definition bump (c : counter) (t : tally) (r : FileUploadResult) : tally :=
  match c with
  | Successful => add_successful t r
  | Failed => add_failed t r
  | Skipped => add_skipped t r
  end.

Definition status_of (c : counter) : string :=
  match c with
  | Successful => "success"
  | Failed => "failed"
  | Skipped => "skipped"
  end.

(** The number of results with a given status. *)
Definition count_status (s : string) (l : list FileUploadResult) : nat :=
  length (filter (fun r => (status r =? s)%string) l).

(** Each counter is the number of results with its status. *)
Definition tally_counts (t : tally) : Prop :=
  t_successful t = count_status "success" (t_results t)
  /\ t_failed t = count_status "failed" (t_results t)
  /\ t_skipped t = count_status "skipped" (t_results t).

(** The results of the loop over [ids], started with an empty tally. *)
Definition run_results (ids : list string) (st : state World)
  : list FileUploadResult :=
  match upload_loop source short_name req ids tally0 st with
  | (inr t, _) => t_results t
  | (inl _, _) => []
  end.

(** The state in which the loop over [ids] leaves. *)
Definition run_state (ids : list string) (st : state World) : state World :=
  snd (upload_loop source short_name req ids tally0 st).

(** An exception [e] is raised at one of the steps of the iteration for
    [fid] that starts in [st], and leaves the state [st']: at the fetch of
    the metadata, at the fetch of the download URL, at the construction of
    the entity, at the download, or at the insert into the destination. *)
Inductive step_raises (fid : string) (st : state World) (e : exn)
  (st' : state World) : Prop :=
| raises_metadata :
    _get_with_auth source (file_url source short_name req fid) st
      = (inl e, st') ->
    step_raises fid st e st'
| raises_download_url file_data file_info st1 :
    _get_with_auth source (file_url source short_name req fid) st
      = (inr file_data, st1) ->
    d_file file_data = Some file_info ->
    call (fun w => get_download_url source w (drive_id req) fid) st1
      = (inl e, st') ->
    step_raises fid st e st'
| raises_build file_data file_info st1 download_url st2 :
    _get_with_auth source (file_url source short_name req fid) st
      = (inr file_data, st1) ->
    d_file file_data = Some file_info ->
    call (fun w => get_download_url source w (drive_id req) fid) st1
      = (inr download_url, st2) ->
    truthy download_url = true ->
    call (fun w => build_file_entity source w
                     (entity_args short_name req file_data
                        (get_or download_url ""%string))) st2
      = (inl e, st') ->
    step_raises fid st e st'
| raises_download file_data file_info st1 download_url st2 file_entity st3 :
    _get_with_auth source (file_url source short_name req fid) st
      = (inr file_data, st1) ->
    d_file file_data = Some file_info ->
    call (fun w => get_download_url source w (drive_id req) fid) st1
      = (inr download_url, st2) ->
    truthy download_url = true ->
    call (fun w => build_file_entity source w
                     (entity_args short_name req file_data
                        (get_or download_url ""%string))) st2
      = (inr (Some file_entity), st3) ->
    call (fun w => download_from_url source w file_entity) st3
      = (inl e, st') ->
    step_raises fid st e st'
| raises_insert file_data file_info st1 download_url st2 file_entity st3
    downloaded st4 :
    _get_with_auth source (file_url source short_name req fid) st
      = (inr file_data, st1) ->
    d_file file_data = Some file_info ->
    call (fun w => get_download_url source w (drive_id req) fid) st1
      = (inr download_url, st2) ->
    truthy download_url = true ->
    call (fun w => build_file_entity source w
                     (entity_args short_name req file_data
                        (get_or download_url ""%string))) st2
      = (inr (Some file_entity), st3) ->
    call (fun w => download_from_url source w file_entity) st3
      = (inr downloaded, st4) ->
    truthy (local_path downloaded) = true ->
    call (fun w => bulk_insert source w [downloaded]) st4 = (inl e, st') ->
    step_raises fid st e st'.

(** The result of an iteration that an exception [e] has left. *)
Definition failed_result (fid : string) (e : exn) : FileUploadResult :=
  mkFileUploadResult fid "Unknown" "failed" (Some (str source e)) None.

(** The collaborators answer the calls made for [fid] the same way in every
    world. *)
Definition answers_fixed (fid : string) : Prop :=
  forall w w' : World,
    fst (get_with_auth source w (file_url source short_name req fid))
      = fst (get_with_auth source w' (file_url source short_name req fid))
    /\ fst (get_download_url source w (drive_id req) fid)
       = fst (get_download_url source w' (drive_id req) fid)
    /\ (forall a, fst (build_file_entity source w a)
                  = fst (build_file_entity source w' a))
    /\ (forall ent, fst (download_from_url source w ent)
                    = fst (download_from_url source w' ent))
    /\ (forall l, fst (bulk_insert source w l) = fst (bulk_insert source w' l)).

End Vocabulary.

Section BrowseVocabulary.

Context {World : Type}.
Variable source : Collaborators World.

(** "First occurrence wins; later duplicate entries are discarded": the
    entries of [l] that carry an identifier not in [seen] and not carried by
    an earlier entry of [l], in the order of [l]. *)
Fixpoint first_occurrences (seen : list (option string)) (l : list dict)
  : list dict :=
  match l with
  | [] => []
  | site :: rest =>
      if truthy (d_id site)
         && negb (existsb (fun i => opt_eqb i (d_id site)) seen)
      then site :: first_occurrences (seen ++ [d_id site]) rest
      else first_occurrences seen rest
  end.

(** [l1] is an initial segment of [l2]. *)
Definition prefix_of {A : Type} (l1 l2 : list A) : Prop :=
  exists rest, l2 = l1 ++ rest.

(** The synthetic folder that stands for a site. *)
Definition folder_of_site (site : dict) : FolderItem :=
  mkFolderItem (fmt (d_id site)) (site_name site)
    ("/sites/" ++ fmt (d_id site))%string "folder".

(** The payload of the root site, when it is fetched, carries an id. *)
Definition root_identified (st : state World) : Prop :=
  forall d w,
    get_with_auth source (world st) (root_site_url source) = (inr d, w) ->
    d_id d <> None.

(** Every identified site of the listing [data] is a folder of [page]. *)
Definition listed (data : dict) (page : BrowseResponse) : Prop :=
  forall site,
    In site (get_or (d_value data) []) ->
    truthy (d_id site) = true ->
    In (fmt (d_id site)) (map fo_id (folders page)).

(** [data] is one of the continuation pages that the pagination loop
    fetches when it starts with the link [next_url], the list [sites_list],
    the count [page_count] and the state [st]. *)
Inductive page_fetched (root_site_id : option string)
  : option string -> list dict -> nat -> state World -> dict -> Prop :=
| page_fetched_now next_url sites_list page_count st data st' :
    more_pages_cond next_url sites_list page_count = true ->
    _get_with_auth source (fmt next_url) st = (inr data, st') ->
    page_fetched root_site_id next_url sites_list page_count st data
| page_fetched_later next_url sites_list page_count st next_data st' data :
    more_pages_cond next_url sites_list page_count = true ->
    _get_with_auth source (fmt next_url) st = (inr next_data, st') ->
    page_fetched root_site_id (d_nextLink next_data)
      (fold_left (add_site root_site_id) (get_or (d_value next_data) [])
         sites_list)
      (page_count + 1) st' data ->
    page_fetched root_site_id next_url sites_list page_count st data.

(** ** The sites that the sources answer

    What the upstream answers to the requests of the site listing, in the
    order in which the browse meets the entries, before any merging. *)

(** The followed sites that the upstream answers in [st]: none when the
    request raises. *)
Definition followed_met (st : state World) : list dict * state World :=
  match _get_with_auth source (followed_sites_url source) st with
  | (inr followed_data, st') => (get_or (d_value followed_data) [], st')
  | (inl _, st') => ([], st')
  end.

(** The sites of [groups], one request per group: the entry made for each
    group whose site is answered. *)
Fixpoint group_sites_met (groups : list dict) (st : state World)
  : list dict * state World :=
  match groups with
  | [] => ([], st)
  | group :: rest =>
      match _get_with_auth source (group_site_url source group) st with
      | (inr group_site_data, st') =>
          let (met, st'') := group_sites_met rest st' in
          (team_site group group_site_data :: met, st'')
      | (inl _, st') => group_sites_met rest st'
      end
  end.

(** The sites of the first 20 Teams groups: none when the listing of the
    groups raises. *)
Definition teams_met (st : state World) : list dict * state World :=
  match _get_with_auth source (groups_url source) st with
  | (inr groups_data, st') =>
      group_sites_met (firstn 20 (get_or (d_value groups_data) [])) st'
  | (inl _, st') => ([], st')
  end.

(** The list [sites_list] followed by the first occurrences of [met]. *)
Definition merged (sites_list met : list dict) : list dict :=
  sites_list ++ first_occurrences (map d_id sites_list) met.

(** [met] holds the entries of the continuation pages that are requested
    from the link [next_url] on, in the order of the pages: a page is
    requested while there is a link, fewer than 200 sites are merged and
    fewer than 10 pages are counted, and a request that raises ends the
    pagination. *)
Inductive pages_met
  : option string -> list dict -> nat -> state World -> list dict -> Prop :=
| pages_met_end next_url sites_list page_count st :
    more_pages_cond next_url sites_list page_count = false ->
    pages_met next_url sites_list page_count st []
| pages_met_raise next_url sites_list page_count st e st' :
    more_pages_cond next_url sites_list page_count = true ->
    _get_with_auth source (fmt next_url) st = (inl e, st') ->
    pages_met next_url sites_list page_count st []
| pages_met_next next_url sites_list page_count st next_data st' met :
    more_pages_cond next_url sites_list page_count = true ->
    _get_with_auth source (fmt next_url) st = (inr next_data, st') ->
    pages_met (d_nextLink next_data)
      (merged sites_list (get_or (d_value next_data) []))
      (page_count + 1) st' met ->
    pages_met next_url sites_list page_count st
      (get_or (d_value next_data) [] ++ met).

(** [met] holds the entries that the sources answer to a browse without a
    site id that starts in [st], the root site apart: none when the listing
    of all sites raises (by search, and then without it); otherwise the
    entries of that listing, then the followed sites, then the sites of the
    groups, then the entries of the continuation pages. *)
Definition sites_met (st : state World) (met : list dict) : Prop :=
  let (sites_list, st1) := fetch_root_site source st in
  match fetch_all_sites source st1 with
  | (inl _, _) => met = []
  | (inr sites_data, st2) =>
      let (followed, st3) := followed_met st2 in
      let (teams, st4) := teams_met st3 in
      let first_page := get_or (d_value sites_data) [] ++ followed ++ teams in
      exists more,
        pages_met (d_nextLink sites_data) (merged sites_list first_page) 1
          st4 more
        /\ met = first_page ++ more
  end.

(** Between the states [st] and [st'] the endpoint has sent at most [k]
    Graph requests, and the log has only grown. *)
Definition within (k : nat) (st st' : state World) : Prop :=
  exists evs, trace st' = trace st ++ evs /\ length evs <= k.

(** [sites_list'] is [sites_list] with identified sites appended. *)
Definition appends_identified (sites_list sites_list' : list dict) : Prop :=
  exists extra,
    sites_list' = sites_list ++ extra
    /\ Forall (fun s => truthy (d_id s) = true) extra.

(** [rid] is the id of no site yet, or of a site already in the list. *)
Definition root_known (root_site_id : option string) (sites_list : list dict)
  : Prop :=
  root_site_id = None \/ In root_site_id (map d_id sites_list).

(** The folder and the file that stand for a child of a folder. *)
Definition folder_of_item (drive_id : option string) (item : dict)
  : FolderItem :=
  mkFolderItem (fmt (d_id item)) (get_or (d_name item) "Unknown"%string)
    ("/drives/" ++ fmt drive_id ++ "/items/" ++ fmt (d_id item))%string
    "folder".

Definition file_of_item (drive_id : option string) (item : dict) : FileItem :=
  mkFileItem (fmt (d_id item)) (get_or (d_name item) "Unknown"%string)
    ("/drives/" ++ fmt drive_id ++ "/items/" ++ fmt (d_id item))%string
    (d_size item) (d_lastModifiedDateTime item) "file"
    (match d_file item with Some file_info => mimeType file_info
                       | None => None end).

(** The three kinds of children: with the folder marker; without it and
    with the file marker; with neither. *)
Definition is_folder (item : dict) : bool := d_folder item.

Definition is_file (item : dict) : bool :=
  negb (d_folder item)
  && match d_file item with Some _ => true | None => false end.

Definition is_neither (item : dict) : bool :=
  negb (d_folder item)
  && match d_file item with Some _ => false | None => true end.

End BrowseVocabulary.

(** * test_file_selection.py

    The part of [main] that turns what the user types into the request of
    the upload: the numbers of the files, already read by [int], and the
    drive id that is read back from the current path of the page. *)

(** The exceptions of the script. *)
Inductive script_error : Type := TypeError | IndexError | ValueError.

(** [s.split(sep)] for a separator of one character. *)
Fixpoint split (sep : ascii) (s : string) : list string :=
  match s with
  | EmptyString => [EmptyString]
  | String c rest =>
      if Ascii.eqb c sep then EmptyString :: split sep rest
      else
        match split sep rest with
        | piece :: pieces => String c piece :: pieces
        | [] => [String c EmptyString]
        end
  end.

(** [needle in haystack] *)
Fixpoint contains (needle haystack : string) : bool :=
  String.prefix needle haystack
  || match haystack with
     | EmptyString => false
     | String _ rest => contains needle rest
     end.

(** [c in s] for a character. *)
Fixpoint has_char (c : ascii) (s : string) : bool :=
  match s with
  | EmptyString => false
  | String a rest => Ascii.eqb a c || has_char c rest
  end.

(** The number of occurrences of a character. *)
Fixpoint count_char (c : ascii) (s : string) : nat :=
  match s with
  | EmptyString => 0
  | String a rest => (if Ascii.eqb a c then 1 else 0) + count_char c rest
  end.

(** [current_path.split("/")[2] if "/drives/" in current_path else None],
    where [current_path] is [browse_result.get("current_path", "")]: [None]
    when the page carries null. *)
Definition drive_id_of (current_path : option string)
  : script_error + option string :=
  match current_path with
  | None => inl TypeError
  | Some path =>
      if contains "/drives/" path
      then
        match nth_error (split "/" path) 2 with
        | Some piece => inr (Some piece)
        | None => inl IndexError
        end
      else inr None
  end.

(** [[int(x.strip()) - 1 for x in file_selection.split(",")]], from the
    numbers that [int] has read. *)
Definition selected_indices (numbers : list Z) : list Z :=
  map (fun n => (n - 1)%Z) numbers.

(** [[files[i] for i in selected_indices if 0 <= i < len(files)]] *)
Definition selected_files (files : list FileItem) (indices : list Z)
  : list FileItem :=
  flat_map
    (fun i =>
       if (0 <=? i)%Z && (i <? Z.of_nat (length files))%Z
       then
         match nth_error files (Z.to_nat i) with
         | Some f => [f]
         | None => []
         end
       else [])
    indices.

(** [l[i]] on a Python list: an index below zero counts from the end. *)
Definition python_index {A : Type} (l : list A) (i : Z) : script_error + A :=
  let n := Z.of_nat (length l) in
  let j := if (i <? 0)%Z then (n + i)%Z else i in
  if (0 <=? j)%Z && (j <? n)%Z
  then
    match nth_error l (Z.to_nat j) with
    | Some x => inr x
    | None => inl IndexError
    end
  else inl IndexError.

(** [collections[int(coll_selection) - 1]], from the number that [int] has
    read. *)
Definition chosen_collection {A : Type} (collections : list A) (number : Z)
  : script_error + A :=
  python_index collections (number - 1)%Z.

(** [[f.get("id") for f in selected_files]] *)
Definition selected_file_ids (files : list FileItem) (numbers : list Z)
  : list string :=
  map fi_id (selected_files files (selected_indices numbers)).

(** * More vocabulary *)

Section MoreVocabulary.

Context {World : Type}.
Variable source : Collaborators World.

(** The synthetic folder that stands for a document library. *)
Definition folder_of_drive (site_id : option string) (drive : dict)
  : FolderItem :=
  mkFolderItem (fmt (d_id drive))
    (get_or (d_name drive) "Unknown Document Library"%string)
    ("/sites/" ++ fmt site_id ++ "/drives/" ++ fmt (d_id drive))%string
    "folder".

(** The two requests of the second level. *)
Definition drives_url (site_id : option string) : string :=
  (GRAPH_BASE_URL source ++ "/sites/" ++ fmt site_id ++ "/drives")%string.

Definition site_url (site_id : option string) : string :=
  (GRAPH_BASE_URL source ++ "/sites/" ++ fmt site_id)%string.

(** Every listing that the upstream answers has at most [k] entries. *)
Definition page_size_at_most (k : nat) : Prop :=
  forall w url d w',
    get_with_auth source w url = (inr d, w') ->
    length (get_or (d_value d) []) <= k.

(** A result is a success with its destination and no error, or a failure
    or a skip with its reason and no destination. *)
Definition result_shape (r : FileUploadResult) : Prop :=
  (status r = "success"%string /\ error r = None /\ s3_path r <> None)
  \/ (status r = "failed"%string /\ error r <> None /\ s3_path r = None)
  \/ (status r = "skipped"%string /\ error r <> None /\ s3_path r = None).

(** The request [req] for other file ids. *)
Definition with_file_ids (req : FileUploadRequest) (ids : list string)
  : FileUploadRequest :=
  mkFileUploadRequest ids (collection_id req) (drive_id req) (site_id req).

End MoreVocabulary.

(** * A concrete instance

    A tenant with a root site, three more sites, one Teams group and a drive
    [D1] that holds a folder [a], the files [b], [c] and a OneNote package
    [n].  The world is a flag: when it is set, the metadata of [b] cannot be
    fetched. *)

Module Demo.

Definition base : string := "https://graph.microsoft.com/v1.0".

Definition item (id name : string) (folder : bool) (file : option facet)
  : dict :=
  Dict (Some id) None (Some name) None None None None None folder file
       (Some 42%Z) (Some "2025-01-01T00:00:00Z"%string).

Definition site (id name : string) : dict :=
  Dict (Some id) (Some name) (Some name) None None None None None false None
       None None.

Definition listing (value : list dict) (next : option string) : dict :=
  Dict None None None None None None (Some value) next false None None None.

Definition folder_a : dict := item "a" "docs" true None.
Definition file_b : dict :=
  item "b" "b.txt" false (Some (Facet (Some "text/plain"%string))).
Definition file_c : dict :=
  item "c" "c.txt" false (Some (Facet (Some "text/plain"%string))).
Definition package_n : dict := item "n" "notebook" false None.

Definition render (e : exn) : string :=
  match e with
  | HTTPStatusError _ m => m
  | HTTPException _ d => d
  | ValidationError m f => (m ++ "." ++ f)%string
  | Exception m => m
  end.

Definition graph (w : bool) (url : string) : (exn + dict) * bool :=
  if (url =? base ++ "/drives/D1/items/a")%string then (inr folder_a, w)
  else if (url =? base ++ "/drives/D1/items/b")%string then
    if w then (inl (HTTPStatusError 404 "item not found"), w)
    else (inr file_b, w)
  else if (url =? base ++ "/drives/D1/items/c")%string then (inr file_c, w)
  else if (url =? base ++ "/sites/root")%string
  then (inr (site "root" "Home"), w)
  else if (url =? base
           ++ "/sites?search=*&$top=100&$select=id,displayName,webUrl,description,name,siteCollection")%string
  then (inr (listing [site "s1" "One"; site "root" "Home again";
                      site "s2" "Two"; site "s1" "One again"]
                     (Some (base ++ "/sites?page=2")%string)), w)
  else if (url =? base ++ "/sites?page=2")%string
  then (inr (listing [site "s2" "Two again"; site "s5" "Five"] None), w)
  else if (url =? base
           ++ "/me/followedSites?$top=100&$select=id,displayName,webUrl,description,name,siteCollection")%string
  then (inr (listing [site "s2" "Two followed"; site "s3" "Three"] None), w)
  else if (url =? base
           ++ "/groups?$filter=groupTypes/any(g:g eq 'Unified')&$top=100&$select=id,displayName")%string
  then (inr (listing [site "g1" "Team"] None), w)
  else if (url =? base ++ "/groups/g1/sites/root")%string
  then (inr (site "s4" "Team home"), w)
  else if (url =? base ++ "/sites/root/drives")%string
  then (inr (listing [site "D1" "Documents"] None), w)
  else if (url =? base ++ "/me/drive")%string
  then (inr (site "D1" "OneDrive"), w)
  else (inl (Exception "no such resource"), w).

Definition children (w : bool) (drive : string) (folder : option string)
  : (list dict * option exn) * bool :=
  (([folder_a; file_b; package_n; file_c], None), w).

Definition tenant : Collaborators bool :=
  mkCollaborators bool render base graph children
    (fun w _ fid => (inr (Some ("https://download/" ++ fid)%string), w))
    (fun w a => (inr (Some (mkFileEntity (fmt (d_id (ba_item a)))
                              (get_or (d_name (ba_item a)) "Unknown"%string)
                              None)), w))
    (fun w ent => (inr (mkFileEntity (entity_id ent) (entity_name ent)
                          (Some ("/tmp/" ++ entity_id ent)%string)), w))
    (fun w _ => (inr tt, w))
    "bucket" "prefix/" "my-collection".

(** Every Graph request is rejected: the token has expired. *)
Definition expired : Collaborators bool :=
  mkCollaborators bool render base
    (fun w _ => (inl (HTTPStatusError 401 "401 Unauthorized"), w))
    (fun w _ _ => (([], Some (HTTPStatusError 401 "401 Unauthorized")), w))
    (fun w _ _ => (inl (HTTPStatusError 401 "401 Unauthorized"), w))
    (fun w _ => (inr None, w))
    (fun w ent => (inr ent, w))
    (fun w _ => (inr tt, w))
    "bucket" "prefix/" "my-collection".

(** The tenant, for a user who may not list the sites: the search of all
    sites and the listing without search are refused, the other requests
    are answered as before. *)
Definition restricted : Collaborators bool :=
  mkCollaborators bool render base
    (fun w url =>
       if (url =? base
           ++ "/sites?search=*&$top=100&$select=id,displayName,webUrl,description,name,siteCollection")%string
          || (url =? base
              ++ "/sites?$top=100&$select=id,displayName,webUrl,description,name,siteCollection")%string
       then (inl (HTTPStatusError 403 "403 Forbidden"), w)
       else graph w url)
    children
    (fun w _ fid => (inr (Some ("https://download/" ++ fid)%string), w))
    (fun w _ => (inr None, w))
    (fun w ent => (inr ent, w))
    (fun w _ => (inr tt, w))
    "bucket" "prefix/" "my-collection".

(** An upstream whose listings always hand out one more site and one more
    continuation link. *)
Definition endless : Collaborators bool :=
  mkCollaborators bool render base
    (fun w url =>
       if (url =? base ++ "/sites/root")%string
       then (inr (site "root" "Home"), w)
       else (inr (listing [site url url] (Some (url ++ "&next")%string)), w))
    children
    (fun w _ fid => (inr (Some ("https://download/" ++ fid)%string), w))
    (fun w _ => (inr None, w))
    (fun w ent => (inr ent, w))
    (fun w _ => (inr tt, w))
    "bucket" "prefix/" "my-collection".

(** An upstream whose payload for the root site carries no id. *)
Definition anonymous_root : Collaborators bool :=
  mkCollaborators bool render base
    (fun w url =>
       if (url =? base ++ "/sites/root")%string
       then (inr (listing [] None), w)
       else graph w url)
    children
    (fun w _ fid => (inr (Some ("https://download/" ++ fid)%string), w))
    (fun w _ => (inr None, w))
    (fun w ent => (inr ent, w))
    (fun w _ => (inr tt, w))
    "bucket" "prefix/" "my-collection".

(** The tenant, when the token lapses after the lookup of the default
    drive: the listing of the children is rejected with status 401. *)
Definition lapsed : Collaborators bool :=
  mkCollaborators bool render base graph
    (fun w _ _ => (([], Some (HTTPStatusError 401 "401 Unauthorized")), w))
    (fun w _ _ => (inl (HTTPStatusError 401 "401 Unauthorized"), w))
    (fun w _ => (inr None, w))
    (fun w ent => (inr ent, w))
    (fun w _ => (inr tt, w))
    "bucket" "prefix/" "my-collection".

(** Every Graph request is refused with status 403. *)
Definition forbidden : Collaborators bool :=
  mkCollaborators bool render base
    (fun w _ => (inl (HTTPStatusError 403 "403 Forbidden"), w))
    (fun w _ _ => (([], Some (HTTPStatusError 403 "403 Forbidden")), w))
    (fun w _ _ => (inl (HTTPStatusError 403 "403 Forbidden"), w))
    (fun w _ => (inr None, w))
    (fun w ent => (inr ent, w))
    (fun w _ => (inr tt, w))
    "bucket" "prefix/" "my-collection".

(** A tenant in which every listing is empty. *)
Definition vacant : Collaborators bool :=
  mkCollaborators bool render base
    (fun w _ => (inr (listing [] None), w))
    (fun w _ _ => (([], None), w))
    (fun w _ _ => (inr None, w))
    (fun w _ => (inr None, w))
    (fun w ent => (inr ent, w))
    (fun w _ => (inr tt, w))
    "bucket" "prefix/" "my-collection".

(** What the sources of the tenant answer to a browse without a site id:
    the search, then the followed sites, then the site of the one group,
    then the second page. *)
Definition met : list dict :=
  [site "s1" "One"; site "root" "Home again"; site "s2" "Two";
   site "s1" "One again";
   site "s2" "Two followed"; site "s3" "Three";
   team_site (site "g1" "Team") (site "s4" "Team home");
   site "s2" "Two again"; site "s5" "Five"].

Definition request (ids : list string) : FileUploadRequest :=
  mkFileUploadRequest ids "7f1c" "D1" None.

Definition start (flag : bool) : state bool := mkState flag [].

End Demo.

(** * Properties of the transfer loop *)

Section UploadProperties.

Context {World : Type}.
Variable source : Collaborators World.
Variable short_name : string.
Variable req : FileUploadRequest.


Lemma count_status_app s l r :
  count_status s (l ++ [r])
  = count_status s l + (if (status r =? s)%string then 1 else 0).
Proof.
  unfold count_status. rewrite filter_app, length_app. simpl.
  destruct (status r =? s)%string; reflexivity.
Qed.

Lemma bump_ok c t r : tally_ok t -> tally_ok (bump c t r).
Proof.
  unfold tally_ok; destruct c; simpl; rewrite length_app; simpl; lia.
Qed.

Lemma bump_counts c t r :
  status r = status_of c -> tally_counts t -> tally_counts (bump c t r).
Proof.
  unfold tally_counts. intros Hs (Hsu & Hfa & Hsk).
  destruct c; simpl in *; rewrite !count_status_app, Hs; simpl; lia.
Qed.

Lemma bump_results c t r : t_results (bump c t r) = t_results t ++ [r].
Proof. destruct c; reflexivity. Qed.

Ltac step_call :=
  match goal with
  | |- context [get_with_auth source ?x ?y] =>
      destruct (get_with_auth source x y) as [[?e | ?file_data] ?w]
  | |- context [get_download_url source ?x ?y ?z] =>
      destruct (get_download_url source x y z) as [[?e | ?url] ?w]
  | |- context [build_file_entity source ?x ?y] =>
      destruct (build_file_entity source x y) as [[?e | [?ent | ]] ?w]
  | |- context [download_from_url source ?x ?y] =>
      destruct (download_from_url source x y) as [[?e | ?ent] ?w]
  | |- context [bulk_insert source ?x ?y] =>
      destruct (bulk_insert source x y) as [[?e | ?u] ?w]
  end; cbn -[String.append String.eqb].

Ltac unfold_item :=
  unfold upload_item, item_body, try_catch, bind, call,
    _get_with_auth, ret;
  cbn -[String.append String.eqb].

Ltac found c :=
  eexists c, _, _; split; [| split; [| intros t; reflexivity]]; reflexivity.

(** One iteration returns: it appends one result, for the file id of the
    iteration, and bumps the counter of the status of that result; which
    result and which counter does not depend on the tally. *)
Lemma upload_item_uniform fid st :
  exists c r st',
    file_id r = fid /\ status r = status_of c
    /\ forall t, upload_item source short_name req t fid st = (inr (bump c t r), st').
Proof.
  unfold_item.
  step_call; [found Failed |].
  destruct (d_file file_data); [| found Skipped].
  step_call; [found Failed |].
  destruct (negb (truthy url)); cbn -[String.append String.eqb];
    [found Failed |].
  step_call; [found Failed | | found Skipped].
  step_call; [found Failed |].
  destruct (negb (truthy (local_path ent0))); cbn -[String.append String.eqb];
    [found Failed |].
  step_call; [found Failed | found Successful].
Qed.

(** The loop returns, with one result per file id, in the order of the ids,
    and with counters that count the results. *)
Lemma upload_loop_spec ids : forall t st,
  exists t' st',
    upload_loop source short_name req ids t st = (inr t', st')
    /\ (tally_ok t -> tally_ok t')
    /\ (tally_counts t -> tally_counts t')
    /\ map file_id (t_results t') = map file_id (t_results t) ++ ids.
Proof.
  induction ids as [| fid rest IH]; intros t st; simpl.
  - exists t, st. rewrite app_nil_r.
    split; [reflexivity | split; [auto | split; auto]].
  - destruct (upload_item_uniform fid st) as (c & r & st1 & Hid & Hst & Hrun).
    destruct (IH (bump c t r) st1) as (t2 & st2 & Hloop & Hok & Hcnt & Hids).
    exists t2, st2. unfold bind. rewrite Hrun, Hloop.
    split; [reflexivity | split; [| split]].
    + auto using bump_ok.
    + auto using bump_counts.
    + rewrite Hids, bump_results, map_app, <- app_assoc. simpl. congruence.
Qed.

(** C1.  Once the provider check has passed and the loop over the file ids
    starts, the endpoint returns a report; in it total_files is the number
    of requested ids, the three counters add up to it, there are as many
    results, and the file ids of the results are the requested ids, in the
    same order (so with the same repetitions).  Moreover each counter is the
    number of results with its status. *)
Theorem upload_report_one_result_per_id (st : state World) :
  (short_name =? "sharepoint")%string || (short_name =? "onedrive")%string
    = true ->
  exists rep st',
    upload_selected_files source short_name req st = (inr rep, st')
    /\ total_files rep = length (file_ids req)
    /\ successful rep + failed rep + skipped rep = total_files rep
    /\ length (results rep) = total_files rep
    /\ map file_id (results rep) = file_ids req
    /\ (forall i, nth_error (map file_id (results rep)) i
                  = nth_error (file_ids req) i)
    /\ successful rep = count_status "success" (results rep)
    /\ failed rep = count_status "failed" (results rep)
    /\ skipped rep = count_status "skipped" (results rep).
Proof.
  intros Hprov. unfold upload_selected_files. rewrite Hprov. cbn [negb].
  destruct (upload_loop_spec (file_ids req) tally0 st)
    as (t & st' & Hloop & Hok & Hcnt & Hids).
  assert (Hok0 : tally_ok tally0) by reflexivity.
  assert (Hcnt0 : tally_counts tally0) by (repeat split).
  specialize (Hok Hok0). destruct (Hcnt Hcnt0) as (Hsu & Hfa & Hsk).
  simpl in Hids.
  exists (mkFileUploadResponse (length (file_ids req)) (t_successful t)
            (t_failed t) (t_skipped t) (t_results t)), st'.
  unfold try_catch, bind, ret. rewrite Hloop. simpl.
  assert (Hlen : length (t_results t) = length (file_ids req)).
  { rewrite <- Hids. now rewrite length_map. }
  split; [reflexivity |]. simpl.
  repeat (split; [solve [auto | unfold tally_ok in Hok; lia
                        | intros i; now rewrite Hids] |]).
  assumption.
Qed.

(** ** Isolation of a failing item *)

(** An exception raised at a step of the iteration leaves the body of the
    inner [try] at once. *)
Lemma step_raises_body fid st e st' :
  step_raises source short_name req fid st e st' ->
  forall t, item_body source short_name req t fid st = (inl e, st').
Proof.
  intros H t; destruct H; unfold item_body, bind;
    repeat match goal with
           | H : _ = _ |- _ => rewrite H; clear H; cbn [negb]
           end; reflexivity.
Qed.

(** Conversely the body raises only at one of these steps. *)
Lemma body_raises_step fid st t e st' :
  item_body source short_name req t fid st = (inl e, st') ->
  step_raises source short_name req fid st e st'.
Proof.
  unfold item_body, bind.
  destruct (_get_with_auth source _ st) as [[e1 | file_data] st1] eqn:H1;
    [intros [= <- <-]; now apply raises_metadata |].
  destruct (d_file file_data) as [file_info |] eqn:H2; [| discriminate].
  destruct (call _ st1) as [[e2 | download_url] st2] eqn:H3;
    [intros [= <- <-]; eapply raises_download_url; eauto |].
  destruct (truthy download_url) eqn:H4; cbn [negb]; [| discriminate].
  destruct (call _ st2) as [[e3 | [file_entity |]] st3] eqn:H5;
    [intros [= <- <-]; eapply raises_build; eauto | | discriminate].
  destruct (call _ st3) as [[e4 | downloaded] st4] eqn:H6;
    [intros [= <- <-]; eapply raises_download; eauto |].
  destruct (truthy (local_path downloaded)) eqn:H7; cbn [negb];
    [| discriminate].
  destruct (call _ st4) as [[e5 | u] st5] eqn:H8;
    [intros [= <- <-]; eapply raises_insert; eauto | discriminate].
Qed.

(** The iteration turns the exception into a failed result and returns. *)
Lemma upload_item_raises fid st e st' :
  step_raises source short_name req fid st e st' ->
  forall t,
    upload_item source short_name req t fid st
    = (inr (add_failed t (failed_result source fid e)), st').
Proof.
  intros H t. unfold upload_item, try_catch.
  rewrite (step_raises_body _ _ _ _ H). reflexivity.
Qed.

(** The loop started with any tally appends what the loop started with the
    empty tally produces, and leaves in the same state. *)
Lemma upload_loop_results ids : forall t st,
  exists t',
    upload_loop source short_name req ids t st
    = (inr t', run_state source short_name req ids st)
    /\ t_results t' = t_results t ++ run_results source short_name req ids st.
Proof.
  unfold run_results, run_state.
  induction ids as [| fid rest IH]; intros t st; simpl.
  - exists t. now rewrite app_nil_r.
  - destruct (upload_item_uniform fid st) as (c & r & st1 & _ & _ & Hrun).
    unfold bind. rewrite !Hrun.
    destruct (IH (bump c t r) st1) as (t1 & H1 & R1).
    destruct (IH (bump c tally0 r) st1) as (t2 & H2 & R2).
    exists t1. rewrite H1, H2 in *. simpl. split; [reflexivity |].
    destruct (upload_loop source short_name req rest tally0 st1)
      as [[e | t3] st3]; rewrite R1, R2, !bump_results; simpl;
      now rewrite <- app_assoc.
Qed.

Lemma run_results_app pre post st :
  run_results source short_name req (pre ++ post) st
  = run_results source short_name req pre st
    ++ run_results source short_name req post
         (run_state source short_name req pre st).
Proof.
  revert st. induction pre as [| fid pre IH]; intros st.
  - reflexivity.
  - unfold run_results, run_state in *. simpl.
    destruct (upload_item_uniform fid st) as (c & r & st1 & _ & _ & Hrun).
    unfold bind. rewrite !Hrun.
    destruct (upload_loop_results (pre ++ post) (bump c tally0 r) st1)
      as (t1 & H1 & R1).
    destruct (upload_loop_results pre (bump c tally0 r) st1)
      as (t2 & H2 & R2).
    rewrite H1, H2. simpl. rewrite R1, R2.
    unfold run_results, run_state. rewrite IH, app_assoc. reflexivity.
Qed.

Lemma run_state_app pre post st :
  run_state source short_name req (pre ++ post) st
  = run_state source short_name req post
      (run_state source short_name req pre st).
Proof.
  revert st. induction pre as [| fid pre IH]; intros st.
  - reflexivity.
  - unfold run_state in *. simpl.
    destruct (upload_item_uniform fid st) as (c & r & st1 & _ & _ & Hrun).
    unfold bind. rewrite !Hrun.
    destruct (upload_loop_results (pre ++ post) (bump c tally0 r) st1)
      as (t1 & H1 & R1).
    destruct (upload_loop_results pre (bump c tally0 r) st1)
      as (t2 & H2 & R2).
    rewrite H1, H2. simpl. unfold run_state. apply IH.
Qed.

Lemma run_results_length ids st :
  length (run_results source short_name req ids st) = length ids.
Proof.
  unfold run_results.
  destruct (upload_loop_spec ids tally0 st) as (t & st' & H & _ & _ & Hids).
  rewrite H. simpl in Hids. rewrite <- Hids. now rewrite length_map.
Qed.

(** The result of a single iteration is the result of the loop over the
    one id. *)
Lemma run_results_raises fid st e st' :
  step_raises source short_name req fid st e st' ->
  run_results source short_name req [fid] st = [failed_result source fid e]
  /\ run_state source short_name req [fid] st = st'.
Proof.
  intros H. unfold run_results, run_state. simpl. unfold bind.
  rewrite (upload_item_raises _ _ _ _ H). split; reflexivity.
Qed.

Ltac red_item := cbn -[String.append String.eqb file_url entity_args].

(** When the answers for [fid] are the same in every world, the result of
    its iteration is the same in every state. *)
Lemma answers_fixed_result fid :
  answers_fixed source short_name req fid ->
  forall st st',
    run_results source short_name req [fid] st
    = run_results source short_name req [fid] st'.
Proof.
  intros Hfix st st'. unfold run_results. simpl.
  unfold bind, upload_item, try_catch, item_body, bind, call, _get_with_auth,
    ret.
  red_item.
  destruct (Hfix (world st) (world st')) as (H1 & _).
  destruct (get_with_auth source (world st) _) as [r1 w1],
           (get_with_auth source (world st') _) as [r2 w2].
  simpl in H1. subst r2. destruct r1 as [e | file_data]; [reflexivity |].
  red_item.
  destruct (d_file file_data); [| reflexivity]. red_item.
  destruct (Hfix w1 w2) as (_ & H2 & _).
  destruct (get_download_url source w1 _ _) as [r1 w3],
           (get_download_url source w2 _ _) as [r2 w4].
  simpl in H2. subst r2. destruct r1 as [e | download_url]; [reflexivity |].
  red_item.
  destruct (negb (truthy download_url)); [reflexivity |]. red_item.
  red_item.
  destruct (Hfix w3 w4) as (_ & _ & H3 & _).
  specialize (H3 (entity_args short_name req file_data
                    (get_or download_url ""%string))).
  destruct (build_file_entity source w3 _) as [r1 w5],
           (build_file_entity source w4 _) as [r2 w6].
  simpl in H3. subst r2.
  destruct r1 as [e | [file_entity |]]; [reflexivity | | reflexivity].
  red_item.
  destruct (Hfix w5 w6) as (_ & _ & _ & H4 & _).
  specialize (H4 file_entity).
  destruct (download_from_url source w5 _) as [r1 w7],
           (download_from_url source w6 _) as [r2 w8].
  simpl in H4. subst r2. destruct r1 as [e | downloaded]; [reflexivity |].
  red_item.
  destruct (negb (truthy (local_path downloaded))); [reflexivity |]. red_item.
  red_item.
  destruct (Hfix w7 w8) as (_ & _ & _ & _ & H5).
  specialize (H5 [downloaded]).
  destruct (bulk_insert source w7 _) as [r1 w9],
           (bulk_insert source w8 _) as [r2 w10].
  simpl in H5. subst r2. destruct r1 as [e | u]; reflexivity.
Qed.

(** The result at a position depends on the state in which its iteration
    starts only. *)
Lemma run_results_nth ids : forall j fid st,
  nth_error ids j = Some fid ->
  exists st_j,
    nth_error (run_results source short_name req ids st) j
    = nth_error (run_results source short_name req [fid] st_j) 0.
Proof.
  induction ids as [| x rest IH]; intros j fid st Hj.
  - destruct j; discriminate.
  - change (x :: rest) with ([x] ++ rest). rewrite run_results_app.
    pose proof (run_results_length [x] st) as Hlen. simpl in Hlen.
    destruct j as [| j]; simpl in Hj.
    + injection Hj as ->. exists st.
      destruct (run_results source short_name req [fid] st) as [| r [| ? ?]];
        try discriminate. reflexivity.
    + destruct (IH j fid (run_state source short_name req [x] st) Hj)
        as (st_j & Hnth).
      exists st_j. rewrite nth_error_app2 by lia.
      rewrite Hlen. replace (S j - 1) with j by lia. exact Hnth.
Qed.

(** C2.  When an exception is raised at a step of the iteration for the
    file id at some position (the fetch of its metadata, the fetch of its
    download URL, the construction of its record, its download, or the
    insert into the destination), the result of that iteration is a failed
    one that carries the text of the exception, the results before it are
    those of the ids before it, and the loop goes on with the ids after it
    from the state the failure left.  The result at any other position whose
    answers from the collaborators are fixed is what it is in any other run
    over the same ids, in particular in one where the failing item
    succeeds. *)
Theorem item_failure_is_isolated pre fid post st e st' :
  step_raises source short_name req fid
    (run_state source short_name req pre st) e st' ->
  run_results source short_name req (pre ++ fid :: post) st
  = run_results source short_name req pre st
    ++ mkFileUploadResult fid "Unknown" "failed" (Some (str source e)) None
       :: run_results source short_name req post st'
  /\ (forall j other st_alt,
        nth_error (pre ++ fid :: post) j = Some other ->
        answers_fixed source short_name req other ->
        nth_error (run_results source short_name req (pre ++ fid :: post) st) j
        = nth_error
            (run_results source short_name req (pre ++ fid :: post) st_alt) j).
Proof.
  intros Hraise. split.
  - rewrite run_results_app. f_equal.
    change (fid :: post) with ([fid] ++ post). rewrite run_results_app.
    destruct (run_results_raises _ _ _ _ Hraise) as (-> & ->). reflexivity.
  - intros j other st_alt Hj Hfix.
    destruct (run_results_nth _ _ _ st Hj) as (s1 & ->).
    destruct (run_results_nth _ _ _ st_alt Hj) as (s2 & ->).
    now rewrite (answers_fixed_result _ Hfix s1 s2).
Qed.

(** ** The folder-then-file scenario *)

(** C8, amended.  For the file ids a, b, where a resolves to an item that
    is not a file, and b to a file whose download URL is obtained, whose
    record is built, whose download leaves local content and whose insert
    succeeds, the report has total 2, successful 1, failed 0, skipped 1; the
    first result is for a, skipped, with the error text
    "Not a file (may be a folder)" (capital N); the second is for b, a
    success, with the destination path
    s3://<bucket><slash><prefix>collections/<readable id of the
    collection>/blobs/<id of the record>. *)
Theorem transfer_folder_then_file st da w1 db fb w2 u w3 ent w4 ent' w5 w6 :
  (short_name =? "sharepoint")%string || (short_name =? "onedrive")%string
    = true ->
  file_ids req = ["a"; "b"]%string ->
  get_with_auth source (world st) (file_url source short_name req "a")
    = (inr da, w1) ->
  d_file da = None ->
  get_with_auth source w1 (file_url source short_name req "b")
    = (inr db, w2) ->
  d_file db = Some fb ->
  get_download_url source w2 (drive_id req) "b" = (inr (Some u), w3) ->
  u <> ""%string ->
  build_file_entity source w3 (entity_args short_name req db u)
    = (inr (Some ent), w4) ->
  download_from_url source w4 ent = (inr ent', w5) ->
  truthy (local_path ent') = true ->
  bulk_insert source w5 [ent'] = (inr tt, w6) ->
  fst (upload_selected_files source short_name req st)
  = inr (mkFileUploadResponse 2 1 0 1
           [mkFileUploadResult "a" (get_or (d_name da) "Unknown"%string)
              "skipped" (Some "Not a file (may be a folder)"%string) None;
            mkFileUploadResult "b" (entity_name ent') "success" None
              (Some ("s3://" ++ bucket_name source ++ "/"
                     ++ bucket_prefix source ++ "collections/"
                     ++ readable_id source ++ "/blobs/"
                     ++ entity_id ent')%string)]).
Proof.
  intros Hprov Hids Ha Hfa Hb Hfb Hurl Hu Hbuild Hdl Hlocal Hins.
  unfold upload_selected_files. rewrite Hprov, Hids. cbn [negb].
  unfold try_catch, bind at 1. simpl upload_loop.
  unfold bind, upload_item, try_catch, item_body, bind, call,
    _get_with_auth, ret.
  rewrite Ha. cbn [world trace]. rewrite Hfa. cbn [world trace].
  rewrite Hb. cbn [world trace]. rewrite Hfb. cbn [world trace].
  rewrite Hurl. cbn [world trace].
  assert (Htruthy : truthy (Some u) = true).
  { simpl. destruct (String.eqb_spec u ""%string); [contradiction | easy]. }
  rewrite Htruthy. cbn [negb get_or world trace]. rewrite Hbuild. cbn [world trace].
  rewrite Hdl. cbn [world trace]. rewrite Hlocal. cbn [negb world trace].
  rewrite Hins. reflexivity.
Qed.

End UploadProperties.

(** ** The transfer loop on the concrete tenant *)

Lemma upload_report_one_result_per_id_witness :
  ("sharepoint" =? "sharepoint")%string || ("sharepoint" =? "onedrive")%string
    = true
  /\ exists rep st',
       upload_selected_files Demo.tenant "sharepoint"
         (Demo.request ["a"; "b"; "a"]%string) (Demo.start false)
       = (inr rep, st')
       /\ total_files rep = 3
       /\ map file_id (results rep) = ["a"; "b"; "a"]%string.
Proof.
  split; [reflexivity |].
  destruct (upload_report_one_result_per_id Demo.tenant "sharepoint"
              (Demo.request ["a"; "b"; "a"]%string) (Demo.start false)
              eq_refl)
    as (rep & st' & H & Htot & _ & _ & Hids & _).
  exists rep, st'. split; [exact H | split; [exact Htot | exact Hids]].
Defined.

Lemma item_failure_is_isolated_witness :
  run_results Demo.tenant "sharepoint" (Demo.request [])
    ["c"; "b"; "c"]%string (Demo.start true)
  = run_results Demo.tenant "sharepoint" (Demo.request [])
      ["c"]%string (Demo.start true)
    ++ mkFileUploadResult "b" "Unknown" "failed" (Some "item not found"%string)
         None
       :: run_results Demo.tenant "sharepoint" (Demo.request [])
            ["c"]%string
            (mkState true
               [((Demo.base ++ "/drives/D1/items/c")%string,
                 inr Demo.file_c);
                ((Demo.base ++ "/drives/D1/items/b")%string,
                 inl (HTTPStatusError 404 "item not found"))])
  /\ nth_error
       (run_results Demo.tenant "sharepoint" (Demo.request [])
          ["c"; "b"; "c"]%string (Demo.start true)) 2
     = nth_error
         (run_results Demo.tenant "sharepoint" (Demo.request [])
            ["c"; "b"; "c"]%string (Demo.start false)) 2.
Proof.
  destruct (item_failure_is_isolated Demo.tenant "sharepoint"
              (Demo.request []) ["c"]%string "b"%string ["c"]%string
              (Demo.start true) (HTTPStatusError 404 "item not found")
              (mkState true
                 [((Demo.base ++ "/drives/D1/items/c")%string,
                   inr Demo.file_c);
                  ((Demo.base ++ "/drives/D1/items/b")%string,
                   inl (HTTPStatusError 404 "item not found"))]))
    as [Hsplit Hsame].
  - apply raises_metadata. reflexivity.
  - split; [exact Hsplit |].
    apply (Hsame 2 "c"%string (Demo.start false)); [reflexivity |].
    intros w w'. repeat split.
Defined.

Lemma transfer_folder_then_file_witness :
  fst (upload_selected_files Demo.tenant "sharepoint"
         (Demo.request ["a"; "b"]%string) (Demo.start false))
  = inr (mkFileUploadResponse 2 1 0 1
           [mkFileUploadResult "a" "docs" "skipped"
              (Some "Not a file (may be a folder)"%string) None;
            mkFileUploadResult "b" "b.txt" "success" None
              (Some "s3://bucket/prefix/collections/my-collection/blobs/b"%string)]).
Proof.
  apply (transfer_folder_then_file Demo.tenant "sharepoint"
           (Demo.request ["a"; "b"]%string) (Demo.start false)
           Demo.folder_a false Demo.file_b
           (Facet (Some "text/plain"%string)) false
           "https://download/b"%string false
           (mkFileEntity "b" "b.txt" None) false
           (mkFileEntity "b" "b.txt" (Some "/tmp/b"%string)) false false);
    try reflexivity.
  discriminate.
Defined.

(** The scenario of C8 on the tenant: a is a folder, b a file that is
    transferred, and the error text of the first result is not the
    lower-case one. *)
Lemma transfer_error_text_counterexample :
  exists r_a r_b,
    fst (upload_selected_files Demo.tenant "sharepoint"
           (Demo.request ["a"; "b"]%string) (Demo.start false))
    = inr (mkFileUploadResponse 2 1 0 1 [r_a; r_b])
    /\ file_id r_a = "a"%string /\ status r_a = "skipped"%string
    /\ file_id r_b = "b"%string /\ status r_b = "success"%string
    /\ error r_a <> Some "not a file (may be a folder)"%string.
Proof.
  eexists _, _. split; [reflexivity |].
  repeat (split; [reflexivity |]). discriminate.
Qed.

(** * Properties of the browser *)

Section BrowseProperties.

Context {World : Type}.
Variable source : Collaborators World.

(** ** The merging loops *)

Lemma opt_eqb_eq a b : opt_eqb a b = true <-> a = b.
Proof.
  destruct a as [x |], b as [y |]; simpl; split; try congruence.
  - intros H. apply String.eqb_eq in H. congruence.
  - intros [= ->]. apply String.eqb_refl.
Qed.

Lemma opt_eqb_sym a b : opt_eqb a b = opt_eqb b a.
Proof.
  destruct a as [x |], b as [y |]; simpl; auto using String.eqb_sym.
Qed.

Lemma any_id_seen v l :
  any_id v l = existsb (fun i => opt_eqb i v) (map d_id l).
Proof.
  unfold any_id. induction l as [| s l IH]; simpl; [reflexivity |].
  now rewrite IH.
Qed.

Lemma any_id_In v l : any_id v l = true <-> In v (map d_id l).
Proof.
  unfold any_id. rewrite existsb_exists, in_map_iff. split.
  - intros (s & Hs & He). apply opt_eqb_eq in He. eauto.
  - intros (s & He & Hs). exists s. split; [exact Hs |].
    now apply opt_eqb_eq.
Qed.

Lemma truthy_Some v : truthy v = true -> v <> None.
Proof. destruct v; simpl; congruence. Qed.

(** The loop that merges a batch into [all_sites] keeps the first
    occurrences, in order. *)
Lemma add_if_new_spec batch : forall all_sites,
  fold_left add_if_new batch all_sites
  = all_sites ++ first_occurrences (map d_id all_sites) batch.
Proof.
  induction batch as [| site rest IH]; intros all_sites; simpl.
  - now rewrite app_nil_r.
  - rewrite IH. unfold add_if_new. rewrite any_id_seen.
    destruct (truthy (d_id site)
              && negb (existsb (fun i => opt_eqb i (d_id site))
                         (map d_id all_sites))).
    + rewrite map_app, <- app_assoc. reflexivity.
    + reflexivity.
Qed.

(** So does the loop that merges a batch into [sites_list], the id of the
    root site counting as seen. *)
Lemma add_site_spec root_site_id batch : forall sites_list,
  fold_left (add_site root_site_id) batch sites_list
  = sites_list
    ++ first_occurrences (root_site_id :: map d_id sites_list) batch.
Proof.
  induction batch as [| site rest IH]; intros sites_list;
    cbn [fold_left first_occurrences].
  - now rewrite app_nil_r.
  - rewrite IH. unfold add_site. rewrite any_id_seen. cbn [existsb].
    rewrite (opt_eqb_sym root_site_id).
    destruct (truthy (d_id site)); cbn [andb]; [| reflexivity].
    destruct (opt_eqb (d_id site) root_site_id); cbn [negb orb andb];
      [reflexivity |].
    destruct (existsb (fun i => opt_eqb i (d_id site)) (map d_id sites_list));
      cbn [negb]; [reflexivity |].
    rewrite map_app, <- app_assoc. reflexivity.
Qed.

Lemma first_occurrences_ids seen l :
  forall v, In v (map d_id (first_occurrences seen l)) ->
            In v (map d_id l) /\ ~ In v seen /\ truthy v = true.
Proof.
  revert seen. induction l as [| site rest IH]; intros seen v; simpl.
  - tauto.
  - destruct (truthy (d_id site)) eqn:Ht; cbn [andb].
    + destruct (existsb (fun i => opt_eqb i (d_id site)) seen) eqn:Hs;
        cbn [negb].
      * intros H. destruct (IH _ _ H) as (H1 & H2 & H3). tauto.
      * simpl. intros [<- | H].
        -- split; [tauto | split; [| exact Ht]].
           intros Hin. apply Bool.not_true_iff_false in Hs. apply Hs.
           apply existsb_exists. exists (d_id site). split; [exact Hin |].
           now apply opt_eqb_eq.
        -- destruct (IH _ _ H) as (H1 & H2 & H3).
           split; [tauto | split; [| exact H3]].
           intros Hin. apply H2. apply in_or_app. now left.
    + intros H. destruct (IH _ _ H) as (H1 & H2 & H3). tauto.
Qed.

Lemma first_occurrences_nodup l : forall seen,
  NoDup (map d_id (first_occurrences seen l)).
Proof.
  induction l as [| site rest IH]; intros seen; simpl.
  - constructor.
  - destruct (truthy (d_id site)
              && negb (existsb (fun i => opt_eqb i (d_id site)) seen)).
    + simpl. constructor; [| apply IH].
      intros H. apply first_occurrences_ids in H.
      destruct H as (_ & H & _). apply H. apply in_or_app. right. now left.
    + apply IH.
Qed.

(** Every identified entry of the batch is kept or was seen. *)
Lemma first_occurrences_covers l : forall seen site,
  In site l -> truthy (d_id site) = true ->
  In (d_id site) seen
  \/ In (d_id site) (map d_id (first_occurrences seen l)).
Proof.
  induction l as [| x rest IH]; intros seen site Hin Ht; simpl.
  - destruct Hin.
  - destruct Hin as [-> | Hin].
    + rewrite Ht. cbn [andb].
      destruct (existsb (fun i => opt_eqb i (d_id site)) seen) eqn:Hs;
        cbn [negb].
      * left. apply existsb_exists in Hs. destruct Hs as (i & Hi & He).
        apply opt_eqb_eq in He. now subst.
      * right. now left.
    + destruct (truthy (d_id x)
                && negb (existsb (fun i => opt_eqb i (d_id x)) seen)).
      * destruct (IH (seen ++ [d_id x]) site Hin Ht) as [H | H].
        -- apply in_app_or in H. destruct H as [H | [H | []]].
           ++ now left.
           ++ right. left. exact H.
        -- right. now right.
      * apply IH; assumption.
Qed.

Lemma merged_nodup seen l acc :
  NoDup (map d_id acc) ->
  (forall v, In v (map d_id acc) -> In v seen) ->
  NoDup (map d_id (acc ++ first_occurrences seen l)).
Proof.
  intros Hnd Hseen. rewrite map_app.
  apply NoDup_app; [exact Hnd | apply first_occurrences_nodup |].
  intros v Hv H. apply first_occurrences_ids in H.
  destruct H as (_ & H & _). auto.
Qed.

(** ** The pagination loop *)

(** The loop, one turn unfolded. *)
Lemma more_pages_turn root_site_id next_url sites_list page_count st :
  more_pages source root_site_id next_url sites_list page_count st
  = if more_pages_cond next_url sites_list page_count
    then
      match _get_with_auth source (fmt next_url) st with
      | (inl e, st') => ((sites_list, Some e), st')
      | (inr next_data, st') =>
          more_pages source root_site_id (d_nextLink next_data)
            (fold_left (add_site root_site_id)
               (get_or (d_value next_data) []) sites_list)
            (page_count + 1) st'
      end
    else ((sites_list, None), st).
Proof.
  funelim (more_pages source root_site_id next_url sites_list page_count st).
  - now rewrite e.
  - now rewrite Hc, Heq.
  - now rewrite Hc, Heq.
Qed.

Lemma within_refl (st : state World) : within 0 st st.
Proof. exists []. now rewrite app_nil_r. Qed.

Lemma within_trans j k (st1 st2 st3 : state World) :
  within j st1 st2 -> within k st2 st3 -> within (j + k) st1 st3.
Proof.
  intros (e1 & H1 & L1) (e2 & H2 & L2). exists (e1 ++ e2).
  rewrite H2, H1, app_assoc, length_app. split; [reflexivity | lia].
Qed.

Lemma within_le j k (st st' : state World) : j <= k -> within j st st' -> within k st st'.
Proof. intros Hle (e & H & L). exists e. split; [exact H | lia]. Qed.

Lemma get_within url st : within 1 st (snd (_get_with_auth source url st)).
Proof.
  unfold _get_with_auth.
  destruct (get_with_auth source (world st) url) as [r w]. simpl.
  eexists. split; [reflexivity | simpl; lia].
Qed.

Lemma more_pages_cond_lt next_url sites_list page_count :
  more_pages_cond next_url sites_list page_count = true -> page_count < 10.
Proof.
  unfold more_pages_cond. intros H. apply andb_prop in H.
  destruct H as [_ H]. now apply Nat.ltb_lt in H.
Qed.

(** The loop sends at most one request per turn, and counts its turns. *)
Lemma more_pages_within root_site_id next_url sites_list page_count st :
  within (10 - page_count) st
    (snd (more_pages source root_site_id next_url sites_list page_count st)).
Proof.
  funelim (more_pages source root_site_id next_url sites_list page_count st).
  - cbn [snd]. eapply within_le; [| apply within_refl]. lia.
  - cbn [snd]. pose proof (get_within (fmt next_url) st) as Hg.
    rewrite Heq in Hg. cbn [snd] in Hg.
    pose proof (more_pages_cond_lt _ _ _ Hc) as Hlt.
    eapply within_le; [| exact Hg]. lia.
  - pose proof (get_within (fmt next_url) st) as Hg.
    rewrite Heq in Hg. cbn [snd] in Hg.
    pose proof (more_pages_cond_lt _ _ _ Hc) as Hlt.
    eapply within_le; [| eapply within_trans; [exact Hg | exact H]]. lia.
Qed.

(** It does not start a turn without a link, with 200 sites or more, or
    after the tenth page. *)
Lemma more_pages_stops root_site_id next_url sites_list page_count st :
  truthy next_url = false \/ 200 <= length sites_list \/ 10 <= page_count ->
  more_pages source root_site_id next_url sites_list page_count st
  = ((sites_list, None), st).
Proof.
  intros H. rewrite more_pages_turn.
  replace (more_pages_cond next_url sites_list page_count) with false;
    [reflexivity |].
  unfold more_pages_cond. symmetry.
  destruct H as [-> | [H | H]]; [reflexivity | |].
  - apply Nat.ltb_ge in H. rewrite H. now rewrite andb_false_r.
  - apply Nat.ltb_ge in H. rewrite H. now rewrite andb_false_r.
Qed.

(** What the loop returns extends the list it was given by first
    occurrences. *)
Lemma more_pages_prefix root_site_id next_url sites_list page_count st :
  prefix_of sites_list
    (fst (fst (more_pages source root_site_id next_url sites_list
                 page_count st))).
Proof.
  funelim (more_pages source root_site_id next_url sites_list page_count st).
  - exists []. simpl. now rewrite app_nil_r.
  - exists []. simpl. now rewrite app_nil_r.
  - destruct H as (rest & ->). rewrite add_site_spec, <- app_assoc.
    eexists. reflexivity.
Qed.

Lemma more_pages_nodup root_site_id next_url sites_list page_count st :
  NoDup (map d_id sites_list) ->
  NoDup (map d_id
           (fst (fst (more_pages source root_site_id next_url sites_list
                        page_count st)))).
Proof.
  funelim (more_pages source root_site_id next_url sites_list page_count st);
    simpl; auto.
  intros Hnd. apply H. rewrite add_site_spec.
  apply merged_nodup; [exact Hnd |]. intros v Hv. now right.
Qed.

Lemma prefix_of_ids (l1 l2 : list dict) v :
  prefix_of l1 l2 -> In v (map d_id l1) -> In v (map d_id l2).
Proof.
  intros (rest & ->) H. rewrite map_app. apply in_or_app. now left.
Qed.

(** Merging a batch into [sites_list] covers every identified entry of the
    batch. *)
Lemma add_site_covers root_site_id batch sites_list site :
  root_known root_site_id sites_list ->
  In site batch -> truthy (d_id site) = true ->
  In (d_id site)
     (map d_id (fold_left (add_site root_site_id) batch sites_list)).
Proof.
  intros Hroot Hin Ht. rewrite add_site_spec, map_app. apply in_or_app.
  destruct (first_occurrences_covers batch
              (root_site_id :: map d_id sites_list) site Hin Ht)
    as [[Heq | H] | H]; [| now left | now right].
  left. destruct Hroot as [-> | Hroot].
  - apply truthy_Some in Ht. congruence.
  - now rewrite <- Heq.
Qed.

Lemma root_known_prefix root_site_id (l1 l2 : list dict) :
  prefix_of l1 l2 -> root_known root_site_id l1 -> root_known root_site_id l2.
Proof.
  intros Hp [-> | H]; [now left | right]. eauto using prefix_of_ids.
Qed.

Lemma add_site_prefix root_site_id batch sites_list :
  prefix_of sites_list (fold_left (add_site root_site_id) batch sites_list).
Proof. rewrite add_site_spec. eexists. reflexivity. Qed.

(** Every identified site of a page that the loop fetches is in the list it
    returns. *)
Lemma more_pages_covers root_site_id next_url sites_list page_count st data :
  page_fetched source root_site_id next_url sites_list page_count st data ->
  root_known root_site_id sites_list ->
  forall site,
    In site (get_or (d_value data) []) -> truthy (d_id site) = true ->
    In (d_id site)
       (map d_id
          (fst (fst (more_pages source root_site_id next_url sites_list
                       page_count st)))).
Proof.
  induction 1 as [nu sl pc st data st' Hc Hget
                 | nu sl pc st next_data st' data Hc Hget Hrec IH];
    intros Hroot site Hin Ht; rewrite more_pages_turn, Hc, Hget.
  - eapply prefix_of_ids; [apply more_pages_prefix |].
    now apply add_site_covers.
  - apply IH; auto.
    eapply root_known_prefix; [apply add_site_prefix | exact Hroot].
Qed.

(** ** The phases of the site listing *)

Lemma prefix_of_refl {A : Type} (l : list A) : prefix_of l l.
Proof. exists []. now rewrite app_nil_r. Qed.

Lemma prefix_of_trans {A : Type} (l1 l2 l3 : list A) :
  prefix_of l1 l2 -> prefix_of l2 l3 -> prefix_of l1 l3.
Proof.
  intros (r1 & ->) (r2 & ->). exists (r1 ++ r2). now rewrite app_assoc.
Qed.

Lemma add_if_new_prefix batch all_sites :
  prefix_of all_sites (fold_left add_if_new batch all_sites).
Proof. rewrite add_if_new_spec. eexists. reflexivity. Qed.

Lemma add_if_new_covers batch all_sites site :
  In site batch -> truthy (d_id site) = true ->
  In (d_id site) (map d_id (fold_left add_if_new batch all_sites)).
Proof.
  intros Hin Ht. rewrite add_if_new_spec, map_app. apply in_or_app.
  destruct (first_occurrences_covers batch (map d_id all_sites) site Hin Ht);
    auto.
Qed.

Lemma fetch_root_site_spec st :
  within 1 st (snd (fetch_root_site source st))
  /\ (forall d st1,
        _get_with_auth source (root_site_url source) st = (inr d, st1) ->
        fetch_root_site source st = ([root_entry d], st1))
  /\ (forall e st1,
        _get_with_auth source (root_site_url source) st = (inl e, st1) ->
        fetch_root_site source st = ([], st1)).
Proof.
  unfold fetch_root_site.
  pose proof (get_within (root_site_url source) st) as Hg.
  destruct (_get_with_auth source (root_site_url source) st) as [[e | d] st1];
    (split; [exact Hg |]); split; intros ? ? [= <- <-]; reflexivity.
Qed.

Lemma fetch_all_sites_within st :
  within 2 st (snd (fetch_all_sites source st)).
Proof.
  unfold fetch_all_sites, try_catch.
  pose proof (get_within (sites_search_url source) st) as H1.
  destruct (_get_with_auth source (sites_search_url source) st)
    as [[e | d] st1]; cbn [snd] in *.
  - change 2 with (1 + 1). eapply within_trans; [exact H1 |].
    apply get_within.
  - eapply within_le; [| exact H1]. lia.
Qed.

(** The followed sites: never an exception, nothing dropped from
    [all_sites], every identified followed site in it. *)
Lemma merge_followed_sites_spec all_sites st :
  exists all_sites' st',
    merge_followed_sites source all_sites st = (inr all_sites', st')
    /\ within 1 st st'
    /\ prefix_of all_sites all_sites'
    /\ (forall data s,
          _get_with_auth source (followed_sites_url source) st = (inr data, s)
          -> forall site,
               In site (get_or (d_value data) []) ->
               truthy (d_id site) = true ->
               In (d_id site) (map d_id all_sites')).
Proof.
  unfold merge_followed_sites, try_catch, bind, ret.
  pose proof (get_within (followed_sites_url source) st) as Hg.
  destruct (_get_with_auth source (followed_sites_url source) st)
    as [[e | d] st1]; cbn [snd] in Hg; eexists _, _;
    (split; [reflexivity |]); (split; [exact Hg |]); split.
  - apply prefix_of_refl.
  - intros ? ? [=].
  - apply add_if_new_prefix.
  - intros data s [= <- <-] site Hin Ht. now apply add_if_new_covers.
Qed.

(** The site of one group. *)
Lemma add_group_site_spec all_sites group st :
  exists all_sites' st',
    add_group_site source all_sites group st = (inr all_sites', st')
    /\ within 1 st st'
    /\ prefix_of all_sites all_sites'
    /\ (forall d s,
          _get_with_auth source (group_site_url source group) st = (inr d, s)
          -> truthy (d_id d) = true -> In (d_id d) (map d_id all_sites')).
Proof.
  unfold add_group_site, try_catch, bind, ret.
  pose proof (get_within (group_site_url source group) st) as Hg.
  destruct (_get_with_auth source (group_site_url source group) st)
    as [[e | d] st1]; cbn [snd] in Hg; eexists _, _;
    (split; [reflexivity |]); (split; [exact Hg |]); split.
  - apply prefix_of_refl.
  - intros ? ? [=].
  - destruct (truthy (d_id d) && negb (any_id (d_id d) all_sites));
      [eexists; reflexivity | apply prefix_of_refl].
  - intros d' s [= <- <-] Ht. rewrite Ht. cbn [andb].
    destruct (any_id (d_id d) all_sites) eqn:Hany; cbn [negb].
    + now apply any_id_In.
    + rewrite map_app. apply in_or_app. right. now left.
Qed.

(** The loop over the groups: one request per group. *)
Lemma for_groups_spec groups : forall all_sites st,
  exists all_sites' st',
    for_groups source groups all_sites st = (inr all_sites', st')
    /\ within (length groups) st st'
    /\ prefix_of all_sites all_sites'.
Proof.
  induction groups as [| group rest IH]; intros all_sites st; simpl.
  - exists all_sites, st. split; [reflexivity |].
    split; [apply within_refl | apply prefix_of_refl].
  - destruct (add_group_site_spec all_sites group st)
      as (a1 & st1 & H1 & W1 & P1 & _).
    destruct (IH a1 st1) as (a2 & st2 & H2 & W2 & P2).
    exists a2, st2. unfold bind. rewrite H1, H2.
    split; [reflexivity |]. split.
    + change (S (length rest)) with (1 + length rest).
      eapply within_trans; eauto.
    + eapply prefix_of_trans; eauto.
Qed.

Lemma for_groups_app pre post all_sites st :
  for_groups source (pre ++ post) all_sites st
  = match for_groups source pre all_sites st with
    | (inr all_sites', st') => for_groups source post all_sites' st'
    | (inl e, st') => (inl e, st')
    end.
Proof.
  revert all_sites st. induction pre as [| g pre IH]; intros all_sites st.
  - reflexivity.
  - simpl. unfold bind.
    destruct (add_group_site source all_sites g st) as [[e | a1] st1];
      [reflexivity | apply IH].
Qed.

(** The site of each of the groups the loop goes through is covered. *)
Lemma for_groups_covers pre group post all_sites st all1 st1 d s :
  for_groups source pre all_sites st = (inr all1, st1) ->
  _get_with_auth source (group_site_url source group) st1 = (inr d, s) ->
  truthy (d_id d) = true ->
  exists all_sites' st',
    for_groups source (pre ++ group :: post) all_sites st
    = (inr all_sites', st')
    /\ In (d_id d) (map d_id all_sites').
Proof.
  intros Hpre Hget Ht. rewrite for_groups_app, Hpre. simpl. unfold bind.
  destruct (add_group_site_spec all1 group st1)
    as (a2 & st2 & H2 & _ & _ & Hcov).
  rewrite H2.
  destruct (for_groups_spec post a2 st2) as (a3 & st3 & H3 & _ & P3).
  exists a3, st3. split; [exact H3 |].
  eapply prefix_of_ids; [exact P3 |]. eapply Hcov; eauto.
Qed.

Lemma merge_group_sites_spec all_sites st :
  exists all_sites' st',
    merge_group_sites source all_sites st = (inr all_sites', st')
    /\ within 21 st st'
    /\ prefix_of all_sites all_sites'.
Proof.
  unfold merge_group_sites, try_catch, bind.
  pose proof (get_within (groups_url source) st) as Hg.
  destruct (_get_with_auth source (groups_url source) st)
    as [[e | d] st1]; cbn [snd] in Hg.
  - exists all_sites, st1. split; [reflexivity |].
    split; [eapply within_le; [| exact Hg]; lia | apply prefix_of_refl].
  - destruct (for_groups_spec (firstn 20 (get_or (d_value d) []))
                all_sites st1) as (a1 & st2 & H1 & W1 & P1).
    rewrite H1. exists a1, st2. split; [reflexivity |]. split; [| exact P1].
    pose proof (firstn_le_length 20 (get_or (d_value d) [])) as Hlen.
    eapply within_le; [| eapply within_trans; [exact Hg | exact W1]]. lia.
Qed.

Lemma first_occurrences_truthy l : forall seen,
  Forall (fun s => truthy (d_id s) = true) (first_occurrences seen l).
Proof.
  induction l as [| site rest IH]; intros seen; simpl; [constructor |].
  destruct (truthy (d_id site)) eqn:Ht; cbn [andb]; [| apply IH].
  destruct (negb (existsb (fun i => opt_eqb i (d_id site)) seen));
    [constructor; auto | apply IH].
Qed.

Lemma appends_identified_refl l : appends_identified l l.
Proof. exists []. split; [now rewrite app_nil_r | constructor]. Qed.

Lemma appends_identified_trans l1 l2 l3 :
  appends_identified l1 l2 -> appends_identified l2 l3 ->
  appends_identified l1 l3.
Proof.
  intros (x1 & -> & F1) (x2 & -> & F2). exists (x1 ++ x2).
  split; [now rewrite app_assoc | now apply Forall_app].
Qed.

Lemma appends_identified_prefix l1 l2 :
  appends_identified l1 l2 -> prefix_of l1 l2.
Proof. intros (x & -> & _). now exists x. Qed.

Lemma add_site_appends root_site_id batch sites_list :
  appends_identified sites_list
    (fold_left (add_site root_site_id) batch sites_list).
Proof.
  rewrite add_site_spec. eexists. split; [reflexivity |].
  apply first_occurrences_truthy.
Qed.

Lemma more_pages_appends root_site_id next_url sites_list page_count st :
  appends_identified sites_list
    (fst (fst (more_pages source root_site_id next_url sites_list
                 page_count st))).
Proof.
  funelim (more_pages source root_site_id next_url sites_list page_count st).
  - apply appends_identified_refl.
  - apply appends_identified_refl.
  - eapply appends_identified_trans; [apply add_site_appends | exact H].
Qed.

(** The second [try] as a whole: at most 33 requests, identified sites
    appended, no identifier twice. *)
Lemma collect_sites_spec sites_list st :
  within 33 st (snd (collect_sites source sites_list st))
  /\ appends_identified sites_list
       (fst (fst (collect_sites source sites_list st)))
  /\ (NoDup (map d_id sites_list) ->
      NoDup (map d_id (fst (fst (collect_sites source sites_list st))))).
Proof.
  unfold collect_sites.
  pose proof (fetch_all_sites_within st) as W1.
  destruct (fetch_all_sites source st) as [[e | sites_data] st1];
    cbn [snd fst] in *.
  - split; [eapply within_le; [| exact W1]; lia |].
    split; [apply appends_identified_refl | auto].
  - unfold bind.
    destruct (merge_followed_sites_spec (get_or (d_value sites_data) []) st1)
      as (a1 & st2 & H2 & W2 & _).
    rewrite H2.
    destruct (merge_group_sites_spec a1 st2) as (a2 & st3 & H3 & W3 & _).
    rewrite H3.
    set (rid := match sites_list with [] => None | s :: _ => d_id s end).
    pose proof (more_pages_within rid (d_nextLink sites_data)
                  (fold_left (add_site rid) a2 sites_list) 1 st3) as W4.
    split; [| split].
    + change 33 with (2 + (1 + (21 + (10 - 1)))).
      eauto using within_trans.
    + eapply appends_identified_trans;
        [apply add_site_appends | apply more_pages_appends].
    + intros Hnd. apply more_pages_nodup. rewrite add_site_spec.
      apply merged_nodup; [exact Hnd |]. intros v Hv. now right.
Qed.

(** The list of sites: at most 34 requests, no identifier twice, the root
    site first when it was fetched. *)
Lemma list_sites_spec st :
  within 34 st (snd (list_sites source st))
  /\ NoDup (map d_id (fst (list_sites source st)))
  /\ appends_identified (fst (fetch_root_site source st))
       (fst (list_sites source st)).
Proof.
  unfold list_sites.
  destruct (fetch_root_site_spec st) as (W0 & Hok & Herr).
  destruct (fetch_root_site source st) as [sl0 st1] eqn:Hroot.
  cbn [snd fst] in *.
  destruct (collect_sites_spec sl0 st1) as (W1 & A1 & N1).
  destruct (collect_sites source sl0 st1) as [[sl1 raised] st2].
  cbn [snd fst] in *.
  split; [change 34 with (1 + 33); eauto using within_trans |].
  split; [| exact A1].
  apply N1. unfold fetch_root_site in Hroot.
  destruct (_get_with_auth source (root_site_url source) st)
    as [[e | d] s]; injection Hroot as <- <-; simpl;
    repeat constructor. simpl. tauto.
Qed.

Lemma traverse_site_folder sites_list :
  Forall (fun s => d_id s <> None) sites_list ->
  traverse site_folder sites_list = inr (map folder_of_site sites_list).
Proof.
  induction 1 as [| site rest Hid _ IH]; simpl; [reflexivity |].
  rewrite IH. unfold site_folder, new_FolderItem, folder_of_site.
  destruct (d_id site); [reflexivity | contradiction].
Qed.

Lemma traverse_site_folder_error sites_list e :
  traverse site_folder sites_list = inl e ->
  e = ValidationError "FolderItem" "id".
Proof.
  induction sites_list as [| site rest IH]; simpl; [discriminate |].
  unfold site_folder at 1, new_FolderItem.
  destruct (d_id site); [| now intros [= <-]].
  destruct (traverse site_folder rest); [| discriminate].
  intros [= <-]. now apply IH.
Qed.

(** At the first level the endpoint is the site listing inside the outer
    [try]. *)
Lemma browse_files_sites drive_id folder_id site_id st :
  truthy site_id = false ->
  browse_files source "sharepoint" drive_id folder_id site_id st
  = try_catch (browse_sites source) (browse_handlers source "sharepoint") st.
Proof.
  intros H. unfold browse_files. rewrite String.eqb_refl. cbn [orb negb].
  unfold browse_sharepoint. rewrite H. reflexivity.
Qed.

(** With an identified root site, every site of the list is identified. *)
Lemma list_sites_identified st :
  root_identified source st ->
  Forall (fun s => d_id s <> None) (fst (list_sites source st)).
Proof.
  intros Hroot. destruct (list_sites_spec st) as (_ & _ & (x & -> & Hx)).
  apply Forall_app. split.
  - unfold fetch_root_site, _get_with_auth.
    destruct (get_with_auth source (world st) (root_site_url source))
      as [[e | d] w] eqn:Hget; simpl; constructor; [| constructor].
    exact (Hroot _ _ Hget).
  - eapply Forall_impl; [| exact Hx]. intros s. apply truthy_Some.
Qed.

(** ** What the site listing covers *)

Lemma add_site_covers_id root_site_id batch sites_list v :
  root_known root_site_id sites_list ->
  In v (map d_id batch) -> truthy v = true ->
  In v (map d_id (fold_left (add_site root_site_id) batch sites_list)).
Proof.
  intros Hroot Hin Ht. apply in_map_iff in Hin.
  destruct Hin as (site & <- & Hin). now apply add_site_covers.
Qed.

Lemma root_known_head (sites_list : list dict) :
  root_known (match sites_list with [] => None | s :: _ => d_id s end)
    sites_list.
Proof. destruct sites_list; [now left | right; now left]. Qed.

(** The list of sites in terms of its phases. *)
Lemma list_sites_phases st sl0 st1 data st2 a1 st3 a2 st4 :
  fetch_root_site source st = (sl0, st1) ->
  fetch_all_sites source st1 = (inr data, st2) ->
  merge_followed_sites source (get_or (d_value data) []) st2
    = (inr a1, st3) ->
  merge_group_sites source a1 st3 = (inr a2, st4) ->
  let rid := match sl0 with [] => None | s :: _ => d_id s end in
  fst (list_sites source st)
  = fst (fst (more_pages source rid (d_nextLink data)
                (fold_left (add_site rid) a2 sl0) 1 st4)).
Proof.
  intros H0 H1 H2 H3 rid. unfold list_sites, collect_sites.
  rewrite H0, H1. unfold bind. rewrite H2, H3. fold rid.
  destruct (more_pages source rid (d_nextLink data)
              (fold_left (add_site rid) a2 sl0) 1 st4) as [[sl raised] st5].
  reflexivity.
Qed.

(** Every identified site in [all_sites] when it is merged is in the list. *)
Lemma list_sites_covers st sl0 st1 data st2 a1 st3 a2 st4 v :
  fetch_root_site source st = (sl0, st1) ->
  fetch_all_sites source st1 = (inr data, st2) ->
  merge_followed_sites source (get_or (d_value data) []) st2
    = (inr a1, st3) ->
  merge_group_sites source a1 st3 = (inr a2, st4) ->
  In v (map d_id a2) -> truthy v = true ->
  In v (map d_id (fst (list_sites source st))).
Proof.
  intros H0 H1 H2 H3 Hin Ht.
  rewrite (list_sites_phases _ _ _ _ _ _ _ _ _ H0 H1 H2 H3).
  eapply prefix_of_ids; [apply more_pages_prefix |].
  apply add_site_covers_id; auto using root_known_head.
Qed.

Lemma folder_ids sites_list v :
  In v (map d_id sites_list) ->
  In (fmt v) (map fo_id (map folder_of_site sites_list)).
Proof.
  rewrite map_map. intros H. apply in_map_iff in H.
  destruct H as (s & <- & Hs). apply in_map_iff. now exists s.
Qed.

(** The page of the first level, when the root site is identified. *)
Lemma browse_sites_returns drive_id folder_id site_id st :
  truthy site_id = false ->
  root_identified source st ->
  browse_files source "sharepoint" drive_id folder_id site_id st
  = (inr (mkBrowseResponse [] (map folder_of_site (fst (list_sites source st)))
            (Some "/sites"%string) None),
     snd (list_sites source st)).
Proof.
  intros Hsite Hroot. rewrite browse_files_sites by exact Hsite.
  unfold try_catch, browse_sites.
  pose proof (list_sites_identified st Hroot) as Hids.
  destruct (list_sites source st) as [sl st']. cbn [fst snd] in *.
  unfold bind, lift, ret. now rewrite (traverse_site_folder _ Hids).
Qed.

Lemma traverse_site_folder_inr sites_list fs :
  traverse site_folder sites_list = inr fs ->
  fs = map folder_of_site sites_list
  /\ Forall (fun s => d_id s <> None) sites_list.
Proof.
  revert fs. induction sites_list as [| site rest IH]; intros fs; simpl.
  - intros [= <-]. split; [reflexivity | constructor].
  - unfold site_folder at 1, new_FolderItem, folder_of_site at 1.
    destruct (d_id site) as [i |] eqn:Hid; [| discriminate].
    destruct (traverse site_folder rest) as [e | fs']; [discriminate |].
    intros [= <-]. destruct (IH _ eq_refl) as (-> & Hall).
    split; [reflexivity | constructor; [congruence | exact Hall]].
Qed.

(** A page returned at the first level is the page of the merged list. *)
Lemma browse_sites_page drive_id folder_id site_id st page st' :
  truthy site_id = false ->
  browse_files source "sharepoint" drive_id folder_id site_id st
    = (inr page, st') ->
  page = mkBrowseResponse [] (map folder_of_site (fst (list_sites source st)))
           (Some "/sites"%string) None
  /\ st' = snd (list_sites source st)
  /\ Forall (fun s => d_id s <> None) (fst (list_sites source st)).
Proof.
  intros Hsite. rewrite browse_files_sites by exact Hsite.
  unfold try_catch, browse_sites.
  destruct (list_sites source st) as [sl s1]. cbn [fst snd].
  unfold bind, lift, ret.
  destruct (traverse site_folder sl) as [e | fs] eqn:Htr.
  - destruct e; simpl; try discriminate.
    destruct (status_code =? 401)%Z; discriminate.
  - intros [= <- <-]. destruct (traverse_site_folder_inr _ _ Htr) as (-> & H).
    auto.
Qed.

(** ** The merged list in terms of what the sources answer *)

Lemma seen_In v seen :
  existsb (fun i => opt_eqb i v) seen = true <-> In v seen.
Proof.
  rewrite existsb_exists. split.
  - intros (i & Hi & He). apply opt_eqb_eq in He. now subst.
  - intros H. exists v. split; [exact H | now apply opt_eqb_eq].
Qed.

(** Only the identifiers that are seen matter, not their order or number. *)
Lemma first_occurrences_ext l : forall seen seen',
  (forall v, truthy v = true -> (In v seen <-> In v seen')) ->
  first_occurrences seen l = first_occurrences seen' l.
Proof.
  induction l as [| site rest IH]; intros seen seen' Hext; simpl;
    [reflexivity |].
  destruct (truthy (d_id site)) eqn:Ht; cbn [andb]; [| now apply IH].
  assert (Hb : existsb (fun i => opt_eqb i (d_id site)) seen
               = existsb (fun i => opt_eqb i (d_id site)) seen').
  { apply Bool.eq_iff_eq_true. rewrite !seen_In. now apply Hext. }
  rewrite Hb.
  destruct (existsb (fun i => opt_eqb i (d_id site)) seen'); cbn [negb];
    [now apply IH |].
  f_equal. apply IH. intros v Hv. rewrite !in_app_iff.
  now rewrite (Hext v Hv).
Qed.

Lemma first_occurrences_app a : forall seen b,
  first_occurrences seen (a ++ b)
  = first_occurrences seen a
    ++ first_occurrences (seen ++ map d_id (first_occurrences seen a)) b.
Proof.
  induction a as [| site rest IH]; intros seen b; simpl.
  - now rewrite app_nil_r.
  - destruct (truthy (d_id site)
              && negb (existsb (fun i => opt_eqb i (d_id site)) seen));
      [| apply IH].
    simpl. rewrite IH, <- app_assoc. reflexivity.
Qed.

(** Filtering what has been filtered. *)
Lemma first_occurrences_again b : forall seen seen',
  first_occurrences seen (first_occurrences seen' b)
  = first_occurrences (seen ++ seen') b.
Proof.
  induction b as [| site rest IH]; intros seen seen'; simpl; [reflexivity |].
  destruct (truthy (d_id site)) eqn:Ht; cbn [andb]; [| apply IH].
  rewrite existsb_app.
  destruct (existsb (fun i => opt_eqb i (d_id site)) seen') eqn:Hs';
    cbn [negb].
  - rewrite orb_true_r. cbn [negb]. apply IH.
  - rewrite orb_false_r. cbn [first_occurrences]. rewrite Ht. cbn [andb].
    destruct (existsb (fun i => opt_eqb i (d_id site)) seen) eqn:Hs;
      cbn [negb].
    + rewrite IH. apply first_occurrences_ext. intros v Hv.
      rewrite !in_app_iff. simpl. split; [| tauto].
      intros [H | [H | [H | []]]]; auto. subst. left. now apply seen_In.
    + f_equal. rewrite IH. apply first_occurrences_ext. intros v Hv.
      rewrite !in_app_iff. simpl. tauto.
Qed.

Lemma first_occurrences_covers_id l seen v :
  In v (map d_id l) -> truthy v = true ->
  In v seen \/ In v (map d_id (first_occurrences seen l)).
Proof.
  intros Hin Ht. apply in_map_iff in Hin. destruct Hin as (site & <- & Hin).
  now apply first_occurrences_covers.
Qed.

(** A batch that was filtered against the batch before it is merged as the
    batch itself. *)
Lemma first_occurrences_merged seen a b :
  first_occurrences seen (a ++ first_occurrences (map d_id a) b)
  = first_occurrences seen (a ++ b).
Proof.
  rewrite !first_occurrences_app. f_equal. rewrite first_occurrences_again.
  apply first_occurrences_ext. intros v Hv. rewrite !in_app_iff.
  split; [| tauto].
  intros [H | H]; [exact H |].
  destruct (first_occurrences_covers_id a seen v H Hv); tauto.
Qed.

Lemma merged_nil sites_list : merged sites_list [] = sites_list.
Proof. unfold merged. simpl. apply app_nil_r. Qed.

Lemma merged_merged sites_list a b :
  merged (merged sites_list a) b = merged sites_list (a ++ b).
Proof.
  unfold merged. rewrite first_occurrences_app, map_app.
  now rewrite <- app_assoc.
Qed.

Lemma merged_prefix sites_list a : prefix_of sites_list (merged sites_list a).
Proof. eexists. reflexivity. Qed.

(** The merge into [sites_list] is the merge of the first occurrences: the
    id of the root site is the id of the head of the list. *)
Lemma add_site_merged root_site_id batch sites_list :
  root_known root_site_id sites_list ->
  fold_left (add_site root_site_id) batch sites_list
  = merged sites_list batch.
Proof.
  intros Hroot. rewrite add_site_spec. unfold merged. f_equal.
  apply first_occurrences_ext. intros v Hv. simpl. split; [| tauto].
  intros [<- | H]; [| exact H].
  destruct Hroot as [-> | H]; [discriminate Hv | exact H].
Qed.

Lemma merge_followed_sites_met all_sites st :
  merge_followed_sites source all_sites st
  = (inr (merged all_sites (fst (followed_met source st))),
     snd (followed_met source st)).
Proof.
  unfold merge_followed_sites, followed_met, try_catch, bind, ret.
  destruct (_get_with_auth source (followed_sites_url source) st)
    as [[e | d] st1]; cbn [fst snd].
  - now rewrite merged_nil.
  - now rewrite add_if_new_spec.
Qed.

Lemma for_groups_met groups : forall all_sites st,
  for_groups source groups all_sites st
  = (inr (merged all_sites (fst (group_sites_met source groups st))),
     snd (group_sites_met source groups st)).
Proof.
  induction groups as [| group rest IH]; intros all_sites st; simpl.
  - unfold ret. now rewrite merged_nil.
  - unfold bind, add_group_site, try_catch, bind, ret.
    destruct (_get_with_auth source (group_site_url source group) st)
      as [[e | d] st1]; [apply IH |].
    rewrite IH. destruct (group_sites_met source rest st1) as [met st2].
    cbn [fst snd]. f_equal. f_equal.
    change (team_site group d :: met) with ([team_site group d] ++ met).
    rewrite <- merged_merged. f_equal. unfold merged.
    cbn [first_occurrences team_site d_id]. rewrite any_id_seen.
    destruct (truthy (d_id d)
              && negb (existsb (fun i => opt_eqb i (d_id d))
                         (map d_id all_sites)));
      [reflexivity | now rewrite app_nil_r].
Qed.

Lemma merge_group_sites_met all_sites st :
  merge_group_sites source all_sites st
  = (inr (merged all_sites (fst (teams_met source st))),
     snd (teams_met source st)).
Proof.
  unfold merge_group_sites, teams_met, try_catch, bind.
  destruct (_get_with_auth source (groups_url source) st) as [[e | d] st1].
  - unfold ret. cbn [fst snd]. now rewrite merged_nil.
  - now rewrite for_groups_met.
Qed.

(** The pagination merges the entries of the pages it fetches. *)
Lemma more_pages_met root_site_id next_url sites_list page_count st :
  root_known root_site_id sites_list ->
  exists more,
    pages_met source next_url sites_list page_count st more
    /\ fst (fst (more_pages source root_site_id next_url sites_list
                   page_count st))
       = merged sites_list more.
Proof.
  funelim (more_pages source root_site_id next_url sites_list page_count st);
    intros Hroot.
  - exists []. split; [now apply pages_met_end | now rewrite merged_nil].
  - exists []. split; [eapply pages_met_raise; eauto | now rewrite merged_nil].
  - destruct H as (more & Hmet & Heq').
    { eapply root_known_prefix; [apply add_site_prefix | exact Hroot]. }
    rewrite (add_site_merged _ _ _ Hroot) in Hmet.
    exists (get_or (d_value next_data) [] ++ more). split.
    + eapply pages_met_next; eauto.
    + rewrite Heq', (add_site_merged _ _ _ Hroot). apply merged_merged.
Qed.

(** The pages that are met are determined by the state. *)
Lemma pages_met_unique next_url sites_list page_count st m1 :
  pages_met source next_url sites_list page_count st m1 ->
  forall m2,
    pages_met source next_url sites_list page_count st m2 -> m1 = m2.
Proof.
  induction 1 as [nu sl pc st Hc
                 | nu sl pc st e st' Hc Hget
                 | nu sl pc st data st' met Hc Hget Hrec IH];
    intros m2 H2; inversion H2; subst; try congruence.
  match goal with
  | H : _get_with_auth source (fmt nu) st = (inr ?d, ?s) |- _ =>
      rewrite Hget in H; injection H as <- <-
  end.
  f_equal. now apply IH.
Qed.

(** The list of sites is the root entry followed by the first occurrences
    of the entries that the sources answer, in the order in which they are
    met. *)
Lemma list_sites_met st :
  (exists met, sites_met source st met)
  /\ (forall met,
        sites_met source st met ->
        fst (list_sites source st)
        = merged (fst (fetch_root_site source st)) met).
Proof.
  unfold sites_met, list_sites, collect_sites.
  destruct (fetch_root_site source st) as [sl0 st1]. cbn [fst].
  destruct (fetch_all_sites source st1) as [[e | data] st2].
  - cbn [fst]. split; [now exists [] |].
    intros met ->. now rewrite merged_nil.
  - unfold bind. rewrite merge_followed_sites_met, merge_group_sites_met.
    destruct (followed_met source st2) as [followed st3]. cbn [fst snd].
    destruct (teams_met source st3) as [teams st4]. cbn [fst snd].
    set (rid := match sl0 with [] => None | s :: _ => d_id s end).
    set (first_page := get_or (d_value data) [] ++ followed ++ teams).
    assert (Hfirst :
      fold_left (add_site rid)
        (merged (merged (get_or (d_value data) []) followed) teams) sl0
      = merged sl0 first_page).
    { rewrite merged_merged.
      rewrite (add_site_merged rid _ sl0) by apply root_known_head.
      unfold merged at 1 2. now rewrite first_occurrences_merged. }
    rewrite Hfirst.
    destruct (more_pages_met rid (d_nextLink data) (merged sl0 first_page) 1
                st4) as (more & Hmet & Heq).
    { eapply root_known_prefix; [apply merged_prefix | apply root_known_head]. }
    destruct (more_pages source rid (d_nextLink data)
                (merged sl0 first_page) 1 st4) as [[sl raised] st5].
    cbn [fst] in *. subst sl. split.
    + exists (first_page ++ more), more. split; [exact Hmet | reflexivity].
    + intros met (more' & Hmet' & ->).
      rewrite (pages_met_unique _ _ _ _ _ Hmet' _ Hmet).
      apply merged_merged.
Qed.

(** An identified entry that is met has its identifier in the merged
    list. *)
Lemma merged_covers sites_list met site :
  In site met -> truthy (d_id site) = true ->
  In (d_id site) (map d_id (merged sites_list met)).
Proof.
  intros Hin Ht. unfold merged. rewrite map_app. apply in_app_iff.
  now apply first_occurrences_covers.
Qed.

(** The first entry that carries an identifier is kept, right after what
    was merged before it, and the identifier does not come again. *)
Lemma merged_first_occurrence sites_list pre site post :
  truthy (d_id site) = true ->
  ~ In (d_id site) (map d_id sites_list) ->
  ~ In (d_id site) (map d_id pre) ->
  exists after,
    merged sites_list (pre ++ site :: post)
    = merged sites_list pre ++ site :: after
    /\ ~ In (d_id site) (map d_id after).
Proof.
  intros Ht Hroot Hpre. rewrite <- merged_merged.
  unfold merged at 1. cbn [first_occurrences]. rewrite Ht. cbn [andb].
  replace (existsb (fun i => opt_eqb i (d_id site))
             (map d_id (merged sites_list pre))) with false.
  - cbn [negb]. eexists. split; [reflexivity |].
    intros Hin. apply first_occurrences_ids in Hin.
    destruct Hin as (_ & Hin & _). apply Hin. apply in_app_iff.
    right. now left.
  - symmetry. apply Bool.not_true_iff_false. rewrite seen_In.
    unfold merged. rewrite map_app, in_app_iff. intros [H | H]; [auto |].
    apply first_occurrences_ids in H. tauto.
Qed.



(** C3, amended.  A browse of a SharePoint connection without a site id,
    when the payload of the root site carries its id, returns a page
    whichever of the requests of the site listing raise: no failure of a
    source makes the call fail.  The page has a folder for the root site
    when its lookup succeeded.  When the listing of all sites succeeded (by
    search, or without it once the search has raised), the page has a folder
    for every identified site of that listing, of the followed sites when
    their request succeeded, of each of the first 20 groups whose site was
    fetched, and of each continuation page that the pagination fetched.
    When the listing of all sites failed, the followed sites and the groups
    are not requested and the folders are those of the root lookup alone. *)
Theorem site_listing_survives_source_failures drive_id folder_id site_id st :
  truthy site_id = false ->
  root_identified source st ->
  exists page st',
    browse_files source "sharepoint" drive_id folder_id site_id st
    = (inr page, st')
    /\ (forall d st1,
          _get_with_auth source (root_site_url source) st = (inr d, st1) ->
          In (fmt (d_id d)) (map fo_id (folders page)))
    /\ (forall sl0 st1 data st2,
          fetch_root_site source st = (sl0, st1) ->
          fetch_all_sites source st1 = (inr data, st2) ->
          listed data page
          /\ (forall fdata st3,
                _get_with_auth source (followed_sites_url source) st2
                  = (inr fdata, st3) ->
                listed fdata page)
          /\ (forall a1 st3,
                merge_followed_sites source (get_or (d_value data) []) st2
                  = (inr a1, st3) ->
                (forall gdata st4 pre group post a st5 d st6,
                   _get_with_auth source (groups_url source) st3
                     = (inr gdata, st4) ->
                   firstn 20 (get_or (d_value gdata) [])
                     = pre ++ group :: post ->
                   for_groups source pre a1 st4 = (inr a, st5) ->
                   _get_with_auth source (group_site_url source group) st5
                     = (inr d, st6) ->
                   truthy (d_id d) = true ->
                   In (fmt (d_id d)) (map fo_id (folders page)))
                /\ (forall a2 st4 pdata,
                      merge_group_sites source a1 st3 = (inr a2, st4) ->
                      page_fetched source
                        (match sl0 with [] => None | s :: _ => d_id s end)
                        (d_nextLink data)
                        (fold_left
                           (add_site
                              (match sl0 with
                               | [] => None
                               | s :: _ => d_id s
                               end)) a2 sl0)
                        1 st4 pdata ->
                      listed pdata page)))
    /\ (forall sl0 st1 e st2,
          fetch_root_site source st = (sl0, st1) ->
          fetch_all_sites source st1 = (inl e, st2) ->
          folders page = map folder_of_site sl0 /\ st' = st2).
Proof.
  intros Hsite Hroot. eexists _, _.
  split; [apply browse_sites_returns; assumption |].
  unfold listed. cbn [folders]. split; [| split].
  - intros d st1 Hget. apply folder_ids.
    destruct (list_sites_spec st) as (_ & _ & (extra & -> & _)).
    destruct (fetch_root_site_spec st) as (_ & Hok & _).
    rewrite (Hok _ _ Hget). left. reflexivity.
  - intros sl0 st1 data st2 H0 H1.
    destruct (merge_followed_sites_spec (get_or (d_value data) []) st2)
      as (a1 & st3 & H2 & _ & P2 & C2).
    destruct (merge_group_sites_spec a1 st3) as (a2 & st4 & H3 & _ & P3).
    split; [| split].
    + intros site Hin Ht. apply folder_ids.
      eapply list_sites_covers; eauto.
      eapply prefix_of_ids; [exact P3 |].
      eapply prefix_of_ids; [exact P2 |]. now apply in_map.
    + intros fdata s Hget site Hin Ht. apply folder_ids.
      eapply list_sites_covers; eauto.
      eapply prefix_of_ids; [exact P3 |]. eapply C2; eauto.
    + intros a1' st3' H2'. rewrite H2 in H2'. injection H2' as <- <-.
      split.
      * intros gdata s4 pre group post a s5 d s6 Hg Hfirst Hpre Hget Ht.
        apply folder_ids. eapply list_sites_covers; eauto.
        destruct (for_groups_covers pre group post a1 s4 a s5 d s6
                    Hpre Hget Ht) as (a3 & s7 & Hall & Hin).
        unfold merge_group_sites, try_catch, bind in H3.
        rewrite Hg, Hfirst, Hall in H3. injection H3 as <- <-. exact Hin.
      * intros a2' st4' pdata H3' Hpage site Hin Ht.
        rewrite H3 in H3'. injection H3' as <- <-.
        apply folder_ids.
        rewrite (list_sites_phases _ _ _ _ _ _ _ _ _ H0 H1 H2 H3).
        eapply more_pages_covers; eauto.
        eapply root_known_prefix;
          [apply add_site_prefix | apply root_known_head].
  - intros sl0 st1 e st2 H0 H1. unfold list_sites, collect_sites.
    rewrite H0, H1. split; reflexivity.
Qed.

(** ** Identifiers in the merged list *)

Lemma folder_ids_nodup sites_list :
  Forall (fun s => d_id s <> None) sites_list ->
  NoDup (map d_id sites_list) ->
  NoDup (map fo_id (map folder_of_site sites_list)).
Proof.
  induction 1 as [| site rest Hid Hall IH]; simpl; intros Hnd;
    [constructor |].
  inversion Hnd as [| ? ? Hnotin Hnd']. subst. constructor; [| auto].
  intros Hin. apply Hnotin. rewrite map_map in Hin.
  apply in_map_iff in Hin. destruct Hin as (s & Heq & Hs).
  apply in_map_iff. exists s. split; [| exact Hs].
  rewrite Forall_forall in Hall. specialize (Hall s Hs).
  simpl in Heq. destruct (d_id s), (d_id site); simpl in Heq; congruence.
Qed.

(** C5.  The list of sites that a browse without a site id builds is the
    entry of the root site, when it was fetched, followed by the first
    occurrences of the entries that the sources answer (the listing of all
    sites, the followed sites, the sites of the groups, the continuation
    pages), in the order in which they are met.  So no identifier occurs
    twice; every identified entry that is met has its identifier in the
    list; and the first entry that carries an identifier other than that of
    the root site is kept, right after what was merged from the entries
    before it, while the entries that carry the same identifier later are
    left out.  The folders of the page carry these identifiers in the same
    order, each once. *)
Theorem sites_are_merged_by_first_occurrence st :
  (exists met, sites_met source st met)
  /\ (forall met,
        sites_met source st met ->
        fst (list_sites source st)
        = fst (fetch_root_site source st)
          ++ first_occurrences (map d_id (fst (fetch_root_site source st)))
               met
        /\ (forall site,
              In site met -> truthy (d_id site) = true ->
              In (d_id site) (map d_id (fst (list_sites source st))))
        /\ (forall pre site post,
              met = pre ++ site :: post ->
              truthy (d_id site) = true ->
              ~ In (d_id site) (map d_id (fst (fetch_root_site source st))) ->
              ~ In (d_id site) (map d_id pre) ->
              exists after,
                fst (list_sites source st)
                = (fst (fetch_root_site source st)
                   ++ first_occurrences
                        (map d_id (fst (fetch_root_site source st))) pre)
                  ++ site :: after
                /\ ~ In (d_id site) (map d_id after)))
  /\ NoDup (map d_id (fst (list_sites source st)))
  /\ (forall seen batch,
        NoDup (map d_id (first_occurrences seen batch))
        /\ (forall v, In v (map d_id (first_occurrences seen batch)) ->
                      In v (map d_id batch) /\ ~ In v seen)
        /\ (forall site, In site batch -> truthy (d_id site) = true ->
                         In (d_id site) seen
                         \/ In (d_id site)
                              (map d_id (first_occurrences seen batch))))
  /\ (forall drive_id folder_id site_id page st',
        truthy site_id = false ->
        browse_files source "sharepoint" drive_id folder_id site_id st
          = (inr page, st') ->
        NoDup (map fo_id (folders page))
        /\ map fo_id (folders page)
           = map (fun s => fmt (d_id s)) (fst (list_sites source st))).
Proof.
  destruct (list_sites_met st) as (Hex & Hall).
  destruct (list_sites_spec st) as (_ & Hnd & _).
  split; [exact Hex |]. split; [| split; [exact Hnd | split]].
  - intros met Hmet. rewrite (Hall met Hmet).
    split; [reflexivity |]. split.
    + intros site Hin Ht. now apply merged_covers.
    + intros pre site post -> Ht Hroot Hpre.
      now apply merged_first_occurrence.
  - intros seen batch. split; [apply first_occurrences_nodup |].
    split.
    + intros v Hv. apply first_occurrences_ids in Hv. tauto.
    + intros site Hin Ht. now apply first_occurrences_covers.
  - intros drive_id folder_id site_id page st' Hsite Hrun.
    destruct (browse_sites_page _ _ _ _ _ _ Hsite Hrun) as (-> & _ & Hids).
    cbn [folders]. split.
    + now apply folder_ids_nodup.
    + now rewrite map_map.
Qed.

(** ** The number of requests *)

(** The handlers of the endpoint send no request. *)
Lemma browse_sites_state drive_id folder_id site_id st :
  truthy site_id = false ->
  snd (browse_files source "sharepoint" drive_id folder_id site_id st)
  = snd (list_sites source st).
Proof.
  intros Hsite. rewrite browse_files_sites by exact Hsite.
  unfold try_catch, browse_sites.
  destruct (list_sites source st) as [sl s1]. cbn [snd].
  unfold bind, lift, ret.
  destruct (traverse site_folder sl) as [e | fs]; [| reflexivity].
  destruct e; simpl; try reflexivity.
  destruct (status_code =? 401)%Z; reflexivity.
Qed.

(** C9.  A browse without a site id is a total function of what the
    upstream answers, and it sends at most 34 requests, whatever the
    answers, continuation links included: one for the root site, at most
    two for the listing of all sites, one for the followed sites, one for
    the groups and one for each of the first 20 groups at most, and at most
    9 for continuation pages, the tenth page being the last.  The pagination
    loop sends at most 10 - page_count requests, and none once there is no
    link, or the list has 200 entries, or ten pages are counted. *)
Theorem site_enumeration_is_bounded drive_id folder_id site_id st :
  truthy site_id = false ->
  within 34 st
    (snd (browse_files source "sharepoint" drive_id folder_id site_id st))
  /\ (forall root_site_id next_url sites_list page_count st1,
        within (10 - page_count) st1
          (snd (more_pages source root_site_id next_url sites_list
                  page_count st1)))
  /\ (forall root_site_id next_url sites_list st1,
        within 9 st1
          (snd (more_pages source root_site_id next_url sites_list 1 st1)))
  /\ (forall root_site_id next_url sites_list page_count st1,
        truthy next_url = false \/ 200 <= length sites_list
        \/ 10 <= page_count ->
        more_pages source root_site_id next_url sites_list page_count st1
        = ((sites_list, None), st1))
  /\ (forall groups all_sites st1,
        length (firstn 20 groups) <= 20
        /\ within (length (firstn 20 groups)) st1
             (snd (for_groups source (firstn 20 groups) all_sites st1)))
  /\ (forall all_sites st1,
        within 21 st1 (snd (merge_group_sites source all_sites st1))).
Proof.
  intros Hsite. split.
  { rewrite browse_sites_state by exact Hsite. apply list_sites_spec. }
  split; [intros; apply more_pages_within |].
  split; [intros; apply (more_pages_within _ _ _ 1) |].
  split; [intros; now apply more_pages_stops |].
  split.
  - intros groups all_sites st1. split; [apply firstn_le_length |].
    destruct (for_groups_spec (firstn 20 groups) all_sites st1)
      as (a & s & H & W & _).
    now rewrite H.
  - intros all_sites st1.
    destruct (merge_group_sites_spec all_sites st1) as (a & s & H & W & _).
    now rewrite H.
Qed.

(** ** The children of a folder *)

Lemma classify_items_spec drive_id items : forall acc acc',
  classify_items drive_id items acc = inr acc' ->
  fst acc' = fst acc ++ map (file_of_item drive_id) (filter is_file items)
  /\ snd acc'
     = snd acc ++ map (folder_of_item drive_id) (filter is_folder items).
Proof.
  induction items as [| item rest IH]; intros acc acc'.
  - simpl. intros [= <-]. now rewrite !app_nil_r.
  - cbn [classify_items filter].
    unfold classify_item, new_FolderItem, new_FileItem, is_file at 1,
      is_folder at 1.
    destruct (d_folder item) eqn:Hfo; cbn [negb andb].
    + destruct (d_id item) as [i |] eqn:Hid; [| discriminate].
      intros H. destruct (IH _ _ H) as (Hf & Hd). cbn [fst snd] in Hf, Hd.
      rewrite Hf, Hd. cbn [map]. rewrite <- app_assoc.
      unfold folder_of_item at 2. rewrite Hid. split; reflexivity.
    + destruct (d_file item) as [file_info |] eqn:Hfi.
      * destruct (d_id item) as [i |] eqn:Hid; [| discriminate].
        intros H. destruct (IH _ _ H) as (Hf & Hd). cbn [fst snd] in Hf, Hd.
        rewrite Hf, Hd. cbn [map]. rewrite <- app_assoc.
        unfold file_of_item at 2. rewrite Hid, Hfi. split; reflexivity.
      * apply IH.
Qed.

(** The three kinds partition the children. *)
Lemma kinds_partition items :
  length (filter is_folder items) + length (filter is_file items)
  + length (filter is_neither items) = length items.
Proof.
  induction items as [| item rest IH]; simpl; [reflexivity |].
  unfold is_folder at 1, is_file at 1, is_neither at 1.
  destruct (d_folder item), (d_file item); simpl; lia.
Qed.

Lemma kinds_exclusive item :
  (is_folder item = true /\ is_file item = false /\ is_neither item = false)
  \/ (is_folder item = false /\ is_file item = true
      /\ is_neither item = false)
  \/ (is_folder item = false /\ is_file item = false
      /\ is_neither item = true).
Proof.
  unfold is_folder, is_file, is_neither.
  destruct (d_folder item), (d_file item); simpl; tauto.
Qed.

(** The listing of a folder returns when the generator ends without an
    exception and every child that is kept carries an id. *)
Lemma list_items_inr drive_id folder_id st acc st' :
  list_items source drive_id folder_id st = (inr acc, st') ->
  exists items w,
    list_drive_items source (world st) (fmt drive_id) folder_id
      = ((items, None), w)
    /\ st' = mkState w (trace st)
    /\ acc = (map (file_of_item drive_id) (filter is_file items),
              map (folder_of_item drive_id) (filter is_folder items)).
Proof.
  unfold list_items.
  destruct (list_drive_items source (world st) (fmt drive_id) folder_id)
    as [[items raised] w].
  destruct (classify_items drive_id items ([], [])) as [e | acc0] eqn:Hc;
    [discriminate |].
  destruct raised; [discriminate |]. intros [= <- <-].
  exists items, w. repeat split.
  destruct (classify_items_spec _ _ _ _ Hc) as (Hf & Hd).
  simpl in Hf, Hd. destruct acc0. simpl in *. congruence.
Qed.

Lemma browse_files_items drive_id folder_id site_id st :
  truthy site_id = true -> truthy drive_id = true ->
  browse_files source "sharepoint" drive_id folder_id site_id st
  = try_catch
      (acc <- try_catch (list_items source drive_id folder_id)
                (fun e => raise (HTTPException 500
                                   ("Failed to list files in folder: "
                                    ++ str source e)%string)) ;;
       ret (items_response drive_id folder_id acc))
      (browse_handlers source "sharepoint") st.
Proof.
  intros Hs Hd. unfold browse_files. rewrite String.eqb_refl.
  cbn [orb negb]. unfold browse_sharepoint. rewrite Hs, Hd. reflexivity.
Qed.

(** C7, amended.  In every page returned for the contents of a folder of a
    SharePoint drive (site id and drive id given), the folders are the
    children that carry the folder marker, and the files are the children
    that do not carry it and carry the file marker, both in the order of
    the upstream listing; a child with neither marker is in neither list.
    So every child is of exactly one of three kinds, and is in at most one
    of the two lists. *)
Theorem children_are_folders_files_or_dropped
  drive_id folder_id site_id st page st' :
  truthy site_id = true -> truthy drive_id = true ->
  browse_files source "sharepoint" drive_id folder_id site_id st
    = (inr page, st') ->
  exists items w,
    list_drive_items source (world st) (fmt drive_id) folder_id
      = ((items, None), w)
    /\ folders page = map (folder_of_item drive_id) (filter is_folder items)
    /\ files page = map (file_of_item drive_id) (filter is_file items)
    /\ length (folders page) + length (files page)
       + length (filter is_neither items) = length items
    /\ (forall item,
          In item items ->
          (is_folder item = true /\ is_file item = false
           /\ is_neither item = false)
          \/ (is_folder item = false /\ is_file item = true
              /\ is_neither item = false)
          \/ (is_folder item = false /\ is_file item = false
              /\ is_neither item = true)).
Proof.
  intros Hs Hd. rewrite browse_files_items by assumption.
  unfold try_catch at 1, bind, try_catch, raise, ret.
  destruct (list_items source drive_id folder_id st) as [[e | acc] s1] eqn:Hl;
    [discriminate |].
  intros [= <- <-].
  destruct (list_items_inr _ _ _ _ _ Hl) as (items & w & Hgen & _ & ->).
  exists items, w. split; [exact Hgen |].
  cbn [items_response folders files fst snd].
  split; [reflexivity |]. split; [reflexivity |].
  split; [rewrite !length_map; apply kinds_partition |].
  intros item _. apply kinds_exclusive.
Qed.

(** ** OneDrive *)

Lemma browse_files_onedrive drive_id folder_id site_id st :
  browse_files source "onedrive" drive_id folder_id site_id st
  = try_catch (browse_onedrive source drive_id folder_id)
      (browse_handlers source "onedrive") st.
Proof. reflexivity. Qed.

(** The classification goes through when every child that is kept carries
    an id. *)
Lemma classify_items_total drive_id items : forall acc,
  Forall (fun i => is_neither i = true \/ d_id i <> None) items ->
  exists acc', classify_items drive_id items acc = inr acc'.
Proof.
  induction items as [| item rest IH]; intros acc Hall.
  - now exists acc.
  - inversion Hall as [| ? ? Hitem Hrest]. subst. cbn [classify_items].
    unfold classify_item, new_FolderItem, new_FileItem.
    unfold is_neither in Hitem.
    destruct (d_folder item); cbn [negb andb] in Hitem.
    + destruct Hitem as [Hitem | Hitem]; [discriminate |].
      destruct (d_id item); [apply IH; assumption | contradiction].
    + destruct (d_file item).
      * destruct Hitem as [Hitem | Hitem]; [discriminate |].
        destruct (d_id item); [apply IH; assumption | contradiction].
      * apply IH; assumption.
Qed.

Lemma get_trace url st r st' :
  _get_with_auth source url st = (r, st') ->
  trace st' = trace st ++ [(url, r)].
Proof.
  unfold _get_with_auth.
  destruct (get_with_auth source (world st) url) as [r' w].
  now intros [= <- <-].
Qed.

(** C10.  On a OneDrive connection, a browse without a drive id asks the
    upstream for the default drive of the user (me/drive).  When the answer
    carries no drive id the call fails with 404, No OneDrive found.  When it
    carries one, the call lists the children of that drive (of its root, or
    of the folder id given) and returns them at once as files and folders,
    with the current path /drives/<id> (followed by /items/<folder id> when a
    folder id is given): the lookup of the default drive is the only Graph
    request that the endpoint sends itself, and no page of drives comes in
    between. *)
Theorem onedrive_browse_lists_default_drive
  drive_id folder_id site_id st d st1 :
  truthy drive_id = false ->
  _get_with_auth source "https://graph.microsoft.com/v1.0/me/drive" st
    = (inr d, st1) ->
  (truthy (d_id d) = false ->
   browse_files source "onedrive" drive_id folder_id site_id st
   = (inl (HTTPException 404 "No OneDrive found"), st1))
  /\ (truthy (d_id d) = true ->
      forall items w,
        list_drive_items source (world st1) (fmt (d_id d)) folder_id
          = ((items, None), w) ->
        Forall (fun i => is_neither i = true \/ d_id i <> None) items ->
        browse_files source "onedrive" drive_id folder_id site_id st
        = (inr (mkBrowseResponse
                  (map (file_of_item (d_id d)) (filter is_file items))
                  (map (folder_of_item (d_id d)) (filter is_folder items))
                  (Some ("/drives/" ++ fmt (d_id d)
                         ++ (if truthy folder_id
                             then "/items/" ++ fmt folder_id
                             else ""))%string)
                  None),
           mkState w
             (trace st
              ++ [("https://graph.microsoft.com/v1.0/me/drive"%string,
                   inr d)]))).
Proof.
  intros Hdrive Hget. rewrite browse_files_onedrive.
  assert (Hlookup :
    try_catch (browse_onedrive source drive_id folder_id)
      (browse_handlers source "onedrive") st
    = try_catch
        (if negb (truthy (d_id d))
         then raise (HTTPException 404 "No OneDrive found")
         else
           acc <- list_items source (d_id d) folder_id ;;
           ret (items_response (d_id d) folder_id acc))
        (browse_handlers source "onedrive") st1).
  { unfold try_catch at 1, browse_onedrive, bind at 1. rewrite Hdrive.
    cbn [negb]. unfold default_drive, try_catch at 1, bind at 1.
    rewrite Hget. reflexivity. }
  rewrite Hlookup. unfold try_catch. split.
  - intros Hid. rewrite Hid. reflexivity.
  - intros Hid items w Hgen Hall. rewrite Hid. cbn [negb].
    unfold bind, list_items. rewrite Hgen.
    destruct (classify_items_total (d_id d) items ([], []) Hall)
      as (acc & Hc).
    rewrite Hc. destruct (classify_items_spec _ _ _ _ Hc) as (Hf & Hd).
    simpl in Hf, Hd. unfold ret, items_response. rewrite Hf, Hd.
    now rewrite (get_trace _ _ _ _ Hget).
Qed.

(** ** Rejected credentials *)

Lemma browse_files_drives drive_id folder_id site_id st :
  truthy site_id = true -> truthy drive_id = false ->
  browse_files source "sharepoint" drive_id folder_id site_id st
  = try_catch (browse_drives source site_id)
      (browse_handlers source "sharepoint") st.
Proof.
  intros Hs Hd. unfold browse_files. rewrite String.eqb_refl.
  cbn [orb negb]. unfold browse_sharepoint. rewrite Hs, Hd. reflexivity.
Qed.

(** At the first level the call returns a page, or fails on the validation
    of a folder: a rejected request is a failed source like another. *)
Lemma browse_sites_outcome drive_id folder_id site_id st :
  truthy site_id = false ->
  (exists page,
     fst (browse_files source "sharepoint" drive_id folder_id site_id st)
     = inr page)
  \/ fst (browse_files source "sharepoint" drive_id folder_id site_id st)
     = inl (HTTPException 500
              ("Failed to browse files: "
               ++ str source (ValidationError "FolderItem" "id"))%string).
Proof.
  intros Hsite. rewrite browse_files_sites by exact Hsite.
  unfold try_catch, browse_sites.
  destruct (list_sites source st) as [sl s1].
  unfold bind, lift, ret.
  destruct (traverse site_folder sl) as [e | fs] eqn:Htr.
  - right. apply traverse_site_folder_error in Htr. subst. reflexivity.
  - left. eexists. reflexivity.
Qed.

(** C6, amended.  A request that the upstream rejects with status 401 makes
    the browse call fail with status 401 and a message that asks to
    reconnect the account: at the second level of SharePoint (the listing of
    the drives of a site, and the lookup of the site that follows it), and on
    OneDrive (the lookup of the default drive, and the listing of the
    children, of the drive of the request or of the default drive that was
    found).
    At the first level of SharePoint a rejected request is recovered like
    any failed source: the call never fails with status 401 there. *)
Theorem rejected_credentials_surface_as_401 drive_id folder_id site_id st :
  (truthy site_id = true -> truthy drive_id = false ->
   forall m st1,
     _get_with_auth source
       (GRAPH_BASE_URL source ++ "/sites/" ++ fmt site_id ++ "/drives")%string
       st
       = (inl (HTTPStatusError 401 m), st1) ->
     browse_files source "sharepoint" drive_id folder_id site_id st
     = (inl (HTTPException 401
               "sharepoint authentication failed. Your access token has expired. Please disconnect and reconnect your account in the settings."),
        st1))
  /\ (truthy site_id = true -> truthy drive_id = false ->
      forall data st1 drive drives fs m st2,
        _get_with_auth source
          (GRAPH_BASE_URL source ++ "/sites/" ++ fmt site_id
           ++ "/drives")%string st
          = (inr data, st1) ->
        get_or (d_value data) [] = drive :: drives ->
        traverse (drive_folder site_id) (drive :: drives) = inr fs ->
        _get_with_auth source
          (GRAPH_BASE_URL source ++ "/sites/" ++ fmt site_id)%string st1
          = (inl (HTTPStatusError 401 m), st2) ->
        browse_files source "sharepoint" drive_id folder_id site_id st
        = (inl (HTTPException 401
                  "sharepoint authentication failed. Your access token has expired. Please disconnect and reconnect your account in the settings."),
           st2))
  /\ (truthy drive_id = false ->
      forall m st1,
        _get_with_auth source "https://graph.microsoft.com/v1.0/me/drive" st
          = (inl (HTTPStatusError 401 m), st1) ->
        browse_files source "onedrive" drive_id folder_id site_id st
        = (inl (HTTPException 401
                  "OneDrive authentication failed. Your access token has expired. Please disconnect and reconnect your OneDrive account in the settings."),
           st1))
  /\ (truthy drive_id = true ->
      forall items m w acc,
        list_drive_items source (world st) (fmt drive_id) folder_id
          = ((items, Some (HTTPStatusError 401 m)), w) ->
        classify_items drive_id items ([], []) = inr acc ->
        browse_files source "onedrive" drive_id folder_id site_id st
        = (inl (HTTPException 401
                  "onedrive authentication failed. Your access token has expired. Please disconnect and reconnect your account in the settings."),
           mkState w (trace st)))
  /\ (truthy drive_id = false ->
      forall d st1 items m w acc,
        _get_with_auth source "https://graph.microsoft.com/v1.0/me/drive" st
          = (inr d, st1) ->
        truthy (d_id d) = true ->
        list_drive_items source (world st1) (fmt (d_id d)) folder_id
          = ((items, Some (HTTPStatusError 401 m)), w) ->
        classify_items (d_id d) items ([], []) = inr acc ->
        browse_files source "onedrive" drive_id folder_id site_id st
        = (inl (HTTPException 401
                  "onedrive authentication failed. Your access token has expired. Please disconnect and reconnect your account in the settings."),
           mkState w (trace st1)))
  /\ (truthy site_id = false ->
      forall detail,
        fst (browse_files source "sharepoint" drive_id folder_id site_id st)
        <> inl (HTTPException 401 detail)).
Proof.
  split; [| split; [| split; [| split; [| split]]]].
  - intros Hs Hd m st1 Hget. rewrite browse_files_drives by assumption.
    unfold try_catch, browse_drives, bind. rewrite Hget. reflexivity.
  - intros Hs Hd data st1 drive drives fs m st2 Hget Hval Htr Hsite.
    rewrite browse_files_drives by assumption.
    unfold try_catch, browse_drives, bind at 1. rewrite Hget, Hval.
    unfold bind, lift. rewrite Htr, Hsite. reflexivity.
  - intros Hd m st1 Hget. rewrite browse_files_onedrive.
    unfold try_catch at 1, browse_onedrive, bind at 1. rewrite Hd.
    cbn [negb]. unfold default_drive, try_catch, bind. rewrite Hget.
    reflexivity.
  - intros Hd items m w acc Hgen Hc. rewrite browse_files_onedrive.
    unfold try_catch, browse_onedrive, bind at 1. rewrite Hd. cbn [negb].
    unfold ret at 1. rewrite Hd. cbn [negb].
    unfold bind, list_items. rewrite Hgen, Hc. reflexivity.
  - intros Hd d st1 items m w acc Hget Hid Hgen Hc.
    rewrite browse_files_onedrive.
    unfold try_catch at 1, browse_onedrive, bind at 1. rewrite Hd.
    cbn [negb]. unfold default_drive, try_catch at 1, bind at 1.
    rewrite Hget. unfold ret at 1. cbv beta iota. rewrite Hid. cbn [negb].
    unfold bind, list_items. rewrite Hgen, Hc. reflexivity.
  - intros Hs detail.
    destruct (browse_sites_outcome drive_id folder_id site_id st Hs)
      as [(page & ->) | ->]; discriminate.
Qed.

End BrowseProperties.

(** ** The browser on the concrete tenant *)

Lemma tenant_root_identified :
  root_identified Demo.tenant (Demo.start false).
Proof.
  intros d w H. vm_compute in H. injection H as <- _. discriminate.
Defined.

(** Without an id in the payload of the root site, the folder of the root
    site does not validate and the call fails with status 500: this is what
    [root_identified] rules out. *)
Lemma unidentified_root_site_fails_validation :
  fst (browse_files Demo.anonymous_root "sharepoint" None None None
         (Demo.start false))
  = inl (HTTPException 500 "Failed to browse files: FolderItem.id").
Proof. reflexivity. Qed.

Lemma site_listing_survives_source_failures_witness :
  truthy None = false
  /\ root_identified Demo.tenant (Demo.start false)
  /\ exists page st',
       browse_files Demo.tenant "sharepoint" None None None (Demo.start false)
       = (inr page, st')
       /\ In "root"%string (map fo_id (folders page)).
Proof.
  split; [reflexivity |]. split; [exact tenant_root_identified |].
  destruct (site_listing_survives_source_failures Demo.tenant None None None
              (Demo.start false) eq_refl tenant_root_identified)
    as (page & st' & Hrun & Hroot & _).
  exists page, st'. split; [exact Hrun |].
  exact (Hroot (Demo.site "root" "Home") _ eq_refl).
Defined.

(** The listing of all sites is refused, the followed sites would be
    answered: they are not asked for, and the page has the root site
    alone. *)
Lemma followed_sites_not_listed_counterexample :
  (forall w,
     fst (get_with_auth Demo.restricted w
            (followed_sites_url Demo.restricted))
     = inr (Demo.listing [Demo.site "s2" "Two followed";
                          Demo.site "s3" "Three"] None))
  /\ exists st',
       browse_files Demo.restricted "sharepoint" None None None
         (Demo.start false)
       = (inr (mkBrowseResponse []
                 [mkFolderItem "root" "Home" "/sites/root" "folder"]
                 (Some "/sites"%string) None), st')
       /\ ~ In "s3"%string
            (map fo_id [mkFolderItem "root" "Home" "/sites/root" "folder"])
       /\ ~ In (followed_sites_url Demo.restricted) (map fst (trace st')).
Proof.
  split; [intros w; reflexivity |].
  eexists. split; [vm_compute; reflexivity |]. split.
  - simpl. intros [H | []]. discriminate.
  - vm_compute. intros [H | [H | [H | []]]]; discriminate.
Qed.

Lemma tenant_sites_met : sites_met Demo.tenant (Demo.start false) Demo.met.
Proof.
  unfold sites_met.
  match goal with
  | |- (let (_, _) := ?x in _) =>
      let y := eval vm_compute in x in change x with y
  end.
  cbv iota beta.
  match goal with
  | |- match ?x with _ => _ end =>
      let y := eval vm_compute in x in change x with y
  end.
  cbv iota beta.
  match goal with
  | |- (let (_, _) := ?x in _) =>
      let y := eval vm_compute in x in change x with y
  end.
  cbv iota beta.
  match goal with
  | |- (let (_, _) := ?x in _) =>
      let y := eval vm_compute in x in change x with y
  end.
  cbv iota beta zeta.
  exists [Demo.site "s2" "Two again"; Demo.site "s5" "Five"].
  split; [| reflexivity].
  eapply (pages_met_next Demo.tenant _ _ _ _
            (Demo.listing [Demo.site "s2" "Two again"; Demo.site "s5" "Five"]
               None) _ []);
    [reflexivity | reflexivity |].
  apply pages_met_end. reflexivity.
Defined.


Lemma sites_are_merged_by_first_occurrence_witness :
  sites_met Demo.tenant (Demo.start false) Demo.met
  /\ map (fun s => fmt (d_id s)) Demo.met
     = ["s1"; "root"; "s2"; "s1"; "s2"; "s3"; "s4"; "s2"; "s5"]%string
  /\ map (fun s => fmt (d_id s))
       (fst (list_sites Demo.tenant (Demo.start false)))
     = ["root"; "s1"; "s2"; "s3"; "s4"; "s5"]%string
  /\ map (fun s => fmt (d_displayName s))
       (fst (list_sites Demo.tenant (Demo.start false)))
     = ["Home"; "One"; "Two"; "Three"; "Team"; "Five"]%string.
Proof.
  split; [exact tenant_sites_met |]. split; [reflexivity |].
  destruct (sites_are_merged_by_first_occurrence Demo.tenant
              (Demo.start false)) as (_ & Hall & _).
  destruct (Hall Demo.met tenant_sites_met) as (-> & _).
  split; reflexivity.
Defined.

Lemma site_enumeration_is_bounded_witness :
  truthy None = false
  /\ within 34 (Demo.start false)
       (snd (browse_files Demo.tenant "sharepoint" None None None
               (Demo.start false))).
Proof.
  split; [reflexivity |].
  exact (proj1 (site_enumeration_is_bounded Demo.tenant None None None
                  (Demo.start false) eq_refl)).
Defined.

(** Against an upstream whose continuation links never end, the browse
    returns after the tenth page of sites: the root site, the search, the
    followed sites, the groups, the site of the one group, and nine
    continuation pages. *)
Lemma endless_links_stop_at_the_tenth_page :
  exists page st',
    browse_files Demo.endless "sharepoint" None None None (Demo.start false)
    = (inr page, st')
    /\ length (trace st') = 14
    /\ length (folders page) = 12.
Proof. eexists _, _. split; [vm_compute; reflexivity |]. split; reflexivity. Qed.

Lemma rejected_credentials_surface_as_401_witness :
  truthy (Some "root"%string) = true /\ truthy None = false
  /\ fst (browse_files Demo.expired "sharepoint" None None
            (Some "root"%string) (Demo.start false))
     = inl (HTTPException 401
              "sharepoint authentication failed. Your access token has expired. Please disconnect and reconnect your account in the settings.")
  /\ truthy (d_id (Demo.site "D1" "OneDrive")) = true
  /\ fst (browse_files Demo.lapsed "onedrive" None None None
            (Demo.start false))
     = inl (HTTPException 401
              "onedrive authentication failed. Your access token has expired. Please disconnect and reconnect your account in the settings.").
Proof.
  split; [reflexivity |]. split; [reflexivity |]. split.
  - rewrite (proj1 (rejected_credentials_surface_as_401 Demo.expired None
                      None (Some "root"%string) (Demo.start false))
               eq_refl eq_refl "401 Unauthorized"%string _ eq_refl).
    reflexivity.
  - split; [reflexivity |].
    rewrite (proj1 (proj2 (proj2 (proj2 (proj2
               (rejected_credentials_surface_as_401 Demo.lapsed None None
                  None (Demo.start false))))))
               eq_refl (Demo.site "D1" "OneDrive")
               (mkState false
                  [("https://graph.microsoft.com/v1.0/me/drive"%string,
                    inr (Demo.site "D1" "OneDrive"))])
               [] "401 Unauthorized"%string false ([], [])
               eq_refl eq_refl eq_refl eq_refl).
    reflexivity.
Defined.

(** Every request of the site listing is rejected with status 401, and the
    call returns a page. *)
Lemma rejected_site_listing_counterexample :
  exists st',
    browse_files Demo.expired "sharepoint" None None None (Demo.start false)
    = (inr (mkBrowseResponse [] [] (Some "/sites"%string) None), st')
    /\ In (root_site_url Demo.expired,
           inl (HTTPStatusError 401 "401 Unauthorized"))
          (trace st')
    /\ Forall (fun ev => snd ev = inl (HTTPStatusError 401 "401 Unauthorized"))
         (trace st').
Proof.
  eexists. split; [vm_compute; reflexivity |]. split.
  - left. reflexivity.
  - repeat constructor.
Qed.

(** What the endpoint does when the listing of the children of a SharePoint
    folder is rejected with status 401: status 500. *)
Lemma rejected_folder_listing_gives_500 :
  fst (browse_files Demo.expired "sharepoint" (Some "D1"%string) None
         (Some "root"%string) (Demo.start false))
  = inl (HTTPException 500
           "Failed to list files in folder: 401 Unauthorized").
Proof. reflexivity. Qed.

Lemma children_are_folders_files_or_dropped_witness :
  truthy (Some "root"%string) = true /\ truthy (Some "D1"%string) = true
  /\ exists page st',
       browse_files Demo.tenant "sharepoint" (Some "D1"%string) None
         (Some "root"%string) (Demo.start false)
       = (inr page, st')
       /\ exists items w,
            list_drive_items Demo.tenant false "D1" None
              = ((items, None), w)
            /\ folders page
               = map (folder_of_item (Some "D1"%string))
                   (filter is_folder items)
            /\ files page
               = map (file_of_item (Some "D1"%string)) (filter is_file items).
Proof.
  split; [reflexivity |]. split; [reflexivity |].
  destruct (browse_files Demo.tenant "sharepoint" (Some "D1"%string) None
              (Some "root"%string) (Demo.start false))
    as [[e | page] st'] eqn:Hrun.
  - exfalso. vm_compute in Hrun. discriminate.
  - exists page, st'. split; [reflexivity |].
    destruct (children_are_folders_files_or_dropped Demo.tenant
                (Some "D1"%string) None (Some "root"%string)
                (Demo.start false) page st' eq_refl eq_refl Hrun)
      as (items & w & Hgen & Hfo & Hfi & _).
    exists items, w. split; [exact Hgen | split; assumption].
Defined.

(** The package n is a child of the folder, and it is neither a file nor a
    folder of the page. *)
Lemma child_in_neither_list_counterexample :
  exists page st',
    browse_files Demo.tenant "sharepoint" (Some "D1"%string) None
      (Some "root"%string) (Demo.start false)
    = (inr page, st')
    /\ In Demo.package_n
          (fst (fst (list_drive_items Demo.tenant false "D1" None)))
    /\ d_id Demo.package_n = Some "n"%string
    /\ ~ In "n"%string (map fi_id (files page))
    /\ ~ In "n"%string (map fo_id (folders page))
    /\ length (files page) + length (folders page)
       < length (fst (fst (list_drive_items Demo.tenant false "D1" None))).
Proof.
  eexists _, _. split; [vm_compute; reflexivity |].
  split; [simpl; tauto |]. split; [reflexivity |].
  simpl. repeat split.
  - intros [H | [H | []]]; discriminate.
  - intros [H | []]; discriminate.
  - lia.
Qed.

Lemma onedrive_browse_lists_default_drive_witness :
  truthy None = false
  /\ browse_files Demo.tenant "onedrive" None None None (Demo.start false)
     = (inr (mkBrowseResponse
               (map (file_of_item (Some "D1"%string))
                  [Demo.file_b; Demo.file_c])
               (map (folder_of_item (Some "D1"%string)) [Demo.folder_a])
               (Some "/drives/D1"%string) None),
        mkState false
          [("https://graph.microsoft.com/v1.0/me/drive"%string,
            inr (Demo.site "D1" "OneDrive"))]).
Proof.
  split; [reflexivity |].
  apply (proj2 (onedrive_browse_lists_default_drive Demo.tenant None None None
                  (Demo.start false) (Demo.site "D1" "OneDrive")
                  (mkState false
                     [("https://graph.microsoft.com/v1.0/me/drive"%string,
                       inr (Demo.site "D1" "OneDrive"))])
                  eq_refl eq_refl)
           eq_refl
           [Demo.folder_a; Demo.file_b; Demo.package_n; Demo.file_c] false
           eq_refl).
  repeat (apply Forall_cons;
          [first [right; discriminate | left; reflexivity] |]).
  apply Forall_nil.
Defined.

(** * Further properties of the browser *)

Section BrowseLevels.

Context {World : Type}.
Variable source : Collaborators World.

Lemma traverse_drive_folder site_id drives :
  Forall (fun d => d_id d <> None) drives ->
  traverse (drive_folder site_id) drives
  = inr (map (folder_of_drive site_id) drives).
Proof.
  induction 1 as [| drive rest Hid _ IH]; simpl; [reflexivity |].
  rewrite IH. unfold drive_folder, new_FolderItem, folder_of_drive.
  destruct (d_id drive); [reflexivity | contradiction].
Qed.

(** X1.  With a site id and no drive id, when the site has document
    libraries that all carry an id and the lookup of the site succeeds, the
    page has no files and one folder per library, in the order of the
    upstream: its id, its name (Unknown Document Library when it has none)
    and the path /sites/<site>/drives/<id>; the current path is
    /sites/<site>/drives, and the endpoint has sent two requests, the
    listing of the drives and then the lookup of the site. *)
Theorem drives_of_a_site_are_listed
  drive_id folder_id site_id st data st1 site_data st2 :
  truthy site_id = true -> truthy drive_id = false ->
  _get_with_auth source (drives_url source site_id) st = (inr data, st1) ->
  get_or (d_value data) [] <> [] ->
  Forall (fun d => d_id d <> None) (get_or (d_value data) []) ->
  _get_with_auth source (site_url source site_id) st1 = (inr site_data, st2) ->
  browse_files source "sharepoint" drive_id folder_id site_id st
  = (inr (mkBrowseResponse []
            (map (folder_of_drive site_id) (get_or (d_value data) []))
            (Some ("/sites/" ++ fmt site_id ++ "/drives")%string) None),
     st2)
  /\ trace st2
     = trace st ++ [(drives_url source site_id, inr data);
                    (site_url source site_id, inr site_data)].
Proof.
  intros Hs Hd Hget Hne Hids Hsite. split.
  - rewrite browse_files_drives by assumption.
    unfold try_catch, browse_drives, bind at 1.
    unfold drives_url, site_url in *. rewrite Hget.
    destruct (get_or (d_value data) []) as [| drive drives] eqn:Hval;
      [contradiction |].
    unfold bind, lift, ret.
    rewrite (traverse_drive_folder site_id _ Hids), Hsite. reflexivity.
  - rewrite (get_trace source _ _ _ _ Hsite), (get_trace source _ _ _ _ Hget).
    now rewrite <- app_assoc.
Qed.

(** X2.  With a site id and no drive id, when the listing of the drives
    comes back empty, or without its value, the call fails with status 404,
    No document libraries found in this SharePoint site, and the lookup of
    the site is not sent. *)
Theorem site_without_drives_is_not_found
  drive_id folder_id site_id st data st1 :
  truthy site_id = true -> truthy drive_id = false ->
  _get_with_auth source (drives_url source site_id) st = (inr data, st1) ->
  get_or (d_value data) [] = [] ->
  browse_files source "sharepoint" drive_id folder_id site_id st
  = (inl (HTTPException 404
            "No document libraries found in this SharePoint site"), st1)
  /\ trace st1 = trace st ++ [(drives_url source site_id, inr data)].
Proof.
  intros Hs Hd Hget Hval. split.
  - rewrite browse_files_drives by assumption.
    unfold try_catch, browse_drives, bind. unfold drives_url in Hget.
    rewrite Hget, Hval. reflexivity.
  - exact (get_trace source _ _ _ _ Hget).
Qed.

(** X3.  With a site id and no drive id, an error status of the upstream
    is the status of the failed call: when the listing of the drives, or the
    lookup of the site after it, is answered with a status other than 401,
    the call fails with that status and the detail Failed to browse files
    followed by the text of the error.  The lookup of the site only feeds
    the log, and its failure fails the call all the same. *)
Theorem drive_level_errors_keep_the_upstream_status
  drive_id folder_id site_id st code message :
  truthy site_id = true -> truthy drive_id = false ->
  code <> 401%Z ->
  (forall st1,
     _get_with_auth source (drives_url source site_id) st
       = (inl (HTTPStatusError code message), st1) ->
     browse_files source "sharepoint" drive_id folder_id site_id st
     = (inl (HTTPException code
               ("Failed to browse files: "
                ++ str source (HTTPStatusError code message))%string), st1))
  /\ (forall data st1 st2,
        _get_with_auth source (drives_url source site_id) st
          = (inr data, st1) ->
        get_or (d_value data) [] <> [] ->
        Forall (fun d => d_id d <> None) (get_or (d_value data) []) ->
        _get_with_auth source (site_url source site_id) st1
          = (inl (HTTPStatusError code message), st2) ->
        browse_files source "sharepoint" drive_id folder_id site_id st
        = (inl (HTTPException code
                  ("Failed to browse files: "
                   ++ str source (HTTPStatusError code message))%string),
           st2)).
Proof.
  intros Hs Hd Hcode.
  assert (Hne : (code =? 401)%Z = false) by now apply Z.eqb_neq.
  split.
  - intros st1 Hget. rewrite browse_files_drives by assumption.
    unfold try_catch, browse_drives, bind. unfold drives_url in Hget.
    rewrite Hget. simpl. now rewrite Hne.
  - intros data st1 st2 Hget Hval Hids Hsite.
    rewrite browse_files_drives by assumption.
    unfold try_catch, browse_drives, bind at 1.
    unfold drives_url, site_url in *. rewrite Hget.
    destruct (get_or (d_value data) []) as [| drive drives] eqn:Hv;
      [contradiction |].
    unfold bind, lift.
    rewrite (traverse_drive_folder site_id _ Hids), Hsite. simpl.
    now rewrite Hne.
Qed.

(** ** The contents of a folder, on both providers *)

(** The third level of SharePoint in terms of the listing. *)
Lemma sharepoint_items_run drive_id folder_id site_id st :
  truthy site_id = true -> truthy drive_id = true ->
  browse_files source "sharepoint" drive_id folder_id site_id st
  = match list_items source drive_id folder_id st with
    | (inr acc, st') => (inr (items_response drive_id folder_id acc), st')
    | (inl e, st') =>
        (inl (HTTPException 500
                ("Failed to list files in folder: " ++ str source e)%string),
         st')
    end.
Proof.
  intros Hs Hd. rewrite browse_files_items by assumption.
  unfold try_catch, bind, raise, ret.
  destruct (list_items source drive_id folder_id st) as [[e | acc] st'];
    reflexivity.
Qed.

(** OneDrive with a drive id in terms of the listing. *)
Lemma onedrive_items_run drive_id folder_id site_id st :
  truthy drive_id = true ->
  browse_files source "onedrive" drive_id folder_id site_id st
  = match list_items source drive_id folder_id st with
    | (inr acc, st') => (inr (items_response drive_id folder_id acc), st')
    | (inl e, st') => browse_handlers source "onedrive" e st'
    end.
Proof.
  intros Hd. rewrite browse_files_onedrive.
  unfold try_catch, browse_onedrive, bind at 1. rewrite Hd. cbn [negb].
  unfold ret at 1. rewrite Hd. cbn [negb]. unfold bind, ret.
  destruct (list_items source drive_id folder_id st) as [[e | acc] st'];
    reflexivity.
Qed.

Lemma list_items_raised drive_id folder_id st items e w acc :
  list_drive_items source (world st) (fmt drive_id) folder_id
    = ((items, Some e), w) ->
  classify_items drive_id items ([], []) = inr acc ->
  list_items source drive_id folder_id st = (inl e, mkState w (trace st)).
Proof. intros Hgen Hc. unfold list_items. now rewrite Hgen, Hc. Qed.

(** X4.  With a site id and a drive id, the call returns a page or fails
    with status 500 and the detail Failed to list files in folder followed
    by the text of an exception, never with another status: when the
    listing ends with an exception after children that all classify, be it
    an error status of the upstream such as 401, 403 or 404, the call fails
    with status 500 and the text of that exception. *)
Theorem folder_level_failures_are_500 drive_id folder_id site_id st :
  truthy site_id = true -> truthy drive_id = true ->
  ((exists page,
      fst (browse_files source "sharepoint" drive_id folder_id site_id st)
      = inr page)
   \/ (exists e,
         fst (browse_files source "sharepoint" drive_id folder_id site_id st)
         = inl (HTTPException 500
                  ("Failed to list files in folder: "
                   ++ str source e)%string)))
  /\ (forall items e w acc,
        list_drive_items source (world st) (fmt drive_id) folder_id
          = ((items, Some e), w) ->
        classify_items drive_id items ([], []) = inr acc ->
        browse_files source "sharepoint" drive_id folder_id site_id st
        = (inl (HTTPException 500
                  ("Failed to list files in folder: "
                   ++ str source e)%string),
           mkState w (trace st))).
Proof.
  intros Hs Hd. rewrite sharepoint_items_run by assumption. split.
  - destruct (list_items source drive_id folder_id st) as [[e | acc] st'].
    + right. now exists e.
    + left. eexists. reflexivity.
  - intros items e w acc Hgen Hc.
    now rewrite (list_items_raised _ _ _ _ _ _ _ Hgen Hc).
Qed.

(** X5.  On OneDrive with a drive id, when the listing ends with an
    exception after children that all classify, an error status of the
    upstream other than 401 is the status of the failed call, with the
    detail Failed to browse files followed by the text of the error; an
    exception that is no HTTP error gives status 500 with the same detail.
    The endpoint sends no request of its own. *)
Theorem onedrive_listing_errors_keep_the_upstream_status
  drive_id folder_id site_id st items w acc :
  truthy drive_id = true ->
  classify_items drive_id items ([], []) = inr acc ->
  (forall code message,
     code <> 401%Z ->
     list_drive_items source (world st) (fmt drive_id) folder_id
       = ((items, Some (HTTPStatusError code message)), w) ->
     browse_files source "onedrive" drive_id folder_id site_id st
     = (inl (HTTPException code
               ("Failed to browse files: "
                ++ str source (HTTPStatusError code message))%string),
        mkState w (trace st)))
  /\ (forall message,
        list_drive_items source (world st) (fmt drive_id) folder_id
          = ((items, Some (Exception message)), w) ->
        browse_files source "onedrive" drive_id folder_id site_id st
        = (inl (HTTPException 500
                  ("Failed to browse files: "
                   ++ str source (Exception message))%string),
           mkState w (trace st))).
Proof.
  intros Hd Hc. split.
  - intros code message Hcode Hgen.
    rewrite onedrive_items_run by assumption.
    rewrite (list_items_raised _ _ _ _ _ _ _ Hgen Hc). simpl.
    apply Z.eqb_neq in Hcode. now rewrite Hcode.
  - intros message Hgen. rewrite onedrive_items_run by assumption.
    now rewrite (list_items_raised _ _ _ _ _ _ _ Hgen Hc).
Qed.

(** X6.  On OneDrive without a drive id, when the lookup of the default
    drive fails, the children are not listed.  An error status other than
    401 is the status of the failed call, with the detail Failed to browse
    files followed by the text of the error; an exception that is no HTTP
    error gives status 500 with the detail Failed to access OneDrive
    followed by its text. *)
Theorem default_drive_lookup_errors drive_id folder_id site_id st st1 :
  truthy drive_id = false ->
  (forall code message,
     code <> 401%Z ->
     _get_with_auth source "https://graph.microsoft.com/v1.0/me/drive" st
       = (inl (HTTPStatusError code message), st1) ->
     browse_files source "onedrive" drive_id folder_id site_id st
     = (inl (HTTPException code
               ("Failed to browse files: "
                ++ str source (HTTPStatusError code message))%string), st1))
  /\ (forall message,
        _get_with_auth source "https://graph.microsoft.com/v1.0/me/drive" st
          = (inl (Exception message), st1) ->
        browse_files source "onedrive" drive_id folder_id site_id st
        = (inl (HTTPException 500
                  ("Failed to access OneDrive: "
                   ++ str source (Exception message))%string), st1)).
Proof.
  intros Hd. split.
  - intros code message Hcode Hget. rewrite browse_files_onedrive.
    unfold try_catch at 1, browse_onedrive, bind at 1. rewrite Hd.
    cbn [negb]. unfold default_drive, try_catch, bind. rewrite Hget.
    apply Z.eqb_neq in Hcode. cbv beta iota. rewrite Hcode.
    unfold raise, browse_handlers. now rewrite Hcode.
  - intros message Hget. rewrite browse_files_onedrive.
    unfold try_catch at 1, browse_onedrive, bind at 1. rewrite Hd.
    cbn [negb]. unfold default_drive, try_catch, bind. rewrite Hget.
    reflexivity.
Qed.

Lemma browse_handlers_raise short_name e st :
  exists e', browse_handlers source short_name e st = (inl e', st).
Proof.
  destruct e; simpl; try (eexists; reflexivity).
  destruct (status_code =? 401)%Z; eexists; reflexivity.
Qed.

(** X7.  For the same drive id and folder id, the browse of a OneDrive
    connection returns a page exactly when the browse of a SharePoint
    connection with a site id does, and then the same page, in the same
    state: the two providers differ in how a failed listing is reported
    only. *)
Theorem both_providers_list_a_drive_alike
  drive_id folder_id site_id other_site_id st page st' :
  truthy site_id = true -> truthy drive_id = true ->
  browse_files source "sharepoint" drive_id folder_id site_id st
    = (inr page, st')
  <-> browse_files source "onedrive" drive_id folder_id other_site_id st
      = (inr page, st').
Proof.
  intros Hs Hd. rewrite sharepoint_items_run, onedrive_items_run by assumption.
  destruct (list_items source drive_id folder_id st) as [[e | acc] s1].
  - destruct (browse_handlers_raise "onedrive" e s1) as (e' & ->).
    split; discriminate.
  - reflexivity.
Qed.

(** X8.  In a page of the contents of a folder, the path of every file and
    of every folder is /drives/<drive id>/items/<id of the entry>, every
    folder has the type folder and every file the type file: the id of the
    drive and the id of the entry can be read back from the path. *)
Theorem entries_carry_their_drive_and_id
  drive_id folder_id site_id st page st' :
  truthy site_id = true -> truthy drive_id = true ->
  browse_files source "sharepoint" drive_id folder_id site_id st
    = (inr page, st') ->
  Forall (fun f => fo_path f
                   = ("/drives/" ++ fmt drive_id ++ "/items/" ++ fo_id f)%string
                   /\ fo_type f = "folder"%string) (folders page)
  /\ Forall (fun f => fi_path f
                      = ("/drives/" ++ fmt drive_id ++ "/items/"
                         ++ fi_id f)%string
                      /\ fi_type f = "file"%string) (files page).
Proof.
  intros Hs Hd. rewrite sharepoint_items_run by assumption.
  destruct (list_items source drive_id folder_id st) as [[e | acc] s1] eqn:Hl;
    [discriminate |].
  intros [= <- <-].
  destruct (list_items_inr source _ _ _ _ _ Hl) as (items & w & _ & _ & ->).
  cbn [items_response folders files fst snd]. split.
  - apply Forall_forall. intros f Hf. apply in_map_iff in Hf.
    destruct Hf as (item & <- & _). split; reflexivity.
  - apply Forall_forall. intros f Hf. apply in_map_iff in Hf.
    destruct Hf as (item & <- & _). split; reflexivity.
Qed.

(** ** Every page *)

Lemma traverse_inr_Forall {A B : Type} (f : A -> exn + B) (P : B -> Prop) l :
  (forall x b, f x = inr b -> P b) ->
  forall bs, traverse f l = inr bs -> Forall P bs.
Proof.
  intros Hf. induction l as [| x rest IH]; simpl; intros bs.
  - intros [= <-]. constructor.
  - destruct (f x) as [e | b] eqn:Hx; [discriminate |].
    destruct (traverse f rest) as [e | bs']; [discriminate |].
    intros [= <-]. constructor; eauto.
Qed.

Lemma traverse_inr_length {A B : Type} (f : A -> exn + B) l :
  forall bs, traverse f l = inr bs -> length bs = length l.
Proof.
  induction l as [| x rest IH]; simpl; intros bs.
  - now intros [= <-].
  - destruct (f x) as [e | b]; [discriminate |].
    destruct (traverse f rest) as [e | bs']; [discriminate |].
    intros [= <-]. simpl. now rewrite (IH bs').
Qed.

(** A page returned at the second level. *)
Lemma browse_drives_page drive_id folder_id site_id st page st' :
  truthy site_id = true -> truthy drive_id = false ->
  browse_files source "sharepoint" drive_id folder_id site_id st
    = (inr page, st') ->
  files page = []
  /\ current_path page = Some ("/sites/" ++ fmt site_id ++ "/drives")%string
  /\ parent_path page = None
  /\ Forall (fun f => fo_type f = "folder"%string) (folders page)
  /\ folders page <> [].
Proof.
  intros Hs Hd. rewrite browse_files_drives by assumption.
  unfold try_catch, browse_drives, bind at 1.
  destruct (_get_with_auth source _ st) as [[e | data] st1].
  { destruct (browse_handlers_raise "sharepoint" e st1) as (e' & ->).
    discriminate. }
  destruct (get_or (d_value data) []) as [| drive drives] eqn:Hv;
    [discriminate |].
  unfold bind, lift.
  destruct (traverse (drive_folder site_id) (drive :: drives))
    as [e | fs] eqn:Htr.
  { destruct (browse_handlers_raise "sharepoint" e st1) as (e' & ->).
    discriminate. }
  destruct (_get_with_auth source _ st1) as [[e | site_data] st2].
  { destruct (browse_handlers_raise "sharepoint" e st2) as (e' & ->).
    discriminate. }
  unfold ret. intros [= <- <-]. cbn [files current_path parent_path folders].
  repeat (split; [reflexivity |]). split.
  - eapply traverse_inr_Forall; [| exact Htr].
    intros x b. unfold drive_folder, new_FolderItem.
    destruct (d_id x); [| discriminate]. now intros [= <-].
  - apply traverse_inr_length in Htr. destruct fs; [discriminate |].
    discriminate.
Qed.

(** OneDrive without a drive id, once the default drive is found. *)
Lemma onedrive_default_run drive_id folder_id site_id st d st1 :
  truthy drive_id = false ->
  _get_with_auth source "https://graph.microsoft.com/v1.0/me/drive" st
    = (inr d, st1) ->
  browse_files source "onedrive" drive_id folder_id site_id st
  = if negb (truthy (d_id d))
    then (inl (HTTPException 404 "No OneDrive found"), st1)
    else
      match list_items source (d_id d) folder_id st1 with
      | (inr acc, st') => (inr (items_response (d_id d) folder_id acc), st')
      | (inl e, st') => browse_handlers source "onedrive" e st'
      end.
Proof.
  intros Hd Hget. rewrite browse_files_onedrive.
  unfold try_catch at 1, browse_onedrive, bind at 1. rewrite Hd.
  cbn [negb]. unfold default_drive, try_catch at 1, bind at 1.
  rewrite Hget. unfold ret at 1. cbv beta iota.
  destruct (negb (truthy (d_id d))); [reflexivity |].
  unfold bind, ret.
  destruct (list_items source (d_id d) folder_id st1) as [[e | acc] st'];
    reflexivity.
Qed.

(** OneDrive without a drive id, when the lookup fails. *)
Lemma onedrive_default_fails drive_id folder_id site_id st e st1 :
  truthy drive_id = false ->
  _get_with_auth source "https://graph.microsoft.com/v1.0/me/drive" st
    = (inl e, st1) ->
  exists e',
    browse_files source "onedrive" drive_id folder_id site_id st
    = (inl e', st1).
Proof.
  intros Hd Hget. rewrite browse_files_onedrive.
  unfold try_catch at 1, browse_onedrive, bind at 1. rewrite Hd.
  cbn [negb]. unfold default_drive, try_catch at 1, bind at 1.
  rewrite Hget.
  destruct e; cbv beta iota; unfold raise;
    try (eexists; reflexivity).
  destruct (status_code =? 401)%Z eqn:Hc; cbv beta iota.
  - eexists; reflexivity.
  - unfold browse_handlers. rewrite Hc. eexists; reflexivity.
Qed.

Lemma items_page_shape drive_id folder_id st acc st' :
  list_items source drive_id folder_id st = (inr acc, st') ->
  Forall (fun f => fo_type f = "folder"%string) (snd acc)
  /\ Forall (fun f => fi_type f = "file"%string) (fst acc).
Proof.
  intros Hl.
  destruct (list_items_inr source _ _ _ _ _ Hl) as (items & w & _ & _ & ->).
  cbn [fst snd]. split; apply Forall_forall; intros f Hf;
    apply in_map_iff in Hf; destruct Hf as (item & <- & _); reflexivity.
Qed.

(** X9.  Every page that the endpoint returns, at any level and for both
    providers, has no parent path; its folders have the type folder and its
    files the type file; and it is of one of three kinds: the list of the
    sites, with the current path /sites and no files; the list of the
    drives of the site, with the current path /sites/<site>/drives, no
    files and at least one folder; or the contents of a folder of a drive
    whose id is not empty, with the current path /drives/<drive>, followed
    by /items/<folder> when a folder id is given. *)
Theorem returned_pages_are_well_formed
  short_name drive_id folder_id site_id st page st' :
  browse_files source short_name drive_id folder_id site_id st
    = (inr page, st') ->
  parent_path page = None
  /\ Forall (fun f => fo_type f = "folder"%string) (folders page)
  /\ Forall (fun f => fi_type f = "file"%string) (files page)
  /\ ((current_path page = Some "/sites"%string /\ files page = [])
      \/ (current_path page
          = Some ("/sites/" ++ fmt site_id ++ "/drives")%string
          /\ files page = [] /\ folders page <> [])
      \/ (exists d,
            truthy d = true
            /\ current_path page
               = Some ("/drives/" ++ fmt d
                       ++ (if truthy folder_id
                           then "/items/" ++ fmt folder_id
                           else ""))%string)).
Proof.
  destruct (String.eqb_spec short_name "sharepoint") as [-> | Hsp].
  - destruct (truthy site_id) eqn:Hs; [destruct (truthy drive_id) eqn:Hd |].
    + rewrite sharepoint_items_run by assumption.
      destruct (list_items source drive_id folder_id st)
        as [[e | acc] s1] eqn:Hl; [discriminate |].
      intros [= <- <-]. destruct (items_page_shape _ _ _ _ _ Hl) as (Hfo & Hfi).
      cbn [items_response parent_path folders files current_path].
      repeat (split; [auto |]). right. right. now exists drive_id.
    + intros Hrun.
      destruct (browse_drives_page _ _ _ _ _ _ Hs Hd Hrun)
        as (Hf & Hc & Hp & Hfo & Hne).
      rewrite Hf. repeat (split; [auto |]). right. left. auto.
    + intros Hrun.
      destruct (browse_sites_page source _ _ _ _ _ _ Hs Hrun) as (-> & _ & _).
      cbn [parent_path folders files current_path].
      split; [reflexivity |]. split.
      * apply Forall_forall. intros f Hf. apply in_map_iff in Hf.
        destruct Hf as (x & <- & _). reflexivity.
      * split; [constructor |]. left. auto.
  - destruct (String.eqb_spec short_name "onedrive") as [-> | Hod].
    + destruct (truthy drive_id) eqn:Hd.
      * rewrite onedrive_items_run by assumption.
        destruct (list_items source drive_id folder_id st)
          as [[e | acc] s1] eqn:Hl.
        { destruct (browse_handlers_raise "onedrive" e s1) as (e' & ->).
          discriminate. }
        intros [= <- <-].
        destruct (items_page_shape _ _ _ _ _ Hl) as (Hfo & Hfi).
        cbn [items_response parent_path folders files current_path].
        repeat (split; [auto |]). right. right. now exists drive_id.
      * destruct (_get_with_auth source
                    "https://graph.microsoft.com/v1.0/me/drive" st)
          as [[e | d] st1] eqn:Hget.
        { destruct (onedrive_default_fails _ folder_id site_id _ _ _ Hd Hget)
            as (e' & ->). discriminate. }
        rewrite (onedrive_default_run _ folder_id site_id _ _ _ Hd Hget).
        destruct (truthy (d_id d)) eqn:Hid; cbn [negb]; [| discriminate].
        destruct (list_items source (d_id d) folder_id st1)
          as [[e | acc] s1] eqn:Hl.
        { destruct (browse_handlers_raise "onedrive" e s1) as (e' & ->).
          discriminate. }
        intros [= <- <-].
        destruct (items_page_shape _ _ _ _ _ Hl) as (Hfo & Hfi).
        cbn [items_response parent_path folders files current_path].
        repeat (split; [auto |]). right. right. now exists (d_id d).
    + unfold browse_files.
      apply String.eqb_neq in Hsp, Hod. rewrite Hsp, Hod. discriminate.
Qed.

(** ** The size of the list of sites *)

Lemma first_occurrences_length l : forall seen,
  length (first_occurrences seen l) <= length l.
Proof.
  induction l as [| site rest IH]; intros seen; simpl; [lia |].
  destruct (truthy (d_id site)
            && negb (existsb (fun i => opt_eqb i (d_id site)) seen)); simpl.
  - specialize (IH (seen ++ [d_id site])). lia.
  - specialize (IH seen). lia.
Qed.

Lemma add_if_new_length batch all_sites :
  length (fold_left add_if_new batch all_sites)
  <= length all_sites + length batch.
Proof.
  rewrite add_if_new_spec, length_app.
  pose proof (first_occurrences_length batch (map d_id all_sites)). lia.
Qed.

Lemma add_site_length root_site_id batch sites_list :
  length (fold_left (add_site root_site_id) batch sites_list)
  <= length sites_list + length batch.
Proof.
  rewrite add_site_spec, length_app.
  pose proof (first_occurrences_length batch
                (root_site_id :: map d_id sites_list)). lia.
Qed.

Lemma get_page_size k url st d st' :
  page_size_at_most source k ->
  _get_with_auth source url st = (inr d, st') ->
  length (get_or (d_value d) []) <= k.
Proof.
  intros Hk. unfold _get_with_auth.
  destruct (get_with_auth source (world st) url) as [r w] eqn:Hget.
  intros [= -> <-]. eapply Hk; eauto.
Qed.

Lemma merge_followed_sites_length k all_sites st :
  page_size_at_most source k ->
  forall all_sites' st',
    merge_followed_sites source all_sites st = (inr all_sites', st') ->
    length all_sites' <= length all_sites + k.
Proof.
  intros Hk all_sites' st'. unfold merge_followed_sites, try_catch, bind, ret.
  destruct (_get_with_auth source (followed_sites_url source) st)
    as [[e | d] s1] eqn:Hget; intros [= <- <-]; [lia |].
  pose proof (get_page_size _ _ _ _ _ Hk Hget).
  pose proof (add_if_new_length (get_or (d_value d) []) all_sites). lia.
Qed.

Lemma for_groups_length groups : forall all_sites st all_sites' st',
  for_groups source groups all_sites st = (inr all_sites', st') ->
  length all_sites' <= length all_sites + length groups.
Proof.
  induction groups as [| group rest IH]; intros all_sites st all_sites' st';
    simpl.
  - intros [= <- <-]. lia.
  - unfold bind, add_group_site, try_catch, bind, ret.
    destruct (_get_with_auth source (group_site_url source group) st)
      as [[e | d] s1].
    + intros H. apply IH in H. lia.
    + destruct (truthy (d_id d) && negb (any_id (d_id d) all_sites));
        intros H; apply IH in H; rewrite ?length_app in H; simpl in H; lia.
Qed.

Lemma merge_group_sites_length all_sites st all_sites' st' :
  merge_group_sites source all_sites st = (inr all_sites', st') ->
  length all_sites' <= length all_sites + 20.
Proof.
  unfold merge_group_sites, try_catch, bind, ret.
  destruct (_get_with_auth source (groups_url source) st) as [[e | d] s1].
  - intros [= <- <-]. lia.
  - destruct (for_groups source (firstn 20 (get_or (d_value d) []))
                all_sites s1) as [[e | a] s2] eqn:Hfor.
    + intros [= <- <-]. lia.
    + intros [= <- <-]. apply for_groups_length in Hfor.
      pose proof (firstn_le_length 20 (get_or (d_value d) [])). lia.
Qed.

(** The pagination adds a page to a list of fewer than 200 sites only. *)
Lemma more_pages_length k root_site_id next_url sites_list page_count st :
  page_size_at_most source k ->
  length (fst (fst (more_pages source root_site_id next_url sites_list
                      page_count st)))
  <= Nat.max (length sites_list) (199 + k).
Proof.
  intros Hk.
  funelim (more_pages source root_site_id next_url sites_list page_count st).
  - cbn [fst]. lia.
  - cbn [fst]. lia.
  - pose proof (get_page_size _ _ _ _ _ Hk Heq) as Hsize.
    pose proof (add_site_length root_site_id
                  (get_or (d_value next_data) []) sites_list) as Hadd.
    assert (Hlt : length sites_list < 200).
    { pose proof Hc as Hc'. unfold more_pages_cond in Hc'.
      apply andb_prop in Hc'. destruct Hc' as [Hc' _].
      apply andb_prop in Hc'. destruct Hc' as [_ Hc'].
      now apply Nat.ltb_lt in Hc'. }
    specialize (H k Hk). lia.
Qed.

(** X10.  When every listing that the upstream answers has at most k
    entries, the list of sites of a browse without a site id, and so the
    folders of its page, has at most max (21 + 2k) (199 + k) entries: with
    the pages of 100 entries that the requests ask for, at most 299.  The
    bound of 200 sites stops the pagination; it does not cut the list. *)
Theorem site_list_size_is_bounded k drive_id folder_id site_id st :
  page_size_at_most source k ->
  truthy site_id = false ->
  length (fst (list_sites source st)) <= Nat.max (21 + 2 * k) (199 + k)
  /\ (forall page st',
        browse_files source "sharepoint" drive_id folder_id site_id st
          = (inr page, st') ->
        length (folders page) <= Nat.max (21 + 2 * k) (199 + k)).
Proof.
  intros Hk Hsite.
  assert (Hlen : length (fst (list_sites source st))
                 <= Nat.max (21 + 2 * k) (199 + k)).
  { unfold list_sites, fetch_root_site, collect_sites.
    assert (Hroot : forall sl s,
              (match _get_with_auth source (root_site_url source) st with
               | (inr d, st') => ([root_entry d], st')
               | (inl _, st') => ([], st')
               end) = (sl, s) -> length sl <= 1).
    { intros sl s.
      destruct (_get_with_auth source (root_site_url source) st)
        as [[e | d] s0]; intros [= <- <-]; simpl; lia. }
    destruct (match _get_with_auth source (root_site_url source) st with
              | (inr d, st') => ([root_entry d], st')
              | (inl _, st') => ([], st')
              end) as [sl0 st1] eqn:H0.
    specialize (Hroot _ _ eq_refl).
    destruct (fetch_all_sites source st1) as [[e | data] st2] eqn:H1.
    { cbn [fst]. lia. }
    assert (Hdata : length (get_or (d_value data) []) <= k).
    { unfold fetch_all_sites, try_catch in H1.
      destruct (_get_with_auth source (sites_search_url source) st1)
        as [[e | d] s1] eqn:Hs.
      - eapply get_page_size; eauto.
      - injection H1 as <- <-. eapply get_page_size; eauto. }
    unfold bind.
    destruct (merge_followed_sites source (get_or (d_value data) []) st2)
      as [[e | a1] st3] eqn:H2; [cbn [fst]; lia |].
    destruct (merge_group_sites source a1 st3) as [[e | a2] st4] eqn:H3;
      [cbn [fst]; lia |].
    apply (merge_followed_sites_length k) in H2; [| exact Hk].
    apply merge_group_sites_length in H3.
    set (rid := match sl0 with [] => None | s :: _ => d_id s end).
    pose proof (more_pages_length k rid (d_nextLink data)
                  (fold_left (add_site rid) a2 sl0) 1 st4 Hk) as Hmore.
    pose proof (add_site_length rid a2 sl0) as Hadd.
    destruct (more_pages source rid (d_nextLink data)
                (fold_left (add_site rid) a2 sl0) 1 st4) as [[sl raised] st5].
    cbn [fst] in *. lia. }
  split; [exact Hlen |].
  intros page st' Hrun.
  destruct (browse_sites_page source _ _ _ _ _ _ Hsite Hrun) as (-> & _ & _).
  cbn [folders]. now rewrite length_map.
Qed.

End BrowseLevels.

(** * Further properties of the transfer *)

Section UploadExtras.

Context {World : Type}.
Variable source : Collaborators World.
Variable short_name : string.
Variable req : FileUploadRequest.

Ltac next_call :=
  match goal with
  | |- context [get_with_auth source ?x ?y] =>
      destruct (get_with_auth source x y) as [[?e | ?file_data] ?w] eqn:?Hmeta
  | |- context [get_download_url source ?x ?y ?z] =>
      destruct (get_download_url source x y z) as [[?e | ?url] ?w] eqn:?Hurl
  | |- context [build_file_entity source ?x ?y] =>
      destruct (build_file_entity source x y) as [[?e | [?ent | ]] ?w]
        eqn:?Hbuild
  | |- context [download_from_url source ?x ?y] =>
      destruct (download_from_url source x y) as [[?e | ?ent] ?w] eqn:?Hdl
  | |- context [bulk_insert source ?x ?y] =>
      destruct (bulk_insert source x y) as [[?e | ?u] ?w] eqn:?Hins
  end; cbn -[String.append String.eqb file_url entity_args].

Ltac open_item :=
  unfold upload_item, item_body, try_catch, bind, call, _get_with_auth, ret;
  cbn -[String.append String.eqb file_url entity_args].

Ltac shaped :=
  unfold result_shape; cbn [status error s3_path];
  first
    [ left; split; [reflexivity | split; [reflexivity | discriminate]]
    | right; left; split; [reflexivity | split; [discriminate | reflexivity]]
    | right; right; split;
      [reflexivity | split; [discriminate | reflexivity]] ].

Ltac found_shaped c :=
  eexists c, _, _; (split; [| intros t; reflexivity]); shaped.

(** The result that one iteration appends has one of the three shapes. *)
Lemma upload_item_shape fid st :
  exists c r st',
    result_shape r
    /\ forall t,
         upload_item source short_name req t fid st
         = (inr (bump c t r), st').
Proof.
  open_item.
  next_call; [found_shaped Failed |].
  destruct (d_file file_data); [| found_shaped Skipped].
  next_call; [found_shaped Failed |].
  destruct (negb (truthy url));
    cbn -[String.append String.eqb file_url entity_args];
    [found_shaped Failed |].
  next_call; [found_shaped Failed | | found_shaped Skipped].
  next_call; [found_shaped Failed |].
  destruct (negb (truthy (local_path ent0)));
    cbn -[String.append String.eqb file_url entity_args];
    [found_shaped Failed |].
  next_call; [found_shaped Failed | found_shaped Successful].
Qed.

Lemma upload_loop_shape ids : forall t st t' st',
  upload_loop source short_name req ids t st = (inr t', st') ->
  Forall result_shape (t_results t) ->
  Forall result_shape (t_results t').
Proof.
  induction ids as [| fid rest IH]; intros t st t' st'; simpl.
  - now intros [= <- <-].
  - destruct (upload_item_shape fid st) as (c & r & st1 & Hr & Hrun).
    unfold bind. rewrite Hrun. intros Hloop Hall.
    eapply IH; [exact Hloop |]. rewrite bump_results.
    apply Forall_app. split; [exact Hall | now constructor].
Qed.

Lemma count_with_destination l :
  Forall result_shape l ->
  count_status "success" l
  = length (filter (fun r => match s3_path r with
                             | Some _ => true
                             | None => false
                             end) l).
Proof.
  unfold count_status.
  induction 1 as [| r rest Hr _ IH]; simpl; [reflexivity |].
  destruct Hr as [(Hs & _ & Hp) | [(Hs & _ & Hp) | (Hs & _ & Hp)]];
    rewrite Hs; simpl.
  - destruct (s3_path r); [simpl; now rewrite IH | contradiction].
  - rewrite Hp. exact IH.
  - rewrite Hp. exact IH.
Qed.

(** X11.  In every report, a result has a destination path exactly when
    its status is success, and then it has no error; a failed or a skipped
    result has an error text and no destination path; there is no other
    status.  So the counter of the successes is the number of results that
    carry a destination path. *)
Theorem results_carry_a_destination_or_an_error st rep st' :
  upload_selected_files source short_name req st = (inr rep, st') ->
  Forall result_shape (results rep)
  /\ successful rep
     = length (filter (fun r => match s3_path r with
                                | Some _ => true
                                | None => false
                                end) (results rep)).
Proof.
  unfold upload_selected_files.
  destruct (negb ((short_name =? "sharepoint")%string
                  || (short_name =? "onedrive")%string)); [discriminate |].
  unfold try_catch, bind, ret.
  destruct (upload_loop_spec source short_name req (file_ids req) tally0 st)
    as (t & s1 & Hloop & _ & Hcnt & _).
  rewrite Hloop. intros [= <- <-]. cbn [results successful].
  assert (Hshape : Forall result_shape (t_results t)).
  { eapply upload_loop_shape; [exact Hloop | constructor]. }
  split; [exact Hshape |].
  destruct Hcnt as (Hsu & _); [repeat split |].
  rewrite Hsu. now apply count_with_destination.
Qed.

(** One iteration sends one request, for the metadata of its file id. *)
Lemma upload_item_trace fid t st :
  exists r,
    trace (snd (upload_item source short_name req t fid st))
    = trace st ++ [(file_url source short_name req fid, r)].
Proof.
  open_item.
  next_call; [eexists; reflexivity |].
  destruct (d_file file_data); [| eexists; reflexivity].
  next_call; [eexists; reflexivity |].
  destruct (negb (truthy url));
    cbn -[String.append String.eqb file_url entity_args];
    [eexists; reflexivity |].
  next_call; try (eexists; reflexivity).
  next_call; [eexists; reflexivity |].
  destruct (negb (truthy (local_path ent0)));
    cbn -[String.append String.eqb file_url entity_args];
    [eexists; reflexivity |].
  next_call; eexists; reflexivity.
Qed.

Lemma upload_loop_trace ids : forall t st,
  exists evs,
    trace (snd (upload_loop source short_name req ids t st))
    = trace st ++ evs
    /\ map fst evs = map (file_url source short_name req) ids.
Proof.
  induction ids as [| fid rest IH]; intros t st; simpl.
  - exists []. now rewrite app_nil_r.
  - destruct (upload_item_trace fid t st) as (r & Htr).
    destruct (upload_item_uniform source short_name req fid st)
      as (c & x & st1 & _ & _ & Hrun).
    unfold bind. rewrite Hrun in *. cbn [snd] in Htr.
    destruct (IH (bump c t x) st1) as (evs & Hevs & Hmap).
    exists ((file_url source short_name req fid, r) :: evs).
    rewrite Hevs, Htr, <- app_assoc. split; [reflexivity |].
    simpl. now rewrite Hmap.
Qed.

(** X12.  A transfer sends exactly one metadata request per requested file
    id, in the order of the ids, to the item URL of that id: an id that is
    repeated is fetched again, an item that fails is not retried, and the
    endpoint itself makes no other call of the authenticated GET of the
    source (what the other methods of the source send is not recorded). *)
Theorem one_metadata_request_per_file_id st :
  (short_name =? "sharepoint")%string || (short_name =? "onedrive")%string
    = true ->
  exists evs,
    trace (snd (upload_selected_files source short_name req st))
    = trace st ++ evs
    /\ map fst evs = map (file_url source short_name req) (file_ids req).
Proof.
  intros Hprov. unfold upload_selected_files. rewrite Hprov. cbn [negb].
  destruct (upload_loop_trace (file_ids req) tally0 st) as (evs & Htr & Hmap).
  exists evs. split; [| exact Hmap].
  unfold try_catch, bind, ret.
  destruct (upload_loop source short_name req (file_ids req) tally0 st)
    as [[e | t] s1]; exact Htr.
Qed.

(** ** What a success stands for *)

(** The steps that a successful iteration has gone through, and the world
    in which it leaves. *)
Lemma success_chain fid st r :
  run_results source short_name req [fid] st = [r] ->
  status r = "success"%string ->
  exists file_data file_info w1 url w2 ent w3 ent' w4 w5,
    get_with_auth source (world st) (file_url source short_name req fid)
      = (inr file_data, w1)
    /\ d_file file_data = Some file_info
    /\ get_download_url source w1 (drive_id req) fid = (inr url, w2)
    /\ truthy url = true
    /\ build_file_entity source w2
         (entity_args short_name req file_data (get_or url ""%string))
       = (inr (Some ent), w3)
    /\ download_from_url source w3 ent = (inr ent', w4)
    /\ truthy (local_path ent') = true
    /\ bulk_insert source w4 [ent'] = (inr tt, w5)
    /\ world (run_state source short_name req [fid] st) = w5
    /\ r = mkFileUploadResult fid (entity_name ent') "success" None
             (Some (s3_path_of source ent')).
Proof.
  unfold run_results, run_state. simpl. unfold bind.
  open_item.
  next_call; [intros [= <-]; discriminate |].
  destruct (d_file file_data) as [file_info |] eqn:Hfile;
    [| intros [= <-]; discriminate].
  next_call; [intros [= <-]; discriminate |].
  destruct (truthy url) eqn:Htruthy;
    cbn -[String.append String.eqb file_url entity_args];
    [| intros [= <-]; discriminate].
  next_call; [intros [= <-]; discriminate | | intros [= <-]; discriminate].
  next_call; [intros [= <-]; discriminate |].
  destruct (truthy (local_path ent0)) eqn:Hlocal;
    cbn -[String.append String.eqb file_url entity_args];
    [| intros [= <-]; discriminate].
  next_call; [intros [= <-]; discriminate |].
  intros [= <-] _. destruct u.
  exists file_data, file_info, w, url, w0, ent, w1, ent0, w2, w3.
  repeat (split; [assumption || reflexivity |]). reflexivity.
Qed.

(** The result at a position is the result of the iteration for the id at
    that position, started in the state that the ids before it have left. *)
Lemma run_results_at ids j fid st :
  nth_error ids j = Some fid ->
  nth_error (run_results source short_name req ids st) j
  = nth_error
      (run_results source short_name req [fid]
         (run_state source short_name req (firstn j ids) st)) 0
  /\ run_state source short_name req (firstn (S j) ids) st
     = run_state source short_name req [fid]
         (run_state source short_name req (firstn j ids) st).
Proof.
  intros Hj. destruct (nth_error_split _ _ Hj) as (l1 & l2 & -> & Hlen).
  assert (H1 : firstn j (l1 ++ fid :: l2) = l1).
  { rewrite <- Hlen, firstn_app, firstn_all, Nat.sub_diag. simpl.
    apply app_nil_r. }
  assert (H2 : firstn (S j) (l1 ++ fid :: l2) = l1 ++ [fid]).
  { rewrite <- Hlen, firstn_app, firstn_all2 by lia.
    replace (S (length l1) - length l1) with 1 by lia. reflexivity. }
  rewrite H1, H2. split.
  - rewrite (run_results_app source short_name req).
    rewrite nth_error_app2
      by (rewrite (run_results_length source short_name req); lia).
    rewrite (run_results_length source short_name req), Hlen, Nat.sub_diag.
    change (fid :: l2) with ([fid] ++ l2).
    rewrite (run_results_app source short_name req).
    pose proof (run_results_length source short_name req [fid]
                  (run_state source short_name req l1 st)) as Hone.
    destruct (run_results source short_name req [fid]
                (run_state source short_name req l1 st)) as [| r [| ? ?]];
      try discriminate.
    reflexivity.
  - apply (run_state_app source short_name req).
Qed.

(** X13.  A result with the status success at a position of the report
    stands for an item that was inserted in this run: its file id is the
    requested id at that position, and in the state that the ids before it
    have left, the metadata of that id carried the file marker, its download
    URL was obtained, its record was built, its download left local content
    and its insert into the destination returned, leaving the world in
    which the next iteration starts.  Its name is the name of the record
    that was inserted, and its destination path is
    s3://<bucket>/<prefix>collections/<readable id>/blobs/<id of that
    record>. *)
Theorem a_success_was_inserted st rep st' j r :
  upload_selected_files source short_name req st = (inr rep, st') ->
  nth_error (results rep) j = Some r ->
  status r = "success"%string ->
  nth_error (file_ids req) j = Some (file_id r)
  /\ exists file_data file_info w1 url w2 ent w3 ent' w4 w5,
       get_with_auth source
         (world (run_state source short_name req
                   (firstn j (file_ids req)) st))
         (file_url source short_name req (file_id r))
         = (inr file_data, w1)
       /\ d_file file_data = Some file_info
       /\ get_download_url source w1 (drive_id req) (file_id r)
          = (inr url, w2)
       /\ truthy url = true
       /\ build_file_entity source w2
            (entity_args short_name req file_data (get_or url ""%string))
          = (inr (Some ent), w3)
       /\ download_from_url source w3 ent = (inr ent', w4)
       /\ truthy (local_path ent') = true
       /\ bulk_insert source w4 [ent'] = (inr tt, w5)
       /\ world (run_state source short_name req
                   (firstn (S j) (file_ids req)) st) = w5
       /\ file_name r = entity_name ent'
       /\ s3_path r
          = Some ("s3://" ++ bucket_name source ++ "/"
                  ++ bucket_prefix source ++ "collections/"
                  ++ readable_id source ++ "/blobs/"
                  ++ entity_id ent')%string.
Proof.
  unfold upload_selected_files.
  destruct (negb ((short_name =? "sharepoint")%string
                  || (short_name =? "onedrive")%string)); [discriminate |].
  unfold try_catch, bind, ret.
  destruct (upload_loop_spec source short_name req (file_ids req) tally0 st)
    as (t & s1 & Hloop & _ & _ & Hids).
  rewrite Hloop. intros [= <- <-]. cbn [results]. intros Hj Hst.
  assert (Hfid : nth_error (file_ids req) j = Some (file_id r)).
  { simpl in Hids. rewrite <- Hids. now rewrite nth_error_map, Hj. }
  split; [exact Hfid |].
  destruct (run_results_at _ _ _ st Hfid) as (Hnth & Hstate).
  unfold run_results at 1 in Hnth. rewrite Hloop, Hj in Hnth.
  pose proof (run_results_length source short_name req [file_id r]
                (run_state source short_name req
                   (firstn j (file_ids req)) st)) as Hlen.
  destruct (run_results source short_name req [file_id r]
              (run_state source short_name req (firstn j (file_ids req)) st))
    as [| r0 [| ? ?]] eqn:Hrun; try discriminate.
  injection Hnth as <-.
  destruct (success_chain _ _ _ Hrun Hst)
    as (fd & fi & w1 & url & w2 & ent & w3 & ent' & w4 & w5
        & H1 & H2 & H3 & H4 & H5 & H6 & H7 & H8 & H9 & Hr).
  exists fd, fi, w1, url, w2, ent, w3, ent', w4, w5.
  repeat (split; [assumption |]).
  split; [now rewrite Hstate |].
  rewrite Hr at 1 2. split; reflexivity.
Qed.

(** ** Requests put end to end *)

Lemma upload_loop_other_ids ids0 ids : forall t st,
  upload_loop source short_name (with_file_ids req ids0) ids t st
  = upload_loop source short_name req ids t st.
Proof.
  induction ids as [| fid rest IH]; intros t st; [reflexivity |].
  simpl. unfold bind.
  change (upload_item source short_name (with_file_ids req ids0) t fid st)
    with (upload_item source short_name req t fid st).
  destruct (upload_item source short_name req t fid st) as [[e | t1] st1];
    [reflexivity | apply IH].
Qed.

(** The loop started with a tally adds to it what it adds to the empty
    tally. *)
Lemma upload_loop_offset ids : forall t a st ta st',
  upload_loop source short_name req ids a st = (inr ta, st') ->
  upload_loop source short_name req ids
    (mkTally (t_results t ++ t_results a)
       (t_successful t + t_successful a) (t_failed t + t_failed a)
       (t_skipped t + t_skipped a)) st
  = (inr (mkTally (t_results t ++ t_results ta)
            (t_successful t + t_successful ta) (t_failed t + t_failed ta)
            (t_skipped t + t_skipped ta)), st').
Proof.
  induction ids as [| fid rest IH]; intros t a st ta st'; simpl.
  - now intros [= <- <-].
  - destruct (upload_item_uniform source short_name req fid st)
      as (c & r & st1 & _ & _ & Hrun).
    unfold bind. rewrite !Hrun. intros Hloop.
    specialize (IH t (bump c a r) st1 ta st' Hloop).
    rewrite <- IH. f_equal.
    destruct c; unfold bump, add_successful, add_failed, add_skipped;
      cbn [t_results t_successful t_failed t_skipped];
      rewrite app_assoc, ?Nat.add_assoc; reflexivity.
Qed.

(** X14.  The report of a request for the ids of two lists put end to end
    is made of the report for the first list and of the report for the
    second list run in the state that the first has left: the results are
    put end to end and each counter is the sum of the two. *)
Theorem report_of_ids_put_end_to_end ids1 ids2 st rep1 st1 rep2 st2 :
  upload_selected_files source short_name (with_file_ids req ids1) st
    = (inr rep1, st1) ->
  upload_selected_files source short_name (with_file_ids req ids2) st1
    = (inr rep2, st2) ->
  upload_selected_files source short_name (with_file_ids req (ids1 ++ ids2))
    st
  = (inr (mkFileUploadResponse
            (total_files rep1 + total_files rep2)
            (successful rep1 + successful rep2)
            (failed rep1 + failed rep2)
            (skipped rep1 + skipped rep2)
            (results rep1 ++ results rep2)), st2).
Proof.
  unfold upload_selected_files.
  destruct (negb ((short_name =? "sharepoint")%string
                  || (short_name =? "onedrive")%string)); [discriminate |].
  unfold try_catch, bind, ret. cbn [file_ids with_file_ids].
  rewrite !upload_loop_other_ids.
  destruct (upload_loop source short_name req ids1 tally0 st)
    as [[e | t1] s1] eqn:H1; [discriminate |].
  intros [= <- <-].
  destruct (upload_loop source short_name req ids2 tally0 s1)
    as [[e | t2] s2] eqn:H2; [discriminate |].
  intros [= <- <-]. cbn [total_files successful failed skipped results].
  assert (Happ : upload_loop source short_name req (ids1 ++ ids2) tally0 st
                 = (inr (mkTally (t_results t1 ++ t_results t2)
                           (t_successful t1 + t_successful t2)
                           (t_failed t1 + t_failed t2)
                           (t_skipped t1 + t_skipped t2)), s2)).
  { clear - H1 H2. revert H1. generalize tally0 at 1 2. revert st.
    induction ids1 as [| fid rest IH]; intros st a; simpl.
    - intros [= <- <-].
      pose proof (upload_loop_offset ids2 a tally0 st t2 s2 H2) as Hoff.
      simpl in Hoff. rewrite app_nil_r, !Nat.add_0_r in Hoff.
      destruct a. exact Hoff.
    - unfold bind.
      destruct (upload_item source short_name req a fid st)
        as [[e | a1] s0]; [discriminate | apply IH]. }
  rewrite Happ. now rewrite length_app.
Qed.

End UploadExtras.

(** * Properties of the selection script *)

Section SelectionScript.

Lemma prefix_app n t : String.prefix n (n ++ t)%string = true.
Proof.
  induction n as [| c n IH]; simpl; [now destruct t |].
  destruct (ascii_dec c c) as [_ | Hne]; [exact IH | now elim Hne].
Qed.

Lemma prefix_split n : forall s,
  String.prefix n s = true -> exists t, s = (n ++ t)%string.
Proof.
  induction n as [| c n IH]; intros s.
  - intros _. now exists s.
  - destruct s as [| a s]; simpl; [discriminate |].
    destruct (ascii_dec c a) as [-> | _]; [| discriminate].
    intros H. destruct (IH _ H) as (t & ->). now exists t.
Qed.

Lemma contains_split n : forall s,
  contains n s = true -> exists a b, s = (a ++ n ++ b)%string.
Proof.
  induction s as [| c s IH]; cbn [contains]; intros H.
  - rewrite orb_false_r in H. apply prefix_split in H.
    destruct H as (t & ->). now exists EmptyString, t.
  - apply orb_prop in H. destruct H as [H | H].
    + apply prefix_split in H. destruct H as (t & Ht).
      exists EmptyString, t. exact Ht.
    + destruct (IH H) as (a & b & ->). now exists (String c a), b.
Qed.

Lemma contains_app n a b : contains n (a ++ n ++ b)%string = true.
Proof.
  induction a as [| c a IH].
  - change (EmptyString ++ n ++ b)%string with (n ++ b)%string.
    destruct (n ++ b)%string eqn:Hnb; cbn [contains]; rewrite <- Hnb;
      now rewrite prefix_app.
  - change (String c a ++ n ++ b)%string with (String c (a ++ n ++ b))%string.
    cbn [contains]. rewrite IH. apply orb_true_r.
Qed.

Lemma split_not_nil sep s : split sep s <> [].
Proof.
  destruct s as [| c s]; simpl; [discriminate |].
  destruct (Ascii.eqb c sep); [discriminate |].
  destruct (split sep s); discriminate.
Qed.

(** A text without the separator is one piece. *)
Lemma split_one_piece sep d : has_char sep d = false -> split sep d = [d].
Proof.
  induction d as [| c d IH]; simpl; [reflexivity |].
  intros H. apply orb_false_elim in H. destruct H as [Hc Hd].
  rewrite Hc, (IH Hd). reflexivity.
Qed.

(** The first piece ends at the first separator. *)
Lemma split_first_piece sep d t :
  has_char sep d = false ->
  split sep (d ++ String sep t)%string = d :: split sep t.
Proof.
  induction d as [| c d IH]; simpl.
  - intros _. now rewrite Ascii.eqb_refl.
  - intros H. apply orb_false_elim in H. destruct H as [Hc Hd].
    rewrite Hc, (IH Hd). reflexivity.
Qed.

(** There is one piece more than there are separators. *)
Lemma split_length sep s : length (split sep s) = S (count_char sep s).
Proof.
  induction s as [| c s IH]; simpl; [reflexivity |].
  destruct (Ascii.eqb c sep); simpl; [now rewrite IH |].
  destruct (split sep s) eqn:Hs; simpl in *; lia.
Qed.

Lemma count_char_app c a b :
  count_char c (a ++ b)%string = count_char c a + count_char c b.
Proof. induction a as [| x a IH]; simpl; [reflexivity | rewrite IH; lia]. Qed.

(** The path of the contents of a drive, split at the slashes. *)
Lemma split_drive_path drive tail :
  has_char "/" drive = false ->
  tail = EmptyString \/ (exists t, tail = String "/" t) ->
  nth_error (split "/" ("/drives/" ++ drive ++ tail)%string) 2 = Some drive.
Proof.
  intros Hd Htail.
  change ("/drives/" ++ drive ++ tail)%string
    with (String "/" ("drives" ++ String "/" (drive ++ tail)))%string.
  cbn [split]. rewrite Ascii.eqb_refl.
  rewrite split_first_piece by reflexivity. cbn [nth_error].
  destruct Htail as [-> | (t & ->)].
  - replace (drive ++ "")%string with drive.
    + now rewrite split_one_piece.
    + clear. induction drive as [| c d IH]; simpl; [reflexivity |].
      now rewrite <- IH.
  - now rewrite split_first_piece.
Qed.

Lemma split_pieces_have_no_separator sep s :
  Forall (fun piece => has_char sep piece = false) (split sep s).
Proof.
  induction s as [| c s IH]; simpl; [repeat constructor |].
  destruct (Ascii.eqb c sep) eqn:Hc; [constructor; [reflexivity | exact IH] |].
  destruct (split sep s) as [| piece pieces]; [repeat constructor |].
  - simpl. now rewrite Hc.
  - inversion IH as [| ? ? Hp Hps]. subst. constructor; [| exact Hps].
    simpl. now rewrite Hc, Hp.
Qed.

(** X15.  The drive id that the script reads back from the current path of
    a page of the contents of a folder is the id of the drive that was
    listed, as long as that id contains no slash: the drive id of the
    request, on either provider, or the id of the default drive that
    OneDrive answered when the request had none.  A folder id does not
    disturb it. *)
Theorem drive_id_is_read_back_from_the_page
  {World : Type} (source : Collaborators World)
  short_name drive_id drive folder_id site_id st page st' :
  (truthy drive_id = true /\ drive_id = Some drive
   /\ (short_name = "onedrive"%string
       \/ (short_name = "sharepoint"%string /\ truthy site_id = true)))
  \/ (short_name = "onedrive"%string /\ truthy drive_id = false
      /\ exists d st1,
           _get_with_auth source "https://graph.microsoft.com/v1.0/me/drive"
             st = (inr d, st1)
           /\ d_id d = Some drive) ->
  has_char "/" drive = false ->
  browse_files source short_name drive_id folder_id site_id st
    = (inr page, st') ->
  drive_id_of (current_path page) = inr (Some drive).
Proof.
  intros Hcase Hslash Hrun.
  assert (Hpath : current_path page
                  = Some ("/drives/" ++ drive
                          ++ (if truthy folder_id
                              then "/items/" ++ fmt folder_id
                              else ""))%string).
  { destruct Hcase as [(Hd & -> & [-> | (-> & Hs)])
                      | (-> & Hd & d & st1 & Hget & Hid)].
    - rewrite onedrive_items_run in Hrun by assumption.
      destruct (list_items source (Some drive) folder_id st)
        as [[e | acc] s1].
      + destruct (browse_handlers_raise source "onedrive" e s1) as (e' & He).
        rewrite He in Hrun. discriminate.
      + injection Hrun as <- _. reflexivity.
    - rewrite sharepoint_items_run in Hrun by assumption.
      destruct (list_items source (Some drive) folder_id st)
        as [[e | acc] s1]; [discriminate |].
      injection Hrun as <- _. reflexivity.
    - rewrite (onedrive_default_run source _ folder_id site_id _ _ _ Hd Hget)
        in Hrun.
      destruct (negb (truthy (d_id d))); [discriminate |].
      destruct (list_items source (d_id d) folder_id st1)
        as [[e | acc] s1].
      + destruct (browse_handlers_raise source "onedrive" e s1) as (e' & He).
        rewrite He in Hrun. discriminate.
      + injection Hrun as <- _. rewrite Hid. reflexivity. }
  rewrite Hpath. unfold drive_id_of.
  change ("/drives/" ++ drive
          ++ (if truthy folder_id then "/items/" ++ fmt folder_id else ""))%string
    with (EmptyString ++ "/drives/"
          ++ (drive
              ++ (if truthy folder_id
                  then "/items/" ++ fmt folder_id else "")))%string.
  rewrite contains_app.
  change (EmptyString ++ "/drives/"
          ++ (drive
              ++ (if truthy folder_id
                  then "/items/" ++ fmt folder_id else "")))%string
    with ("/drives/" ++ drive
          ++ (if truthy folder_id
              then "/items/" ++ fmt folder_id else ""))%string.
  rewrite split_drive_path; [reflexivity | exact Hslash |].
  destruct (truthy folder_id); [right | left; reflexivity].
  eexists. reflexivity.
Qed.

(** X16.  Reading the drive id back from a path never runs past the pieces
    of the path: a path that contains /drives/ has a third piece, so the
    lookup gives a piece, which contains no slash, and a path that does not
    contain it gives none. *)
Theorem drive_id_lookup_stays_in_range path :
  (exists found, drive_id_of (Some path) = inr found)
  /\ (forall piece,
        drive_id_of (Some path) = inr (Some piece) ->
        contains "/drives/" path = true /\ has_char "/" piece = false)
  /\ (contains "/drives/" path = false -> drive_id_of (Some path) = inr None).
Proof.
  unfold drive_id_of. destruct (contains "/drives/" path) eqn:Hc.
  - destruct (contains_split _ _ Hc) as (a & b & Hab).
    assert (Hlen : 3 <= length (split "/" path)).
    { rewrite split_length, Hab, !count_char_app. simpl. lia. }
    destruct (nth_error (split "/" path) 2) as [piece |] eqn:Hnth.
    + split; [eexists; reflexivity |]. split; [| discriminate].
      intros p [= <-]. split; [reflexivity |].
      pose proof (split_pieces_have_no_separator "/" path) as Hall.
      rewrite Forall_forall in Hall. apply Hall.
      eapply nth_error_In; eauto.
    + apply nth_error_None in Hnth. lia.
  - split; [eexists; reflexivity |]. split; [discriminate | reflexivity].
Qed.

Lemma selected_files_app files i1 i2 :
  selected_files files (i1 ++ i2)
  = selected_files files i1 ++ selected_files files i2.
Proof. unfold selected_files. apply flat_map_app. Qed.

(** X17.  The files that the script selects are files of the page, taken
    in the order of the numbers typed, a number typed twice giving its file
    twice: the number n stands for the n-th file of the whole list, and a
    number below 1 or above the number of files selects nothing, so that no
    number counts from the end of the list. *)
Theorem selection_keeps_the_numbers_in_range files :
  (forall numbers,
     incl (selected_files files (selected_indices numbers)) files
     /\ length (selected_file_ids files numbers) <= length numbers)
  /\ (forall n,
        (n < 1 \/ Z.of_nat (length files) < n)%Z ->
        selected_file_ids files [n] = [])
  /\ (forall n,
        (1 <= n <= Z.of_nat (length files))%Z ->
        exists f,
          nth_error files (Z.to_nat n - 1) = Some f
          /\ selected_file_ids files [n] = [fi_id f])
  /\ (forall numbers1 numbers2,
        selected_file_ids files (numbers1 ++ numbers2)
        = selected_file_ids files numbers1
          ++ selected_file_ids files numbers2).
Proof.
  split; [| split; [| split]].
  - intros numbers. unfold selected_file_ids, selected_indices.
    rewrite length_map. split.
    + intros f Hf. unfold selected_files in Hf. apply in_flat_map in Hf.
      destruct Hf as (i & _ & Hf).
      destruct ((0 <=? i)%Z && (i <? Z.of_nat (length files))%Z);
        [| destruct Hf].
      destruct (nth_error files (Z.to_nat i)) as [g |] eqn:Hg;
        [| destruct Hf].
      destruct Hf as [<- | []]. eapply nth_error_In; eauto.
    + induction numbers as [| n rest IH]; simpl; [lia |].
      rewrite length_app.
      destruct ((0 <=? n - 1)%Z && (n - 1 <? Z.of_nat (length files))%Z);
        [| simpl; lia].
      destruct (nth_error files (Z.to_nat (n - 1))); simpl; lia.
  - intros n Hn. unfold selected_file_ids, selected_indices, selected_files.
    simpl.
    replace ((0 <=? n - 1)%Z && (n - 1 <? Z.of_nat (length files))%Z)
      with false; [reflexivity |].
    symmetry. apply andb_false_iff.
    destruct Hn as [Hn | Hn]; [left; apply Z.leb_gt | right; apply Z.ltb_ge];
      lia.
  - intros n Hn. unfold selected_file_ids, selected_indices, selected_files.
    simpl.
    replace ((0 <=? n - 1)%Z && (n - 1 <? Z.of_nat (length files))%Z)
      with true.
    + replace (Z.to_nat (n - 1)) with (Z.to_nat n - 1) by lia.
      destruct (nth_error files (Z.to_nat n - 1)) as [f |] eqn:Hf.
      * exists f. split; reflexivity.
      * apply nth_error_None in Hf. lia.
    + symmetry. apply andb_true_iff.
      split; [apply Z.leb_le | apply Z.ltb_lt]; lia.
  - intros numbers1 numbers2.
    unfold selected_file_ids, selected_indices.
    now rewrite map_app, selected_files_app, map_app.
Qed.

Lemma nth_at_the_end {A : Type} (l : list A) (d : A) :
  nth (length l - 1) l d = last l d.
Proof.
  induction l as [| x l IH]; [reflexivity |].
  destruct l as [| y rest]; [reflexivity |].
  replace (length (x :: y :: rest) - 1) with (S (length (y :: rest) - 1))
    by (simpl; lia).
  change (last (x :: y :: rest) d) with (last (y :: rest) d).
  cbn [nth]. exact IH.
Qed.

(** X18.  The collection that the script takes for a number typed is the
    n-th of the list for a number n between 1 and the number of
    collections, and an IndexError for a number above it; but the number 0
    takes the last collection, and a number below zero counts from the end
    of the list, unlike the numbers of the files. *)
Theorem collection_number_zero_is_the_last {A : Type}
  (collections : list A) (default : A) :
  collections <> [] ->
  chosen_collection collections 0 = inr (last collections default)
  /\ (forall n,
        (1 <= n <= Z.of_nat (length collections))%Z ->
        chosen_collection collections n
        = inr (nth (Z.to_nat n - 1) collections default))
  /\ (forall n,
        (Z.of_nat (length collections) < n)%Z ->
        chosen_collection collections n = inl IndexError)
  /\ (forall n,
        (- Z.of_nat (length collections) < n <= 0)%Z ->
        chosen_collection collections n
        = inr (nth (length collections - 1 - Z.to_nat (- n)) collections
                 default)).
Proof.
  intros Hne.
  assert (Hlen : 0 < length collections).
  { destruct collections; [contradiction | simpl; lia]. }
  assert (Hneg : forall n,
            (- Z.of_nat (length collections) < n <= 0)%Z ->
            chosen_collection collections n
            = inr (nth (length collections - 1 - Z.to_nat (- n)) collections
                     default)).
  { intros n Hn. unfold chosen_collection, python_index.
    replace (n - 1 <? 0)%Z with true by (symmetry; apply Z.ltb_lt; lia).
    replace ((0 <=? Z.of_nat (length collections) + (n - 1))%Z
             && (Z.of_nat (length collections) + (n - 1)
                 <? Z.of_nat (length collections))%Z) with true.
    - replace (Z.to_nat (Z.of_nat (length collections) + (n - 1)))
        with (length collections - 1 - Z.to_nat (- n)) by lia.
      destruct (nth_error collections
                  (length collections - 1 - Z.to_nat (- n))) as [x |] eqn:Hx.
      + now rewrite (nth_error_nth _ _ default Hx).
      + apply nth_error_None in Hx. lia.
    - symmetry. apply andb_true_iff.
      split; [apply Z.leb_le | apply Z.ltb_lt]; lia. }
  split; [| split; [| split]].
  - rewrite (Hneg 0%Z) by lia. f_equal.
    replace (length collections - 1 - Z.to_nat (- 0)) with
      (length collections - 1) by lia.
    apply nth_at_the_end.
  - intros n Hn. unfold chosen_collection, python_index.
    replace (n - 1 <? 0)%Z with false by (symmetry; apply Z.ltb_ge; lia).
    replace ((0 <=? n - 1)%Z && (n - 1 <? Z.of_nat (length collections))%Z)
      with true.
    + replace (Z.to_nat (n - 1)) with (Z.to_nat n - 1) by lia.
      destruct (nth_error collections (Z.to_nat n - 1)) as [x |] eqn:Hx.
      * now rewrite (nth_error_nth _ _ default Hx).
      * apply nth_error_None in Hx. lia.
    + symmetry. apply andb_true_iff.
      split; [apply Z.leb_le | apply Z.ltb_lt]; lia.
  - intros n Hn. unfold chosen_collection, python_index.
    replace (n - 1 <? 0)%Z with false by (symmetry; apply Z.ltb_ge; lia).
    replace ((0 <=? n - 1)%Z && (n - 1 <? Z.of_nat (length collections))%Z)
      with false; [reflexivity |].
    symmetry. apply andb_false_iff. right. apply Z.ltb_ge. lia.
  - exact Hneg.
Qed.

End SelectionScript.

(** * The further properties on the concrete tenant *)

Lemma tenant_page_size : page_size_at_most Demo.tenant 4.
Proof.
  intros w url d w' H. cbv [Demo.tenant get_with_auth Demo.graph] in H.
  repeat match type of H with
         | (if ?c then _ else _) = _ => destruct c
         end;
    first [discriminate H | injection H as <- _; simpl; lia].
Defined.

Lemma drives_of_a_site_are_listed_witness :
  truthy (Some "root"%string) = true /\ truthy None = false
  /\ fst (browse_files Demo.tenant "sharepoint" None None (Some "root"%string)
            (Demo.start false))
     = inr (mkBrowseResponse []
              [mkFolderItem "D1" "Documents" "/sites/root/drives/D1" "folder"]
              (Some "/sites/root/drives"%string) None).
Proof.
  split; [reflexivity |]. split; [reflexivity |].
  rewrite (proj1 (drives_of_a_site_are_listed Demo.tenant None None
                    (Some "root"%string) (Demo.start false)
                    (Demo.listing [Demo.site "D1" "Documents"] None)
                    (mkState false
                       [((Demo.base ++ "/sites/root/drives")%string,
                         inr (Demo.listing [Demo.site "D1" "Documents"]
                                None))])
                    (Demo.site "root" "Home")
                    (mkState false
                       [((Demo.base ++ "/sites/root/drives")%string,
                         inr (Demo.listing [Demo.site "D1" "Documents"]
                                None));
                        ((Demo.base ++ "/sites/root")%string,
                         inr (Demo.site "root" "Home"))])
                    eq_refl eq_refl eq_refl
                    ltac:(discriminate)
                    ltac:(repeat constructor; discriminate)
                    eq_refl)).
  reflexivity.
Defined.

Lemma site_without_drives_is_not_found_witness :
  truthy (Some "root"%string) = true /\ truthy None = false
  /\ fst (browse_files Demo.vacant "sharepoint" None None (Some "root"%string)
            (Demo.start false))
     = inl (HTTPException 404
              "No document libraries found in this SharePoint site").
Proof.
  split; [reflexivity |]. split; [reflexivity |].
  rewrite (proj1 (site_without_drives_is_not_found Demo.vacant None None
                    (Some "root"%string) (Demo.start false)
                    (Demo.listing [] None)
                    (mkState false
                       [((Demo.base ++ "/sites/root/drives")%string,
                         inr (Demo.listing [] None))])
                    eq_refl eq_refl eq_refl eq_refl)).
  reflexivity.
Defined.

Lemma drive_level_errors_keep_the_upstream_status_witness :
  truthy (Some "root"%string) = true /\ truthy None = false
  /\ 403%Z <> 401%Z
  /\ fst (browse_files Demo.forbidden "sharepoint" None None
            (Some "root"%string) (Demo.start false))
     = inl (HTTPException 403 "Failed to browse files: 403 Forbidden").
Proof.
  split; [reflexivity |]. split; [reflexivity |]. split; [discriminate |].
  rewrite (proj1 (drive_level_errors_keep_the_upstream_status Demo.forbidden
                    None None (Some "root"%string) (Demo.start false)
                    403%Z "403 Forbidden" eq_refl eq_refl
                    ltac:(discriminate))
             (mkState false
                [((Demo.base ++ "/sites/root/drives")%string,
                  inl (HTTPStatusError 403 "403 Forbidden"))])
             eq_refl).
  reflexivity.
Defined.

Lemma folder_level_failures_are_500_witness :
  truthy (Some "root"%string) = true /\ truthy (Some "D1"%string) = true
  /\ fst (browse_files Demo.forbidden "sharepoint" (Some "D1"%string) None
            (Some "root"%string) (Demo.start false))
     = inl (HTTPException 500
              "Failed to list files in folder: 403 Forbidden").
Proof.
  split; [reflexivity |]. split; [reflexivity |].
  rewrite (proj2 (folder_level_failures_are_500 Demo.forbidden
                    (Some "D1"%string) None (Some "root"%string)
                    (Demo.start false) eq_refl eq_refl)
             [] (HTTPStatusError 403 "403 Forbidden") false ([], [])
             eq_refl eq_refl).
  reflexivity.
Defined.

Lemma onedrive_listing_errors_keep_the_upstream_status_witness :
  truthy (Some "D1"%string) = true /\ 403%Z <> 401%Z
  /\ fst (browse_files Demo.forbidden "onedrive" (Some "D1"%string) None None
            (Demo.start false))
     = inl (HTTPException 403 "Failed to browse files: 403 Forbidden").
Proof.
  split; [reflexivity |]. split; [discriminate |].
  rewrite (proj1 (onedrive_listing_errors_keep_the_upstream_status
                    Demo.forbidden (Some "D1"%string) None None
                    (Demo.start false) [] false ([], []) eq_refl eq_refl)
             403%Z "403 Forbidden" ltac:(discriminate) eq_refl).
  reflexivity.
Defined.

Lemma default_drive_lookup_errors_witness :
  truthy None = false /\ 403%Z <> 401%Z
  /\ browse_files Demo.forbidden "onedrive" None None None (Demo.start false)
     = (inl (HTTPException 403 "Failed to browse files: 403 Forbidden"),
        mkState false
          [("https://graph.microsoft.com/v1.0/me/drive"%string,
            inl (HTTPStatusError 403 "403 Forbidden"))]).
Proof.
  split; [reflexivity |]. split; [discriminate |].
  exact (proj1 (default_drive_lookup_errors Demo.forbidden None None None
                  (Demo.start false)
                  (mkState false
                     [("https://graph.microsoft.com/v1.0/me/drive"%string,
                       inl (HTTPStatusError 403 "403 Forbidden"))])
                  eq_refl)
           403%Z "403 Forbidden"%string ltac:(discriminate) eq_refl).
Defined.

Lemma both_providers_list_a_drive_alike_witness :
  truthy (Some "root"%string) = true /\ truthy (Some "D1"%string) = true
  /\ exists page st',
       browse_files Demo.tenant "sharepoint" (Some "D1"%string) None
         (Some "root"%string) (Demo.start false)
       = (inr page, st')
       /\ browse_files Demo.tenant "onedrive" (Some "D1"%string) None None
            (Demo.start false)
          = (inr page, st').
Proof.
  split; [reflexivity |]. split; [reflexivity |].
  destruct (browse_files Demo.tenant "sharepoint" (Some "D1"%string) None
              (Some "root"%string) (Demo.start false))
    as [[e | page] st'] eqn:Hrun.
  - exfalso. vm_compute in Hrun. discriminate.
  - exists page, st'. split; [reflexivity |].
    exact (proj1 (both_providers_list_a_drive_alike Demo.tenant
                    (Some "D1"%string) None (Some "root"%string) None
                    (Demo.start false) page st' eq_refl eq_refl) Hrun).
Defined.

Lemma entries_carry_their_drive_and_id_witness :
  truthy (Some "root"%string) = true /\ truthy (Some "D1"%string) = true
  /\ exists page st',
       browse_files Demo.tenant "sharepoint" (Some "D1"%string) None
         (Some "root"%string) (Demo.start false)
       = (inr page, st')
       /\ Forall (fun f => fi_path f
                           = ("/drives/D1/items/" ++ fi_id f)%string
                           /\ fi_type f = "file"%string) (files page).
Proof.
  split; [reflexivity |]. split; [reflexivity |].
  destruct (browse_files Demo.tenant "sharepoint" (Some "D1"%string) None
              (Some "root"%string) (Demo.start false))
    as [[e | page] st'] eqn:Hrun.
  - exfalso. vm_compute in Hrun. discriminate.
  - exists page, st'. split; [reflexivity |].
    exact (proj2 (entries_carry_their_drive_and_id Demo.tenant
                    (Some "D1"%string) None (Some "root"%string)
                    (Demo.start false) page st' eq_refl eq_refl Hrun)).
Defined.

Lemma returned_pages_are_well_formed_witness :
  exists page st',
    browse_files Demo.tenant "onedrive" None (Some "a"%string) None
      (Demo.start false)
    = (inr page, st')
    /\ parent_path page = None
    /\ Forall (fun f => fi_type f = "file"%string) (files page).
Proof.
  destruct (browse_files Demo.tenant "onedrive" None (Some "a"%string) None
              (Demo.start false))
    as [[e | page] st'] eqn:Hrun.
  - exfalso. vm_compute in Hrun. discriminate.
  - exists page, st'. split; [reflexivity |].
    destruct (returned_pages_are_well_formed Demo.tenant "onedrive" None
                (Some "a"%string) None (Demo.start false) page st' Hrun)
      as (Hparent & _ & Hfiles & _).
    split; assumption.
Defined.

Lemma site_list_size_is_bounded_witness :
  page_size_at_most Demo.tenant 4 /\ truthy None = false
  /\ length (fst (list_sites Demo.tenant (Demo.start false))) <= 203.
Proof.
  split; [exact tenant_page_size |]. split; [reflexivity |].
  exact (proj1 (site_list_size_is_bounded Demo.tenant 4 None None None
                  (Demo.start false) tenant_page_size eq_refl)).
Defined.

Lemma results_carry_a_destination_or_an_error_witness :
  exists rep st',
    upload_selected_files Demo.tenant "sharepoint"
      (Demo.request ["a"; "b"; "c"]%string) (Demo.start true)
    = (inr rep, st')
    /\ Forall (result_shape) (results rep)
    /\ successful rep
       = length (filter (fun r => match s3_path r with
                                  | Some _ => true
                                  | None => false
                                  end) (results rep)).
Proof.
  destruct (upload_selected_files Demo.tenant "sharepoint"
              (Demo.request ["a"; "b"; "c"]%string) (Demo.start true))
    as [[e | rep] st'] eqn:Hrun.
  - exfalso. vm_compute in Hrun. discriminate.
  - exists rep, st'. split; [reflexivity |].
    exact (results_carry_a_destination_or_an_error Demo.tenant "sharepoint"
             (Demo.request ["a"; "b"; "c"]%string) (Demo.start true) rep st'
             Hrun).
Defined.

Lemma one_metadata_request_per_file_id_witness :
  ("onedrive" =? "sharepoint")%string || ("onedrive" =? "onedrive")%string
    = true
  /\ exists evs,
       trace (snd (upload_selected_files Demo.tenant "onedrive"
                     (Demo.request ["b"; "a"; "b"]%string) (Demo.start true)))
       = evs
       /\ map fst evs
          = ["https://graph.microsoft.com/v1.0/drives/D1/items/b";
             "https://graph.microsoft.com/v1.0/drives/D1/items/a";
             "https://graph.microsoft.com/v1.0/drives/D1/items/b"]%string.
Proof.
  split; [reflexivity |].
  destruct (one_metadata_request_per_file_id Demo.tenant "onedrive"
              (Demo.request ["b"; "a"; "b"]%string) (Demo.start true) eq_refl)
    as (evs & Htrace & Hmap).
  exists evs. split; [exact Htrace | exact Hmap].
Defined.

Lemma a_success_was_inserted_witness :
  exists rep st',
    upload_selected_files Demo.tenant "sharepoint"
      (Demo.request ["a"; "b"]%string) (Demo.start false)
    = (inr rep, st')
    /\ nth_error (results rep) 1
       = Some (mkFileUploadResult "b" "b.txt" "success" None
                 (Some "s3://bucket/prefix/collections/my-collection/blobs/b"%string))
    /\ nth_error (file_ids (Demo.request ["a"; "b"]%string)) 1
       = Some "b"%string.
Proof.
  eexists _, _. split; [vm_compute; reflexivity |].
  split; [reflexivity |].
  exact (proj1 (a_success_was_inserted Demo.tenant "sharepoint"
                  (Demo.request ["a"; "b"]%string) (Demo.start false) _ _ 1
                  (mkFileUploadResult "b" "b.txt" "success" None
                     (Some "s3://bucket/prefix/collections/my-collection/blobs/b"%string))
                  eq_refl eq_refl eq_refl)).
Defined.

Lemma report_of_ids_put_end_to_end_witness :
  exists rep1 st1 rep2 st2,
    upload_selected_files Demo.tenant "sharepoint"
      (Demo.request ["a"; "b"]%string) (Demo.start false)
    = (inr rep1, st1)
    /\ upload_selected_files Demo.tenant "sharepoint"
         (Demo.request ["c"]%string) st1
       = (inr rep2, st2)
    /\ fst (upload_selected_files Demo.tenant "sharepoint"
              (Demo.request ["a"; "b"; "c"]%string) (Demo.start false))
       = inr (mkFileUploadResponse 3 2 0 1 (results rep1 ++ results rep2)).
Proof.
  destruct (upload_selected_files Demo.tenant "sharepoint"
              (Demo.request ["a"; "b"]%string) (Demo.start false))
    as [[e | rep1] st1] eqn:H1.
  { exfalso. vm_compute in H1. discriminate. }
  destruct (upload_selected_files Demo.tenant "sharepoint"
              (Demo.request ["c"]%string) st1)
    as [[e | rep2] st2] eqn:H2.
  { exfalso. vm_compute in H1. injection H1 as _ <-.
    vm_compute in H2. discriminate. }
  exists rep1, st1, rep2, st2. split; [reflexivity |]. split; [exact H2 |].
  pose proof (report_of_ids_put_end_to_end Demo.tenant "sharepoint"
                (Demo.request []) ["a"; "b"]%string ["c"]%string
                (Demo.start false) rep1 st1 rep2 st2 H1 H2) as Hrun.
  change (with_file_ids (Demo.request [])
            (["a"; "b"]%string ++ ["c"]%string)%list)
    with (Demo.request ["a"; "b"; "c"]%string) in Hrun.
  rewrite Hrun. cbn [fst].
  vm_compute in H1. injection H1 as <- _.
  vm_compute in H2. injection H2 as <- _. reflexivity.
Defined.

Lemma drive_id_is_read_back_from_the_page_witness :
  has_char "/" "D1" = false
  /\ exists page st',
       browse_files Demo.tenant "onedrive" None None None (Demo.start false)
       = (inr page, st')
       /\ drive_id_of (current_path page) = inr (Some "D1"%string).
Proof.
  split; [reflexivity |].
  destruct (browse_files Demo.tenant "onedrive" None None None
              (Demo.start false))
    as [[e | page] st'] eqn:Hrun.
  - exfalso. vm_compute in Hrun. discriminate.
  - exists page, st'. split; [reflexivity |].
    apply (drive_id_is_read_back_from_the_page Demo.tenant "onedrive" None
             "D1" None None (Demo.start false) page st');
      [| reflexivity | exact Hrun].
    right. split; [reflexivity |]. split; [reflexivity |].
    exists (Demo.site "D1" "OneDrive"),
      (mkState false
         [("https://graph.microsoft.com/v1.0/me/drive"%string,
           inr (Demo.site "D1" "OneDrive"))]).
    split; reflexivity.
Defined.

Lemma drive_id_lookup_stays_in_range_witness :
  contains "/drives/" "/sites/root/drives" = false
  /\ drive_id_of (Some "/sites/root/drives"%string) = inr None
  /\ exists found, drive_id_of (Some "/drives/"%string) = inr found.
Proof.
  split; [reflexivity |]. split.
  - exact (proj2 (proj2 (drive_id_lookup_stays_in_range "/sites/root/drives"))
             eq_refl).
  - exact (proj1 (drive_id_lookup_stays_in_range "/drives/")).
Defined.

Lemma selection_keeps_the_numbers_in_range_witness :
  (0 < 1 \/ Z.of_nat 2 < 0)%Z
  /\ selected_file_ids
       (map (file_of_item (Some "D1"%string)) [Demo.file_b; Demo.file_c])
       [0%Z]
     = []
  /\ (1 <= 2 <= Z.of_nat 2)%Z
  /\ exists f,
       nth_error
         (map (file_of_item (Some "D1"%string)) [Demo.file_b; Demo.file_c]) 1
       = Some f
       /\ selected_file_ids
            (map (file_of_item (Some "D1"%string)) [Demo.file_b; Demo.file_c])
            [2%Z]
          = [fi_id f].
Proof.
  split; [left; lia |]. split.
  - apply (proj1 (proj2 (selection_keeps_the_numbers_in_range
                           (map (file_of_item (Some "D1"%string))
                              [Demo.file_b; Demo.file_c])))).
    left. lia.
  - split; [simpl; lia |].
    apply (proj1 (proj2 (proj2 (selection_keeps_the_numbers_in_range
                                  (map (file_of_item (Some "D1"%string))
                                     [Demo.file_b; Demo.file_c])))) 2%Z).
    simpl. lia.
Defined.

Lemma collection_number_zero_is_the_last_witness :
  ["x"; "y"; "z"]%string <> []
  /\ chosen_collection ["x"; "y"; "z"]%string 0 = inr "z"%string
  /\ chosen_collection ["x"; "y"; "z"]%string (-1) = inr "y"%string
  /\ chosen_collection ["x"; "y"; "z"]%string 4
     = inl IndexError.
Proof.
  assert (Hne : ["x"; "y"; "z"]%string <> []) by discriminate.
  destruct (collection_number_zero_is_the_last ["x"; "y"; "z"]%string
              ""%string Hne) as (Hlast & _ & Habove & Hbelow).
  split; [exact Hne |]. split; [exact Hlast |]. split.
  - apply (Hbelow (-1)%Z). simpl. lia.
  - apply (Habove 4%Z). simpl. lia.
Defined.
